(** * crypto-forecast: the rolling evaluation engine and the result aggregator

    A shallow embedding of [src/model.py] (and of the split function of
    [src/prepare.py]).  pandas frames are column-major tables over a
    timestamp index, numpy/pandas floats are exact rationals extended with
    NaN and the two infinities, Python exceptions are the [Raise] branch of
    a result monad, dictionaries are finite maps, and the one dictionary
    that the code shares between assets lives in an explicit store. *)

From Stdlib Require Import QArith ZArith Lia.
From stdpp Require Import base gmap strings list fin_maps sorting pretty.

Open Scope Z_scope.
Open Scope nat_scope.

(** ** Floats

    A float is a rational, NaN (which pandas also uses for a missing
    cell), or an infinity (what a division by zero yields).  Rounding,
    overflow and the sign of zero are not represented.  Booleans stored in
    a numeric column are 1 and 0, as numpy coerces them. *)

Inductive float : Type :=
| Fin (q : Q)
| PInf
| NInf
| NaN.

Definition of_bool (b : bool) : float := if b then Fin 1 else Fin 0.

Definition isna (x : float) : bool :=
  match x with NaN => true | _ => false end.

Definition isinf (x : float) : bool :=
  match x with PInf | NInf => true | _ => false end.

Definition isfin (x : float) : bool :=
  match x with Fin _ => true | _ => false end.

Definition Qpos_b (q : Q) : bool := negb (Qle_bool q 0).
Definition Qzero_b (q : Q) : bool := Qeq_bool q 0.

Definition fneg (x : float) : float :=
  match x with
  | Fin q => Fin (- q)
  | PInf => NInf
  | NInf => PInf
  | NaN => NaN
  end.

Definition fadd (x y : float) : float :=
  match x, y with
  | NaN, _ | _, NaN => NaN
  | Fin a, Fin b => Fin (a + b)
  | PInf, NInf | NInf, PInf => NaN
  | PInf, _ | _, PInf => PInf
  | NInf, _ | _, NInf => NInf
  end.

Definition fsub (x y : float) : float :=
  match x, y with
  | NaN, _ | _, NaN => NaN
  | Fin a, Fin b => Fin (a - b)
  | PInf, PInf | NInf, NInf => NaN
  | PInf, _ | _, NInf => PInf
  | NInf, _ | _, PInf => NInf
  end.

Definition fmul (x y : float) : float :=
  match x, y with
  | NaN, _ | _, NaN => NaN
  | Fin a, Fin b => Fin (a * b)
  | Fin a, PInf | PInf, Fin a =>
      if Qzero_b a then NaN else if Qpos_b a then PInf else NInf
  | Fin a, NInf | NInf, Fin a =>
      if Qzero_b a then NaN else if Qpos_b a then NInf else PInf
  | PInf, PInf | NInf, NInf => PInf
  | PInf, NInf | NInf, PInf => NaN
  end.

Definition fdiv (x y : float) : float :=
  match x, y with
  | NaN, _ | _, NaN => NaN
  | Fin a, Fin b =>
      if Qzero_b b
      then (if Qzero_b a then NaN else if Qpos_b a then PInf else NInf)
      else Fin (a / b)
  | Fin _, _ => Fin 0
  | PInf, Fin b => if Qle_bool 0 b then PInf else NInf
  | NInf, Fin b => if Qle_bool 0 b then NInf else PInf
  | _, _ => NaN
  end.

(** [x > 0]; every comparison with NaN is false. *)
Definition fgt0 (x : float) : bool :=
  match x with
  | Fin q => Qpos_b q
  | PInf => true
  | _ => false
  end.

(** [x < y] and [x == y] on floats. *)
Definition fltb (x y : float) : bool :=
  match x, y with
  | NaN, _ | _, NaN => false
  | Fin a, Fin b => negb (Qle_bool b a)
  | Fin _, PInf | NInf, Fin _ | NInf, PInf => true
  | Fin _, NInf | NInf, NInf | PInf, _ => false
  end.

Definition feqb (x y : float) : bool :=
  match x, y with
  | Fin a, Fin b => Qeq_bool a b
  | PInf, PInf | NInf, NInf => true
  | _, _ => false
  end.

(** Numerical equality of two floats as a proposition; two NaNs are taken
    as the same missing value, as pandas' own frame comparison does. *)
Definition feq (x y : float) : Prop :=
  match x, y with
  | Fin a, Fin b => (a == b)%Q
  | PInf, PInf | NInf, NInf | NaN, NaN => True
  | _, _ => False
  end.

Definition fsum (l : list float) : float := foldr fadd (Fin 0) l.

Definition of_nat (n : nat) : float := Fin (inject_Z (Z.of_nat n)).

(** [np.mean]: NaN on an empty sequence, NaN as soon as one entry is NaN. *)
Definition np_mean (l : list float) : float :=
  match l with
  | [] => NaN
  | _ => fdiv (fsum l) (of_nat (length l))
  end.

(** [Series.mean()] of pandas, and the column mean of sklearn's scaler:
    missing entries are skipped. *)
Definition nanmean (l : list float) : float :=
  np_mean (filter (λ x, isna x = false) l).

(** ** Exceptions *)

Inductive exn : Type :=
| KeyboardInterrupt
| KeyError
| ValueError
| IndexError
| AttributeError
| OtherError.

Inductive result (A : Type) : Type :=
| Ok (a : A)
| Raise (e : exn).
Arguments Ok {A} a.
Arguments Raise {A} e.

#[global] Instance result_ret : MRet result := λ A a, Ok a.
#[global] Instance result_bind : MBind result := λ A B f m,
  match m with
  | Ok a => f a
  | Raise e => Raise e
  end.
#[global] Instance result_fmap : FMap result := λ A B f m,
  match m with
  | Ok a => Ok (f a)
  | Raise e => Raise e
  end.

Definition of_option {A} (e : exn) (o : option A) : result A :=
  match o with
  | Some a => Ok a
  | None => Raise e
  end.

Definition is_ok {A} (r : result A) : bool :=
  match r with Ok _ => true | Raise _ => false end.

(** [for x in xs: st = body(st, x)], stopping at the first exception. *)
Fixpoint for_each {S A} (body : S → A → result S) (xs : list A) (st : S)
  : result S :=
  match xs with
  | [] => Ok st
  | x :: xs' => st' ← body st x; for_each body xs' st'
  end.

(** ** Frames

    A [DataFrame] holds its row labels (timestamps) and its columns in
    column order; every column has one cell per row label.  A [Series]
    taken out of a frame row is its name and its labelled cells. *)

Record DataFrame : Type := mkDF {
  index : list Z;
  columns : list (string * list float)
}.

Definition Series : Type := (Z * list (string * float))%type.

Fixpoint assoc {A} (c : string) (l : list (string * A)) : option A :=
  match l with
  | [] => None
  | (c', v) :: l' => if decide (c = c') then Some v else assoc c l'
  end.

Definition len (df : DataFrame) : nat := length (index df).

Definition labels (df : DataFrame) : list string := (columns df).*1.

(** [df[c]] / [df.c] *)
Definition col (c : string) (df : DataFrame) : result (list float) :=
  of_option KeyError (assoc c (columns df)).

(** [df[cs]] *)
Definition select (cs : list string) (df : DataFrame) : result DataFrame :=
  vs ← mapM (λ c, v ← col c df; mret (c, v)) cs;
  mret (mkDF (index df) vs).

(** [df.drop(columns = cs)] *)
Definition drop_columns (cs : list string) (df : DataFrame) : result DataFrame :=
  _ ← mapM (λ c, col c df) cs;
  mret (mkDF (index df)
          (filter (λ cv : string * list float, cv.1 ∉ cs) (columns df))).

(** [pd.concat([a, b], axis=1)] of two frames over the same row labels. *)
Definition concat_columns (a b : DataFrame) : DataFrame :=
  mkDF (index a) (columns a ++ columns b).

(** [df.iloc[1:]] *)
Definition iloc_tail (df : DataFrame) : DataFrame :=
  mkDF (tail (index df)) (prod_map id tail <$> columns df).

(** [df.iloc[i]] *)
Definition iloc (i : nat) (df : DataFrame) : result Series :=
  t ← of_option IndexError (index df !! i);
  cells ← mapM (λ cv : string * list float,
                  x ← of_option IndexError (cv.2 !! i); mret (cv.1, x))
               (columns df);
  mret (t, cells).

(** [df.append(row)]: the row is aligned on the column labels; a label the
    row lacks gets a missing cell.  (Every row appended below has the very
    labels of the frame, so no column is ever added.) *)
Definition append (df : DataFrame) (row : Series) : DataFrame :=
  mkDF (index df ++ [row.1])
       ((λ cv : string * list float,
           (cv.1, cv.2 ++ [default NaN (assoc cv.1 row.2)])) <$> columns df).

(** [pd.DataFrame(data = array, columns = cs, index = idx)] for an array
    given by its columns. *)
Definition frame_of_array (data : list (list float)) (cs : list string)
    (idx : list Z) : result DataFrame :=
  if decide (length data = length cs)
  then Ok (mkDF idx (zip cs data))
  else Raise ValueError.

(** ** The collaborators outside the repository

    What [src/model.py] imports is taken as an interface: the scale
    statistic that sklearn's [StandardScaler] fits for a column (its
    standard deviation), numpy's square root, an sklearn estimator with its
    recursive-feature-elimination mask, and the one-step ARIMA forecast of
    statsmodels. *)

Class StdDev : Type := std : list float → float.

Class Sqrt : Type := np_sqrt : float → float.

(** [ARIMA(history, order = order).fit().forecast()[0]] *)
Class Arima : Type := arima_forecast : list float → nat * nat * nat → result float.

Class Estimator (M : Type) : Type := {
  (** [m.__repr__().split('()')[0]] *)
  model_name : M → string;
  (** [m.fit(X, y)]: the estimator as it is after the fit *)
  fit : M → DataFrame → list float → result M;
  (** [m.predict(X)] *)
  predict : M → DataFrame → result (list float);
  (** [RFE(m, n_features_to_select = n).fit(X, y).support_] *)
  rfe_support : M → DataFrame → DataFrame → nat → result (list bool)
}.

(** ** Scaling (scale_datasets) *)

(** The fitted attributes of a [StandardScaler], one entry per column. *)
Record StandardScaler : Type := mkScaler {
  mean_ : list float;
  scale_ : list float
}.

(** The input validation every sklearn call starts with: at least one
    row, at least one column, no infinite cell. *)
Definition check_array (X : DataFrame) : result unit :=
  if decide (len X = 0) then Raise ValueError
  else if decide (columns X = []) then Raise ValueError
  else if existsb (λ cv : string * list float, existsb isinf cv.2) (columns X)
       then Raise ValueError
  else Ok ().

Definition scale_column (m s : float) (v : list float) : list float :=
  (λ x, fdiv (fsub x m) s) <$> v.

Section Scaling.
Context `{!StdDev}.

(** The scaler object is threaded as state: [None] before any fit, the
    fitted attributes afterwards. *)
Definition scaler_fit (X : DataFrame) (_ : option StandardScaler)
  : result (option StandardScaler) :=
  _ ← check_array X;
  mret (Some (mkScaler (nanmean <$> (columns X).*2) (std <$> (columns X).*2))).

Definition scaler_transform (X : DataFrame) (s : option StandardScaler)
  : result (list (list float) * option StandardScaler) :=
  match s with
  | None => Raise OtherError
  | Some sc =>
      _ ← check_array X;
      if decide (length (columns X) = length (mean_ sc))
      then Ok (zip_with (λ ms v, scale_column ms.1 ms.2 v)
                 (zip (mean_ sc) (scale_ sc)) (columns X).*2, s)
      else Raise ValueError
  end.

Definition scaler_fit_transform (X : DataFrame) (s : option StandardScaler)
  : result (list (list float) * option StandardScaler) :=
  s' ← scaler_fit X s;
  scaler_transform X s'.

Record Scaled : Type := mkScaled {
  X_train_scaled : DataFrame;
  X_validate_scaled : DataFrame;
  X_test_scaled : DataFrame;
  y_train : DataFrame;
  y_validate : DataFrame;
  y_test : DataFrame
}.

(** The expression that builds each scaled frame,
    [pd.concat([X.drop(columns = cs), pd.DataFrame(data = op(X[cs]),
    columns = cs, index = X.index)], axis = 1)], where [op] is the
    scaler's [fit_transform] or [transform]. *)
Definition scaled_concat
    (op : DataFrame → option StandardScaler
          → result (list (list float) * option StandardScaler))
    (features_to_scale : list string) (X : DataFrame)
    (scaler : option StandardScaler)
  : result (DataFrame * option StandardScaler) :=
  kept ← drop_columns features_to_scale X;
  Xs ← select features_to_scale X;
  '(a, scaler) ← op Xs scaler;
  scaled ← frame_of_array a features_to_scale (index X);
  mret (concat_columns kept scaled, scaler).

(** [scale_datasets], returning besides its six frames the scaler object
    as it is left when the function ends. *)
Definition scale_datasets_run (train validate test : DataFrame) (target : string)
    (features_to_use features_to_scale : list string)
  : result (Scaled * option StandardScaler) :=
  X_train ← select features_to_use train;
  X_validate ← select features_to_use validate;
  X_test ← select features_to_use test;
  y_train ← select [target] train;
  y_validate ← select [target] validate;
  y_test ← select [target] test;
  let scaler : option StandardScaler := None in
  '(X_train_scaled, scaler) ←
    scaled_concat scaler_fit_transform features_to_scale X_train scaler;
  '(X_validate_scaled, scaler) ←
    scaled_concat scaler_transform features_to_scale X_validate scaler;
  '(X_test_scaled, scaler) ←
    scaled_concat scaler_transform features_to_scale X_test scaler;
  mret (mkScaled X_train_scaled X_validate_scaled X_test_scaled
          y_train y_validate y_test, scaler).

Definition scale_datasets (train validate test : DataFrame) (target : string)
    (features_to_use features_to_scale : list string) : result Scaled :=
  fst <$> scale_datasets_run train validate test target
            features_to_use features_to_scale.

End Scaling.

(** ** Feature selection and the rolling engine (get_rolling_predictions) *)

Definition frame_of_row (row : Series) : DataFrame :=
  mkDF [row.1] ((λ cx : string * float, (cx.1, [cx.2])) <$> row.2).

Section Engine.
Context {M : Type} `{!Estimator M} `{!StdDev}.

(** [get_top_features]: the labels of the columns that the elimination
    mask keeps, in column order. *)
Definition get_top_features (X_train_scaled y_train : DataFrame) (model : M)
    (target : string) (n_features : nat) : result (list string) :=
  y ← select [target] y_train;
  feature_mask ← rfe_support model X_train_scaled y n_features;
  if decide (length feature_mask = length (columns X_train_scaled))
  then mret (filter (λ cb : string * bool, cb.2 = true)
               (zip (labels X_train_scaled) feature_mask)).*1
  else Raise IndexError.

(** The variables of the walk-forward loop. *)
Record Rolling : Type := mkRolling {
  fitted_model : M;
  X_train_scaled_featured_rolled : DataFrame;
  y_train_rolled : DataFrame;
  train_rolling_predictions : list (list float);
  train_rolling_actuals : list (list float);
  validate_rolling_predictions : list (list float);
  validate_rolling_actuals : list float
}.

(** What the loop starts from: the scaled (and feature-selected) Train
    window, and the two Validate frames the loop reads. *)
Definition rolling_init (train validate test : DataFrame) (model : M)
    (target : string) (features_to_use features_to_scale : list string)
    (perform_feature_selection : bool)
  : result (Rolling * DataFrame * DataFrame) :=
  sc ← scale_datasets train validate test target features_to_use features_to_scale;
  '(X_train, X_validate) ←
    (if perform_feature_selection
     then
       top_features ← get_top_features (X_train_scaled sc) (y_train sc) model target 10;
       X_train_scaled_featured_rolled ← select top_features (X_train_scaled sc);
       X_validate_scaled_featured_rolled ← select top_features (X_validate_scaled sc);
       _ ← select top_features (X_test_scaled sc);
       mret (X_train_scaled_featured_rolled, X_validate_scaled_featured_rolled)
     else mret (X_train_scaled sc, X_validate_scaled sc));
  mret (mkRolling model X_train (y_train sc) [] [] [] [], X_validate, y_validate sc).

(** One pass of the loop body, for Validate row [validate_row]. *)
Definition rolling_step (target : string) (X_validate y_validate : DataFrame)
    (st : Rolling) (validate_row : nat) : result Rolling :=
  y ← col target (y_train_rolled st);
  m ← fit (fitted_model st) (X_train_scaled_featured_rolled st) y;
  train_prediction ← predict m (X_train_scaled_featured_rolled st);
  train_actual ← col target (y_train_rolled st);
  x_row ← iloc validate_row X_validate;
  validate_prediction ← predict m (frame_of_row x_row);
  y_row ← iloc validate_row y_validate;
  validate_actual ← of_option KeyError (assoc target y_row.2);
  let X := iloc_tail (X_train_scaled_featured_rolled st) in
  let y := iloc_tail (y_train_rolled st) in
  let X := append X x_row in
  let y := append y y_row in
  mret (mkRolling m X y
          (train_rolling_predictions st ++ [train_prediction])
          (train_rolling_actuals st ++ [train_actual])
          (validate_rolling_predictions st ++ [validate_prediction])
          (validate_rolling_actuals st ++ [validate_actual])).

(** The loop after its first [steps] passes; the window of this state is
    the one that pass number [steps] fits the model on. *)
Definition rolling_state (train validate test : DataFrame) (model : M)
    (target : string) (features_to_use features_to_scale : list string)
    (perform_feature_selection : bool) (steps : nat) : result Rolling :=
  '(st, X_validate, y_validate) ←
    rolling_init train validate test model target features_to_use
      features_to_scale perform_feature_selection;
  for_each (rolling_step target X_validate y_validate) (seq 0 steps) st.

Definition get_rolling_predictions (train validate test : DataFrame) (model : M)
    (target : string) (features_to_use features_to_scale : list string)
    (perform_feature_selection : bool) : result Rolling :=
  '(st, X_validate, y_validate) ←
    rolling_init train validate test model target features_to_use
      features_to_scale perform_feature_selection;
  for_each (rolling_step target X_validate y_validate)
    (seq 0 (len X_validate)) st.

End Engine.

(** ** Column operations of the result tables *)

(** [s.shift(-1)]: every cell moves one row up, the last row is missing. *)
Definition shift_up (v : list float) : list float :=
  match v with
  | [] => []
  | _ :: v' => v' ++ [NaN]
  end.

(** [s > 0] as a boolean column. *)
Definition gt0 (v : list float) : list float := (λ x, of_bool (fgt0 x)) <$> v.

(** Truth value of a cell used as a condition: anything but zero. *)
Definition truthy (x : float) : bool := negb (feqb x (Fin 0)).

(** [np.where(cond, a, b)] *)
Definition np_where (cond a b : list float) : list float :=
  zip_with (λ c ab, if truthy c then ab.1 else ab.2) cond (zip a b).

Definition col_sub (a b : list float) : list float := zip_with fsub a b.
Definition col_div (a b : list float) : list float := zip_with fdiv a b.

(** Aligning a labelled column on other row labels: the cell of the first
    row carrying the label, a missing cell when there is none.  (pandas
    refuses duplicated labels here; frames have unique timestamps.) *)
Fixpoint at_label (t : Z) (idx : list Z) (v : list float) : float :=
  match idx, v with
  | t' :: idx', x :: v' => if decide (t = t') then x else at_label t idx' v'
  | _, _ => NaN
  end.

Definition reindex (idx : list Z) (v : list float) (onto : list Z) : list float :=
  (λ t, at_label t idx v) <$> onto.

(** Writing a column: an existing label is overwritten in place, a new one
    is added as the last column. *)
Fixpoint put_column (c : string) (v : list float) (cols : list (string * list float))
  : list (string * list float) :=
  match cols with
  | [] => [(c, v)]
  | (c', v') :: cols' =>
      if decide (c = c') then (c, v) :: cols' else (c', v') :: put_column c v cols'
  end.

Definition range_index (n : nat) : list Z := Z.of_nat <$> seq 0 n.

(** A frame that has no row yet takes its row labels from the first
    non-empty value written into it; columns it already had are filled
    with missing cells. *)
Definition adopt_index (idx : list Z) (df : DataFrame) : DataFrame :=
  mkDF idx ((λ cv : string * list float, (cv.1, replicate (length idx) NaN))
              <$> columns df).

(** [df[c] = values] for a plain list or array. *)
Definition assign_list (c : string) (v : list float) (df : DataFrame)
  : result DataFrame :=
  let df := if decide (index df = [] ∧ v ≠ [])
            then adopt_index (range_index (length v)) df else df in
  if decide (length v = len df)
  then Ok (mkDF (index df) (put_column c v (columns df)))
  else Raise ValueError.

(** [df[c] = series]: a series that carries the very row labels of the
    frame is taken as it is, any other is aligned on them. *)
Definition align (idx : list Z) (v : list float) (onto : list Z) : list float :=
  if decide (idx = onto) then v else reindex idx v onto.

Definition assign_series (c : string) (idx : list Z) (v : list float)
    (df : DataFrame) : DataFrame :=
  let df := if decide (index df = [] ∧ v ≠ [])
            then adopt_index idx df else df in
  mkDF (index df) (put_column c (align idx v (index df)) (columns df)).

(** [df[c] = scalar] *)
Definition assign_scalar (c : string) (x : float) (df : DataFrame) : DataFrame :=
  mkDF (index df) (put_column c (replicate (len df) x) (columns df)).

(** [df.index = idx] *)
Definition set_index (idx : list Z) (df : DataFrame) : result DataFrame :=
  if decide (length idx = len df)
  then Ok (mkDF idx (columns df))
  else Raise ValueError.

(** [pd.DataFrame()] *)
Definition empty_frame : DataFrame := mkDF [] [].

(** ** Metrics *)

Definition all_finite (v : list float) : bool := forallb isfin v.

(** [mean_squared_error(y_true, y_pred)]: the two sequences have one
    length, at least one entry, and only finite entries. *)
Definition mean_squared_error (y_true y_pred : list float) : result float :=
  if decide (length y_true = length y_pred)
  then if decide (y_true = []) then Raise ValueError
       else if all_finite y_true && all_finite y_pred
            then Ok (np_mean (zip_with (λ a p, fmul (fsub a p) (fsub a p))
                                y_true y_pred))
            else Raise ValueError
  else Raise ValueError.

(** [mean_squared_error(y_true, y_pred, squared=False)] *)
Definition rmse `{!Sqrt} (y_true y_pred : list float) : result float :=
  np_sqrt <$> mean_squared_error y_true y_pred.

(** [accuracy_score(y_true, y_pred)]: the share of equal entries. *)
Definition accuracy_score (y_true y_pred : list float) : result float :=
  if decide (length y_true = length y_pred)
  then Ok (np_mean (zip_with (λ a p, of_bool (feqb a p)) y_true y_pred))
  else Raise ValueError.

(** [s.mode()[0]]: the most frequent non-missing value, the smallest one
    when several are as frequent; no such entry in an empty column. *)
Definition count_of (x : float) (l : list float) : nat :=
  length (filter (λ y, feqb x y = true) l).

Definition mode_prefers (l : list float) (x best : float) : bool :=
  (count_of best l <? count_of x l)
  || ((count_of x l =? count_of best l) && fltb x best).

Definition mode0 (l : list float) : result float :=
  match filter (λ x, isna x = false) l with
  | [] => Raise KeyError
  | x :: xs =>
      Ok (fold_left (λ best y, if mode_prefers (x :: xs) y best then y else best)
            xs x)
  end.

(** [[v[0] for v in predictions]] *)
Definition firsts (predictions : list (list float)) : result (list float) :=
  mapM (λ v : list float, of_option IndexError (head v)) predictions.

(** ** Dictionaries and the object store

    A result dictionary maps a key to a table or to a number.  Dictionary
    objects live in a store, and the per-asset mapping that a function
    returns holds references into it, so that two keys bound to one
    dictionary object are told apart from two keys bound to equal
    dictionaries. *)

Inductive entry : Type :=
| Table (t : DataFrame)
| Number (x : float).

Abbreviation Dict := (gmap string entry).
Abbreviation Store := (gmap nat Dict).

(** [{}]: a new dictionary object. *)
Definition alloc (h : Store) : nat * Store :=
  let l := size h in (l, <[l := (∅ : Dict)]> h).

(** [d[key] = v] on the object at [l]. *)
Definition setitem (l : nat) (key : string) (v : entry) (h : Store) : Store :=
  alter (λ d : Dict, <[key := v]> d) l h.

(** [results[k][key]] *)
Definition getitem (res : gmap string nat * Store) (k key : string)
  : option entry :=
  l ← res.1 !! k; d ← res.2 !! l; d !! key.

(** A split data set: an asset's Train, Validate and Test frames. *)
Definition Split : Type := (DataFrame * DataFrame * DataFrame)%type.

(** ** Rolling regression and classification (rolling_*_models) *)

(** The statements that build the result table [validate_res] of one
    rolling run; [rolling_reg_models] and [rolling_class_models] have them
    word for word. *)
Definition validate_res_of (validate : DataFrame)
    (validate_rolling_actuals : list float)
    (validate_rolling_predictions : list (list float)) : result DataFrame :=
  validate_res ← assign_list "actual" validate_rolling_actuals empty_frame;
  predictions ← firsts validate_rolling_predictions;
  validate_res ← assign_list "predictions" predictions validate_res;
  validate_res ← set_index (index validate) validate_res;
  close ← col "close" validate;
  let validate_res := assign_series "close" (index validate) close validate_res in
  close ← col "close" validate;
  let validate_res :=
    assign_series "next_day_close" (index validate) (shift_up close) validate_res in
  predictions ← col "predictions" validate_res;
  let validate_res :=
    assign_series "go_long" (index validate_res) (gt0 predictions) validate_res in
  go_long ← col "go_long" validate_res;
  next_day_close ← col "next_day_close" validate_res;
  close ← col "close" validate_res;
  validate_res ← assign_list "ret"
    (np_where go_long (col_sub next_day_close close) (col_sub close next_day_close))
    validate_res;
  ret ← col "ret" validate_res;
  close ← col "close" validate_res;
  mret (assign_series "pct_ret" (index validate_res) (col_div ret close)
          validate_res).

(** The columns of [validate_res] in closed form, for the proofs. *)
Definition validate_res_columns (actuals predictions close : list float)
  : list (string * list float) :=
  let next_day_close := shift_up close in
  let go_long := gt0 predictions in
  let ret := np_where go_long (col_sub next_day_close close)
               (col_sub close next_day_close) in
  [("actual", actuals); ("predictions", predictions); ("close", close);
   ("next_day_close", next_day_close); ("go_long", go_long); ("ret", ret);
   ("pct_ret", col_div ret close)].

(** The statements that build the majority-class [baseline] table of
    [rolling_class_models]. *)
Definition baseline_of (train validate : DataFrame) : result DataFrame :=
  let baseline := mkDF (index validate) [] in
  close ← col "close" validate;
  let baseline := assign_series "close" (index validate) close baseline in
  close ← col "close" validate;
  let baseline :=
    assign_series "next_day_close" (index validate) (shift_up close) baseline in
  fwd_close_positive ← col "fwd_close_positive" train;
  most_common ← mode0 fwd_close_positive;
  let baseline := assign_scalar "predictions" most_common baseline in
  predictions ← col "predictions" baseline;
  let baseline := assign_series "go_long" (index baseline) predictions baseline in
  go_long ← col "go_long" baseline;
  next_day_close ← col "next_day_close" baseline;
  close ← col "close" baseline;
  assign_list "ret"
    (np_where go_long (col_sub next_day_close close) (col_sub close next_day_close))
    baseline.

Section RollingModels.
Context {M : Type} `{!Estimator M} `{!StdDev} `{!Sqrt}.

(** The body of the model loop of [rolling_reg_models] for the estimator
    at position [j] of the list; [l] is the asset's dictionary.  A fit
    changes the estimator object, which the list keeps for the assets that
    follow. *)
Definition rolling_reg_model (train validate test : DataFrame) (target : string)
    (features_to_use features_to_scale : list string) (l : nat)
    (st : list M * Store) (j : nat) : result (list M * Store) :=
  let '(reg_models, h) := st in
  model_under_test ← of_option IndexError (reg_models !! j);
  let model_name := model_name model_under_test in
  run ← get_rolling_predictions train validate test model_under_test target
          features_to_use features_to_scale true;
  rmses ← mapM (λ i,
                  a ← of_option IndexError (train_rolling_actuals run !! i);
                  p ← of_option IndexError (train_rolling_predictions run !! i);
                  rmse a p)
               (seq 0 (length (train_rolling_actuals run)));
  let train_rmse := np_mean rmses in
  predictions ← firsts (validate_rolling_predictions run);
  validate_rmse ← rmse (validate_rolling_actuals run) predictions;
  validate_res ← validate_res_of validate (validate_rolling_actuals run)
                   (validate_rolling_predictions run);
  let h := setitem l model_name (Table validate_res) h in
  let h := setitem l (model_name +:+ "_validate_rmse") (Number validate_rmse) h in
  let h := setitem l (model_name +:+ "_train_rmse") (Number train_rmse) h in
  mret (<[j := fitted_model run]> reg_models, h).

(** The body of the asset loop: a new dictionary for the asset. *)
Definition rolling_reg_asset (target : string)
    (features_to_use features_to_scale : list string)
    (st : list M * gmap string nat * Store) (ks : string * Split)
  : result (list M * gmap string nat * Store) :=
  let '(reg_models, all_product_results, h) := st in
  let '(k, (train, validate, test)) := ks in
  let '(reg_model_results, h) := alloc h in
  '(reg_models, h) ←
    for_each (rolling_reg_model train validate test target features_to_use
                features_to_scale reg_model_results)
      (seq 0 (length reg_models)) (reg_models, h);
  mret (reg_models, <[k := reg_model_results]> all_product_results, h).

(** [rolling_reg_models]: the returned mapping with the store it refers to. *)
Definition rolling_reg_models (split_data : list (string * Split))
    (reg_models : list M) (target : string)
    (features_to_use features_to_scale : list string)
  : result (gmap string nat * Store) :=
  '(_, all_product_results, h) ←
    for_each (rolling_reg_asset target features_to_use features_to_scale)
      split_data (reg_models, ∅, ∅);
  mret (all_product_results, h).

(** The body of the model loop of [rolling_class_models]. *)
Definition rolling_class_model (train validate test : DataFrame) (target : string)
    (features_to_use features_to_scale : list string) (l : nat)
    (st : list M * Store) (j : nat) : result (list M * Store) :=
  let '(class_models, h) := st in
  model_under_test ← of_option IndexError (class_models !! j);
  let model_name := model_name model_under_test in
  run ← get_rolling_predictions train validate test model_under_test target
          features_to_use features_to_scale false;
  predictions ← firsts (validate_rolling_predictions run);
  validate_accuracy ← accuracy_score (validate_rolling_actuals run) predictions;
  validate_res ← validate_res_of validate (validate_rolling_actuals run)
                   (validate_rolling_predictions run);
  let h := setitem l model_name (Table validate_res) h in
  let h := setitem l (model_name +:+ "_accuracy") (Number validate_accuracy) h in
  baseline ← baseline_of train validate;
  let h := setitem l "baseline" (Table baseline) h in
  mret (<[j := fitted_model run]> class_models, h).

(** The body of the asset loop: every asset is bound to the dictionary [l]
    that was created before the loop. *)
Definition rolling_class_asset (target : string)
    (features_to_use features_to_scale : list string) (l : nat)
    (st : list M * gmap string nat * Store) (ks : string * Split)
  : result (list M * gmap string nat * Store) :=
  let '(class_models, all_product_class_results, h) := st in
  let '(k, (train, validate, test)) := ks in
  '(class_models, h) ←
    for_each (rolling_class_model train validate test target features_to_use
                features_to_scale l)
      (seq 0 (length class_models)) (class_models, h);
  mret (class_models, <[k := l]> all_product_class_results, h).

Definition rolling_class_models (split_data : list (string * Split))
    (class_models : list M) (target : string)
    (features_to_use features_to_scale : list string)
  : result (gmap string nat * Store) :=
  let '(class_model_results, h) := alloc ∅ in
  '(_, all_product_class_results, h) ←
    for_each (rolling_class_asset target features_to_use features_to_scale
                class_model_results)
      split_data (class_models, ∅, h);
  mret (all_product_class_results, h).

End RollingModels.


(** The cells of column [c], for a label the frame has. *)
Definition cells (c : string) (df : DataFrame) : list float :=
  default [] (assoc c (columns df)).


(** The keys that the model loop of [rolling_class_models] writes when it
    visits the positions [rows] of a model list with these names. *)
Definition class_keys (names : list string) (rows : list nat) : gset string :=
  ⋃ ((λ j, match names !! j with
           | Some n => {[n; n +:+ "_accuracy"; "baseline"]}
           | None => ∅
           end) <$> rows).

(** ** The ARIMA grid search (evaluate_arima_model, evaluate_models) *)

Section ArimaSearch.
Context `{!Arima}.

(** The expanding-history loop: forecast one step, then add the true
    value of that step to the history. *)
Definition evaluate_arima_model (train test : DataFrame) (target : string)
    (arima_order : nat * nat * nat)
  : result (float * list float * list float) :=
  train_target ← col target train;
  test_target ← col target test;
  let history := train_target in
  '(predictions, _) ←
    for_each (λ (st : list float * list float) t,
                let '(predictions, history) := st in
                yhat ← arima_forecast history arima_order;
                x ← of_option IndexError (test_target !! t);
                mret (predictions ++ [yhat], history ++ [x]))
      (seq 0 (length test_target)) ([], history);
  error ← mean_squared_error test_target predictions;
  mret (error, test_target, predictions).

(** The four lists the sweep fills, and the orders it reported as not
    working. *)
Record Sweep : Type := mkSweep {
  mses : list float;
  prediction_list : list (list float);
  actual_test : list (list float);
  orders : list (nat * nat * nat);
  reported : list (nat * nat * nat)
}.

(** The body of the innermost loop.  The order is recorded before the
    [try]; an interrupt is raised again, any other exception is reported
    and the loop goes on. *)
Definition evaluate_order (train test : DataFrame) (target : string)
    (st : Sweep) (order : nat * nat * nat) : result Sweep :=
  let orders := orders st ++ [order] in
  match evaluate_arima_model train test target order with
  | Ok (mse, test_target, predictions) =>
      Ok (mkSweep (mses st ++ [mse]) (prediction_list st ++ [predictions])
            (actual_test st ++ [test_target]) orders (reported st))
  | Raise KeyboardInterrupt => Raise KeyboardInterrupt
  | Raise _ =>
      Ok (mkSweep (mses st) (prediction_list st) (actual_test st) orders
            (reported st ++ [order]))
  end.

(** One row of the returned table. *)
Record ArimaResult : Type := mkArimaResult {
  order_pdq : nat * nat * nat;
  mse : float;
  test_predictions : list float;
  test_actual : list float
}.

(** [pd.DataFrame.from_records(orders, ...)] followed by the three column
    assignments: a column whose length is not the number of rows is
    refused. *)
Definition results_frame (st : Sweep) : result (list ArimaResult) :=
  if decide (length (mses st) = length (orders st))
  then if decide (length (prediction_list st) = length (orders st))
       then if decide (length (actual_test st) = length (orders st))
            then Ok (zip_with (λ om pa, mkArimaResult om.1 om.2 pa.1 pa.2)
                       (zip (orders st) (mses st))
                       (zip (prediction_list st) (actual_test st)))
            else Raise ValueError
       else Raise ValueError
  else Raise ValueError.

(** The three nested loops, in the order the source visits the grid. *)
Definition grid (p_values d_values q_values : list nat) : list (nat * nat * nat) :=
  p ← p_values; d ← d_values; q ← q_values; [(p, d, q)].

Definition sweep (train test : DataFrame) (target : string)
    (p_values d_values q_values : list nat) : result Sweep :=
  for_each (λ st p,
    for_each (λ st d,
      for_each (λ st q, evaluate_order train test target st (p, d, q))
        q_values st)
      d_values st)
    p_values (mkSweep [] [] [] [] []).

Definition evaluate_models (train test : DataFrame) (target : string)
    (p_values d_values q_values : list nat) : result (list ArimaResult) :=
  st ← sweep train test target p_values d_values q_values;
  results_frame st.

End ArimaSearch.


(** ** The conventional split: fitting and scoring *)

(** What [predict_regression] and [predict_classification] hand back: the train and validate metric
    of every model by name, and the two target frames with one prediction
    column per model; as well as the estimator objects of the list as the
    fits left them. *)
Record Predictions (M : Type) : Type := mkPredictions {
  fitted_models : list M;
  metrics_train : gmap string float;
  metrics_validate : gmap string float;
  y_train_predicted : DataFrame;
  y_validate_predicted : DataFrame
}.
Arguments mkPredictions {M}.
Arguments fitted_models {M}.
Arguments metrics_train {M}.
Arguments metrics_validate {M}.
Arguments y_train_predicted {M}.
Arguments y_validate_predicted {M}.

Section Predict.
Context {M : Type} `{!Estimator M} `{!StdDev} `{!Sqrt}.

(** The feature frames a model is fitted and evaluated on. *)
Definition featured (sc : Scaled) (ys : DataFrame) (model : M) (target : string)
    (perform_feature_selection : bool) (num_features : nat)
  : result (DataFrame * DataFrame) :=
  if perform_feature_selection
  then
    top_features ← get_top_features (X_train_scaled sc) ys model target num_features;
    X_train_scaled_featured ← select top_features (X_train_scaled sc);
    X_validate_scaled_featured ← select top_features (X_validate_scaled sc);
    _ ← select top_features (X_test_scaled sc);
    mret (X_train_scaled_featured, X_validate_scaled_featured)
  else mret (X_train_scaled sc, X_validate_scaled sc).

(** The loop body of [predict_regression] for the model at position [j]. *)
Definition predict_regression_model (sc : Scaled)
    (perform_feature_selection : bool) (num_features : nat)
    (st : Predictions M) (j : nat) : result (Predictions M) :=
  let target := "fwd_log_ret" in
  reg_model ← of_option IndexError (fitted_models st !! j);
  let model_name := model_name reg_model in
  '(X_train_scaled_featured, X_validate_scaled_featured) ←
    featured sc (y_train_predicted st) reg_model target
      perform_feature_selection num_features;
  y ← col "fwd_log_ret" (y_train_predicted st);
  reg_model ← fit reg_model X_train_scaled_featured y;
  prediction ← predict reg_model X_train_scaled_featured;
  y_train ← assign_list model_name prediction (y_train_predicted st);
  actual ← col "fwd_log_ret" y_train;
  predicted ← col model_name y_train;
  rmse_train ← rmse actual predicted;
  prediction ← predict reg_model X_validate_scaled_featured;
  y_validate ← assign_list model_name prediction (y_validate_predicted st);
  actual ← col "fwd_log_ret" y_validate;
  predicted ← col model_name y_validate;
  rmse_validate ← rmse actual predicted;
  mret (mkPredictions (<[j := reg_model]> (fitted_models st))
          (<[model_name := rmse_train]> (metrics_train st))
          (<[model_name := rmse_validate]> (metrics_validate st))
          y_train y_validate).

Definition predict_regression (models : list M) (train validate test : DataFrame)
    (features_to_use features_to_scale : list string)
    (perform_feature_selection : bool) (num_features : nat)
  : result (Predictions M) :=
  let target := "fwd_log_ret" in
  sc ← scale_datasets train validate test target features_to_use features_to_scale;
  for_each (predict_regression_model sc perform_feature_selection num_features)
    (seq 0 (length models))
    (mkPredictions models ∅ ∅ (y_train sc) (y_validate sc)).

(** The loop body of [predict_classification]. *)
Definition predict_classification_model (sc : Scaled)
    (perform_feature_selection : bool)
    (st : Predictions M) (j : nat) : result (Predictions M) :=
  let target := "fwd_close_positive" in
  class_model ← of_option IndexError (fitted_models st !! j);
  let model_name := model_name class_model in
  '(X_train_scaled_featured, X_validate_scaled_featured) ←
    featured sc (y_train_predicted st) class_model target
      perform_feature_selection 16;
  y ← col "fwd_close_positive" (y_train_predicted st);
  class_model ← fit class_model X_train_scaled_featured y;
  prediction ← predict class_model X_train_scaled_featured;
  y_train ← assign_list model_name prediction (y_train_predicted st);
  actual ← col "fwd_close_positive" y_train;
  predicted ← col model_name y_train;
  accuracy_train ← accuracy_score actual predicted;
  prediction ← predict class_model X_validate_scaled_featured;
  y_validate ← assign_list model_name prediction (y_validate_predicted st);
  actual ← col "fwd_close_positive" y_validate;
  predicted ← col model_name y_validate;
  accuracy_validate ← accuracy_score actual predicted;
  let accuracies_validate := <[model_name := accuracy_validate]> (metrics_validate st) in
  let accuracies_train := <[model_name := accuracy_train]> (metrics_train st) in
  train_target ← col target y_train;
  let accuracies_train := <["baseline" := nanmean train_target]> accuracies_train in
  validate_target ← col target y_validate;
  let accuracies_validate := <["baseline" := nanmean validate_target]> accuracies_validate in
  mret (mkPredictions (<[j := class_model]> (fitted_models st))
          accuracies_train accuracies_validate y_train y_validate).

Definition predict_classification (models : list M) (train validate test : DataFrame)
    (features_to_use features_to_scale : list string)
    (perform_feature_selection : bool)
  : result (Predictions M) :=
  let target := "fwd_close_positive" in
  sc ← scale_datasets train validate test target features_to_use features_to_scale;
  for_each (predict_classification_model sc perform_feature_selection)
    (seq 0 (length models))
    (mkPredictions models ∅ ∅ (y_train sc) (y_validate sc)).

End Predict.


(** ** The conventional split: trade returns and the leaderboard *)

(** One row of an average-trade table.  A table that lacks a column (the
    regression table has no accuracy columns, the classification table no
    RMSE columns, neither has [dropoff] at first) has a missing cell there,
    which is what appending it to a table that has the column yields. *)
Record LeaderRow : Type := mkRow {
  label : string;
  avg_trade : float;
  pct_avg_trade : float;
  validate_rmse : float;
  train_rmse : float;
  validate_accuracy : float;
  train_accuracy : float;
  dropoff : float
}.

(** Descending order with the missing values last. *)
Definition sorts_before (x y : float) : bool :=
  match x, y with
  | NaN, _ => false
  | _, NaN => true
  | _, _ => fltb y x
  end.

Fixpoint insert_by {A} (before : A → A → bool) (x : A) (l : list A) : list A :=
  match l with
  | [] => [x]
  | y :: l' => if before y x then y :: insert_by before x l' else x :: y :: l'
  end.

Definition sort_by {A} (before : A → A → bool) (l : list A) : list A :=
  foldr (insert_by before) [] l.

(** [t.sort_values(by='pct_avg_trade', ascending=False)]; rows with equal
    keys stay in their order (pandas promises no order among them, and
    nothing here depends on it). *)
Definition sort_values_pct (t : list LeaderRow) : list LeaderRow :=
  sort_by (λ r1 r2, sorts_before (pct_avg_trade r1) (pct_avg_trade r2)) t.

(** The order of [by=['pct_avg_trade','dropoff'], ascending=False]:
    by percent average trade, ties by dropoff. *)
Definition pct_dropoff_before (r1 r2 : LeaderRow) : bool :=
  sorts_before (pct_avg_trade r1) (pct_avg_trade r2)
  || (negb (sorts_before (pct_avg_trade r2) (pct_avg_trade r1))
      && sorts_before (dropoff r1) (dropoff r2)).

(** [t.sort_values(by=['pct_avg_trade','dropoff'], ascending=False)] *)
Definition sort_values_pct_dropoff (t : list LeaderRow) : list LeaderRow :=
  sort_by pct_dropoff_before t.

(** A table is in an order when no row should come before the row above
    it. *)
Fixpoint is_sorted_by {A} (before : A → A → bool) (l : list A) : bool :=
  match l with
  | x :: (y :: _) as l' => negb (before y x) && is_sorted_by before l'
  | _ => true
  end.

(** [pd.DataFrame(data = {...four lists...}, index = model_names)] *)
Definition frame_of_metrics (mk : string → float * float * float * float → LeaderRow)
    (metrics : list (float * float * float * float)) (model_names : list string)
  : result (list LeaderRow) :=
  if decide (length metrics = length model_names)
  then Ok (zip_with mk model_names metrics)
  else Raise ValueError.

Definition reg_row (name : string) (m : float * float * float * float) : LeaderRow :=
  let '(avg, pct, validate, train) := m in
  mkRow name avg pct validate train NaN NaN NaN.

Definition class_row (name : string) (m : float * float * float * float) : LeaderRow :=
  let '(avg, pct, validate, train) := m in
  mkRow name avg pct NaN NaN validate train NaN.

(** The three trade columns of model [mod_] and its four table entries. *)
Definition trade_columns (metrics_train metrics_validate : gmap string float)
    (y_validate : DataFrame)
    (st : DataFrame * list (float * float * float * float)) (mod_ : string)
  : result (DataFrame * list (float * float * float * float)) :=
  let '(validate_results, metrics) := st in
  prediction ← col mod_ y_validate;
  let validate_results :=
    assign_series (mod_ +:+ "_long") (index y_validate) (gt0 prediction)
      validate_results in
  long ← col (mod_ +:+ "_long") validate_results;
  next_day_close ← col "next_day_close" validate_results;
  close ← col "close" validate_results;
  validate_results ← assign_list (mod_ +:+ "_ret")
    (np_where long (col_sub next_day_close close) (col_sub close next_day_close))
    validate_results;
  ret ← col (mod_ +:+ "_ret") validate_results;
  close ← col "close" validate_results;
  let validate_results :=
    assign_series (mod_ +:+ "_pct_ret") (index validate_results)
      (col_div ret close) validate_results in
  ret ← col (mod_ +:+ "_ret") validate_results;
  pct_ret ← col (mod_ +:+ "_pct_ret") validate_results;
  validate_metric ← of_option KeyError (metrics_validate !! mod_);
  train_metric ← of_option KeyError (metrics_train !! mod_);
  mret (validate_results,
        metrics ++ [(nanmean ret, nanmean pct_ret, validate_metric, train_metric)]).

(** The frame both functions start from, and the two baseline columns
    they add after the model loop. *)
Definition close_columns (validate : DataFrame) : result DataFrame :=
  let validate_results := empty_frame in
  close ← col "close" validate;
  let validate_results :=
    assign_series "close" (index validate) close validate_results in
  close ← col "close" validate;
  mret (assign_series "next_day_close" (index validate) (shift_up close)
          validate_results).

Definition daily_return_columns (validate validate_results : DataFrame)
  : result DataFrame :=
  fwd_ret ← col "fwd_ret" validate;
  let validate_results :=
    assign_series "daily_return" (index validate) fwd_ret validate_results in
  fwd_pct_chg ← col "fwd_pct_chg" validate;
  mret (assign_series "pct_daily_return" (index validate) fwd_pct_chg
          validate_results).

Section Leaderboard.
Context {M : Type} `{!Estimator M} `{!StdDev} `{!Sqrt}.

Definition calculate_regression_results (models : list M)
    (rmses_train rmses_validate : gmap string float)
    (validate y_validate : DataFrame) : result (list LeaderRow * DataFrame) :=
  let model_names := model_name <$> models in
  validate_results ← close_columns validate;
  '(validate_results, metrics) ←
    for_each (trade_columns rmses_train rmses_validate y_validate)
      model_names (validate_results, []);
  validate_results ← daily_return_columns validate validate_results;
  avg_trade_model ← frame_of_metrics reg_row metrics model_names;
  daily_return ← col "daily_return" validate_results;
  pct_daily_return ← col "pct_daily_return" validate_results;
  let avg_trade_model :=
    avg_trade_model
    ++ [mkRow "baseline_reg" (nanmean daily_return) (nanmean pct_daily_return)
          NaN NaN NaN NaN NaN] in
  mret (sort_values_pct avg_trade_model, validate_results).

Definition calculate_classification_results (models : list M)
    (accuracies_train accuracies_validate : gmap string float)
    (validate y_validate : DataFrame) : result (list LeaderRow * DataFrame) :=
  let model_names := model_name <$> models in
  validate_results ← close_columns validate;
  '(validate_results, metrics) ←
    for_each (λ st mod_,
                if decide (mod_ = "baseline") then mret st
                else trade_columns accuracies_train accuracies_validate
                       y_validate st mod_)
      model_names (validate_results, []);
  validate_results ← daily_return_columns validate validate_results;
  avg_trade_model ← frame_of_metrics class_row metrics model_names;
  daily_return ← col "daily_return" validate_results;
  pct_daily_return ← col "pct_daily_return" validate_results;
  baseline_validate ← of_option KeyError (accuracies_validate !! "baseline");
  baseline_train ← of_option KeyError (accuracies_train !! "baseline");
  let avg_trade_model :=
    avg_trade_model
    ++ [mkRow "baseline_class" (nanmean daily_return) (nanmean pct_daily_return)
          NaN NaN baseline_validate baseline_train NaN] in
  mret (sort_values_pct avg_trade_model, validate_results).

(** [np.select([train_rmse.isna(), train_accuracy.isna()], [accuracy
    formula, RMSE formula])] for one row; 0 when neither is missing. *)
Definition dropoff_of (r : LeaderRow) : float :=
  if isna (train_rmse r)
  then fdiv (fsub (validate_accuracy r) (train_accuracy r)) (train_accuracy r)
  else if isna (train_accuracy r)
       then fdiv (fsub (validate_rmse r) (train_rmse r)) (train_rmse r)
       else Fin 0.

Definition with_dropoff (r : LeaderRow) : LeaderRow :=
  mkRow (label r) (avg_trade r) (pct_avg_trade r) (validate_rmse r) (train_rmse r)
    (validate_accuracy r) (train_accuracy r) (dropoff_of r).

Definition with_asset (k : string) (r : LeaderRow) : LeaderRow :=
  mkRow (label r +:+ "_" +:+ k) (avg_trade r) (pct_avg_trade r) (validate_rmse r)
    (train_rmse r) (validate_accuracy r) (train_accuracy r) (dropoff r).

(** What the asset loop of [conventional_split] carries along. *)
Record Conventional : Type := mkConventional {
  reg_models : list M;
  class_models : list M;
  avg_trade_model_results : list (string * list LeaderRow);
  class_validate_results : list (string * DataFrame);
  reg_validate_results : list (string * DataFrame)
}.

Definition conventional_asset (features_to_use features_to_scale : list string)
    (st : Conventional) (ks : string * Split) : result Conventional :=
  let '(k, (train, validate, test)) := ks in
  reg ← predict_regression (reg_models st) train validate test
          features_to_use features_to_scale true 5;
  '(reg_avg_trade_model_results, reg_v_results) ←
    calculate_regression_results (reg_models st) (metrics_train reg)
      (metrics_validate reg) validate (y_validate_predicted reg);
  cls ← predict_classification (class_models st) train validate test
          features_to_use features_to_scale false;
  '(class_avg_trade_model_results, class_v_results) ←
    calculate_classification_results (class_models st) (metrics_train cls)
      (metrics_validate cls) validate (y_validate_predicted cls);
  mret (mkConventional (fitted_models reg) (fitted_models cls)
          (avg_trade_model_results st
           ++ [(k, sort_values_pct (reg_avg_trade_model_results
                                    ++ class_avg_trade_model_results))])
          (class_validate_results st ++ [(k, class_v_results)])
          (reg_validate_results st ++ [(k, reg_v_results)])).

(** [conventional_split].  The statement that sorts the leaderboard by
    [pct_avg_trade] and [dropoff] keeps its result to itself: it neither
    assigns it nor sorts in place, so the table that is returned is the
    concatenation of the per-asset tables with its [dropoff] column. *)
Definition conventional_split (split_data : list (string * Split))
    (reg_models class_models : list M)
    (features_to_use features_to_scale : list string)
  : result (list (string * DataFrame) * list (string * DataFrame) * list LeaderRow) :=
  st ← for_each (conventional_asset features_to_use features_to_scale) split_data
         (mkConventional reg_models class_models [] [] []);
  let conventional_split_model_results :=
    '(k, results) ← avg_trade_model_results st; with_asset k <$> results in
  match conventional_split_model_results with
  | [] => Raise AttributeError
  | _ =>
      let conventional_split_model_results :=
        with_dropoff <$> conventional_split_model_results in
      let _ := take 10 (sort_values_pct_dropoff conventional_split_model_results) in
      mret (reg_validate_results st, class_validate_results st,
            conventional_split_model_results)
  end.

End Leaderboard.


(** ** Where a leaderboard row comes from *)

(** A row that comes out of the regression table has no accuracy, a row
    out of the classification table no RMSE. *)
Definition reg_origin (r : LeaderRow) : Prop :=
  validate_accuracy r = NaN ∧ train_accuracy r = NaN.

Definition class_origin (r : LeaderRow) : Prop :=
  validate_rmse r = NaN ∧ train_rmse r = NaN.

Definition is_baseline_reg (r : LeaderRow) : Prop :=
  label r = "baseline_reg" ∧ validate_rmse r = NaN ∧ train_rmse r = NaN
  ∧ validate_accuracy r = NaN ∧ train_accuracy r = NaN.

(** What the proofs keep about the table of one asset. *)
Definition asset_table_ok (kt : string * list LeaderRow) : Prop :=
  Forall (λ r, reg_origin r ∨ class_origin r) kt.2 ∧ Exists is_baseline_reg kt.2.

(** ** Concrete collaborators and data for the examples *)

(** A square root that is exact on the squares of rationals. *)
Definition sqrt_exact : Sqrt := λ x,
  match x with
  | Fin q => if Qle_bool 0 q
             then Fin (Z.sqrt (Qnum (Qred q)) # Pos.sqrt (Qden (Qred q)))
             else NaN
  | PInf => PInf
  | _ => NaN
  end.

(** The population standard deviation with that root, 1 for a constant
    column. *)
Definition std_exact : StdDev := λ v,
  let m := nanmean v in
  let s := @np_sqrt sqrt_exact
             (nanmean ((λ x, fmul (fsub x m) (fsub x m)) <$> v)) in
  if feqb s (Fin 0) then Fin 1 else s.

(** An estimator in the manner of sklearn's dummy estimators: it predicts
    the mean of the targets it was fitted on (or their most frequent
    value), and its elimination mask keeps the leading columns. *)
Inductive strategy : Type := MeanStrategy | MostFrequent.

Record Dummy : Type := mkDummy {
  dummy_name : string;
  dummy_strategy : strategy;
  dummy_constant : option float
}.

Definition dummy_fit (m : Dummy) (X : DataFrame) (y : list float) : result Dummy :=
  if decide (len X = 0) then Raise ValueError
  else
    c ← match dummy_strategy m with
        | MeanStrategy => Ok (np_mean y)
        | MostFrequent => mode0 y
        end;
    mret (mkDummy (dummy_name m) (dummy_strategy m) (Some c)).

Definition dummy_predict (m : Dummy) (X : DataFrame) : result (list float) :=
  match dummy_constant m with
  | Some c => Ok (replicate (len X) c)
  | None => Raise OtherError
  end.

Definition dummy_estimator : Estimator Dummy := {|
  model_name := dummy_name;
  fit := dummy_fit;
  predict := dummy_predict;
  rfe_support := λ _ X _ n,
    Ok (replicate (min n (length (columns X))) true
        ++ replicate (length (columns X) - n) false)
|}.

(** A forecaster that repeats the last value of the history and refuses an
    order with more autoregressive and moving-average terms than the
    history has observations; it is interrupted on differencing order 9. *)
Definition last_value_arima : Arima := λ history order,
  let '(p, d, q) := order in
  if decide (d = 9) then Raise KeyboardInterrupt
  else if decide (length history < p + q) then Raise ValueError
  else of_option ValueError (last history).

Definition frame (idx : list Z) (cols : list (string * list Q)) : DataFrame :=
  mkDF idx ((λ cv : string * list Q, (cv.1, Fin <$> cv.2)) <$> cols).

(** Two assets over seven days: four days of Train, two of Validate, one
    of Test. *)
Definition btc_train : DataFrame :=
  frame [1; 2; 3; 4]%Z
    [("close", [100; 102; 101; 104]%Q); ("fwd_ret", [2; -1; 3; 1]%Q);
     ("fwd_pct_chg", [2 # 100; -1 # 102; 3 # 101; 1 # 104]%Q);
     ("fwd_log_ret", [2 # 100; -1 # 100; 3 # 100; 1 # 100]%Q);
     ("fwd_close_positive", [1; 0; 1; 1]%Q);
     ("pct_chg", [1 # 100; 2 # 100; -1 # 102; 3 # 101]%Q);
     ("RR", [1; 3; 1; 3]%Q)].

Definition btc_validate : DataFrame :=
  frame [5; 6]%Z
    [("close", [105; 100]%Q); ("fwd_ret", [-5; 10]%Q);
     ("fwd_pct_chg", [-5 # 105; 10 # 100]%Q);
     ("fwd_log_ret", [-5 # 100; 10 # 100]%Q);
     ("fwd_close_positive", [0; 1]%Q);
     ("pct_chg", [1 # 104; -5 # 105]%Q);
     ("RR", [4; 0]%Q)].

Definition btc_test : DataFrame :=
  frame [7]%Z
    [("close", [110]%Q); ("fwd_ret", [1]%Q); ("fwd_pct_chg", [1 # 110]%Q);
     ("fwd_log_ret", [1 # 100]%Q); ("fwd_close_positive", [1]%Q);
     ("pct_chg", [10 # 100]%Q); ("RR", [2]%Q)].

Definition eth_train : DataFrame :=
  frame [1; 2; 3; 4]%Z
    [("close", [10; 20; 40; 80]%Q); ("fwd_ret", [10; 20; 40; 80]%Q);
     ("fwd_pct_chg", [1; 1; 1; 1]%Q);
     ("fwd_log_ret", [7 # 10; 7 # 10; 7 # 10; 7 # 10]%Q);
     ("fwd_close_positive", [1; 1; 1; 1]%Q);
     ("pct_chg", [1; 1; 1; 1]%Q);
     ("RR", [2; 6; 6; 2]%Q)].

Definition eth_validate : DataFrame :=
  frame [5; 6]%Z
    [("close", [160; 320]%Q); ("fwd_ret", [160; 320]%Q);
     ("fwd_pct_chg", [1; 1]%Q);
     ("fwd_log_ret", [7 # 10; 7 # 10]%Q);
     ("fwd_close_positive", [1; 1]%Q);
     ("pct_chg", [1; 1]%Q);
     ("RR", [2; 8]%Q)].

Definition eth_test : DataFrame :=
  frame [7]%Z
    [("close", [640]%Q); ("fwd_ret", [640]%Q); ("fwd_pct_chg", [1]%Q);
     ("fwd_log_ret", [7 # 10]%Q); ("fwd_close_positive", [1]%Q);
     ("pct_chg", [1]%Q); ("RR", [4]%Q)].

(** A split whose first Validate day closes at 100 and whose next day
    closes at 105; the Train targets average 0.02. *)
Definition demo_train : DataFrame :=
  frame [1; 2]%Z
    [("close", [98; 99]%Q); ("fwd_ret", [1; 1]%Q);
     ("fwd_pct_chg", [1 # 98; 1 # 99]%Q);
     ("fwd_log_ret", [1 # 100; 3 # 100]%Q);
     ("fwd_close_positive", [1; 1]%Q);
     ("pct_chg", [1 # 97; 1 # 98]%Q);
     ("RR", [1; 3]%Q)].

Definition demo_validate : DataFrame :=
  frame [3; 4]%Z
    [("close", [100; 105]%Q); ("fwd_ret", [5; -1]%Q);
     ("fwd_pct_chg", [5 # 100; -1 # 105]%Q);
     ("fwd_log_ret", [5 # 100; -1 # 100]%Q);
     ("fwd_close_positive", [1; 0]%Q);
     ("pct_chg", [1 # 99; 5 # 100]%Q);
     ("RR", [2; 2]%Q)].

Definition demo_test : DataFrame :=
  frame [5]%Z
    [("close", [104]%Q); ("fwd_ret", [1]%Q); ("fwd_pct_chg", [1 # 104]%Q);
     ("fwd_log_ret", [1 # 100]%Q); ("fwd_close_positive", [1]%Q);
     ("pct_chg", [-1 # 105]%Q); ("RR", [2]%Q)].

Definition sample_split : list (string * Split) :=
  [("BTC_USD", (btc_train, btc_validate, btc_test));
   ("ETH_USD", (eth_train, eth_validate, eth_test))].

Definition sample_features_to_use : list string := ["pct_chg"; "RR"].
Definition sample_features_to_scale : list string := ["RR"].

Definition mean_regressor : Dummy := mkDummy "DummyRegressor" MeanStrategy None.
Definition majority_classifier : Dummy := mkDummy "DummyClassifier" MostFrequent None.

(** ** Splitting an asset's history (split_datasets of prepare.py) *)

(** [int(x)] of a float: its integer part, toward zero.  NaN is refused
    with ValueError and an infinity with OverflowError, which is one of the
    errors not told apart here. *)
Definition py_int (x : float) : result Z :=
  match x with
  | Fin q => Ok (Qnum q ÷ Z.pos (Qden q))%Z
  | NaN => Raise ValueError
  | _ => Raise OtherError
  end.

(** The position that a slice bound stands for in a sequence of [n]
    elements: a negative bound counts from the end, and every bound is
    clipped to the sequence. *)
Definition slice_bound (n : nat) (i : Z) : nat :=
  if (i <? 0)%Z then Z.to_nat (Z.of_nat n + i) else Z.to_nat i `min` n.

(** [l[start:stop]] *)
Definition py_slice {A} (start stop : option Z) (l : list A) : list A :=
  let n := length l in
  let a := default 0 (slice_bound n <$> start) in
  let b := default n (slice_bound n <$> stop) in
  take (b - a) (drop a l).

(** [df[start:stop]]: the rows at these positions. *)
Definition slice_rows (start stop : option Z) (df : DataFrame) : DataFrame :=
  mkDF (py_slice start stop (index df))
       (prod_map id (py_slice start stop) <$> columns df).

(** The body of the loop of [split_datasets] for one frame. *)
Definition split_frame (train_length validate_length : float) (cry : DataFrame)
  : result Split :=
  train_size ← py_int (fmul (of_nat (len cry)) train_length);
  validate_size ← py_int (fmul (of_nat (len cry)) validate_length);
  let validate_end_index := (train_size + validate_size)%Z in
  let train := slice_rows None (Some train_size) cry in
  let validate := slice_rows (Some train_size) (Some validate_end_index) cry in
  let test := slice_rows (Some validate_end_index) None cry in
  mret (train, validate, test).


(** ** What scale_datasets needs *)

(** No infinite cell in the columns [cs] of a frame. *)
Definition no_inf (cs : list string) (F : DataFrame) : Prop :=
  ∀ c x, c ∈ cs → x ∈ cells c F → isinf x = false.

(** What [scale_datasets] needs of one of its three frames. *)
Definition scalable (target : string) (features_to_use features_to_scale : list string)
    (F : DataFrame) : Prop :=
  features_to_use ⊆ labels F ∧ target ∈ labels F ∧ len F ≠ 0
  ∧ no_inf features_to_scale F.

(** ** Order of an average-trade table *)

(** A table is in descending order of [pct_avg_trade], missing values
    last, when no row should have come before any of the rows above it. *)
Definition pct_descending (t : list LeaderRow) : Prop :=
  StronglySorted
    (λ r1 r2, sorts_before (pct_avg_trade r2) (pct_avg_trade r1) = false) t.

(** ** Feature engineering (add_features of prepare.py)

    Three more collaborators: numpy's natural logarithm, the power
    [x ** 0.5] of a float, and the day name of a timestamp
    ([DatetimeIndex.day_name]). *)

Class Log : Type := np_log : float → float.

Class HalfPower : Type := pow_half : float → float.

Class Calendar : Type := day_name_of : Z → string.

(** [df.c]: an attribute that is no column is refused. *)
Definition attr (c : string) (df : DataFrame) : result (list float) :=
  of_option AttributeError (assoc c (columns df)).

(** [s.shift(i)] for [i ≥ 0]: every cell moves [i] rows down, the first
    [i] rows are missing. *)
Definition shift_down (i : nat) (v : list float) : list float :=
  take (length v) (replicate i NaN ++ v).

(** [s.fillna(method = 'pad')]: a missing cell takes the last value that
    is not missing above it, if there is one. *)
Fixpoint ffill_from (last : float) (v : list float) : list float :=
  match v with
  | [] => []
  | x :: v' =>
      let y := if isna x then last else x in
      y :: ffill_from y v'
  end.

(** [s.pct_change()], with its defaults [periods = 1] and
    [fill_method = 'pad']. *)
Definition pct_change (v : list float) : list float :=
  let data := ffill_from NaN v in
  (λ x, fsub x (Fin 1)) <$> col_div data (shift_down 1 data).

Definition col_add (a b : list float) : list float := zip_with fadd a b.

(** [df['day_name'] = df.index.day_name()] followed by
    [pd.get_dummies(df, columns = ['day_name'])]: the column of day names
    gives way to one indicator column per day name that occurs, in the
    order of the names, after the other columns. *)
Definition day_name_dummies `{!Calendar} (df : DataFrame) : DataFrame :=
  let day_name := day_name_of <$> index df in
  let levels := sort_by String.ltb (remove_dups day_name) in
  mkDF (index df)
       (filter (λ cv : string * list float, cv.1 ∉ ["day_name"]) (columns df)
        ++ ((λ d, ("day_name_" +:+ d,
                   (λ n, of_bool (bool_decide (n = d))) <$> day_name))
              <$> levels)).

(** The positions of the rows that have no missing cell. *)
Definition row_complete (df : DataFrame) (i : nat) : bool :=
  forallb (λ cv : string * list float, negb (isna (default NaN (cv.2 !! i))))
          (columns df).

Definition complete_rows (df : DataFrame) : list nat :=
  filter (λ i, row_complete df i = true) (seq 0 (len df)).

(** The rows at the positions [rows], in this order. *)
Definition take_rows (rows : list nat) (df : DataFrame) : DataFrame :=
  mkDF (omap (λ i, index df !! i) rows)
       (prod_map id (λ v : list float, (λ i, default NaN (v !! i)) <$> rows)
          <$> columns df).

(** [df.dropna()] *)
Definition dropna (df : DataFrame) : DataFrame :=
  take_rows (complete_rows df) df.

(** A frame whose columns all have one cell per row. *)
Definition rectangular (df : DataFrame) : Prop :=
  Forall (λ cv : string * list float, length cv.2 = len df) (columns df).

Section AddFeatures.
Context `{!Log} `{!HalfPower} `{!Calendar}.

(** The statements of [add_features] that add columns: all but its last
    one. *)
Definition add_features_columns (df : DataFrame) : result DataFrame :=
  (* targets *)
  next ← attr "close" df;
  close ← attr "close" df;
  let df := assign_series "fwd_log_ret" (index df)
              (col_sub (np_log <$> shift_up next) (np_log <$> close)) df in
  next ← attr "close" df;
  close ← attr "close" df;
  let df := assign_series "fwd_ret" (index df) (col_sub (shift_up next) close) df in
  close ← attr "close" df;
  let df := assign_series "fwd_pct_chg" (index df) (shift_up (pct_change close)) df in
  fwd_ret ← attr "fwd_ret" df;
  let df := assign_series "fwd_close_positive" (index df) (gt0 fwd_ret) df in
  (* features *)
  close ← attr "close" df;
  let df := assign_series "pct_chg" (index df) (pct_change close) df in
  df ← for_each (λ df i,
                   close ← attr "close" df;
                   lagged ← attr "close" df;
                   mret (assign_series ("log_ret_lag_" +:+ pretty i) (index df)
                           (col_sub (np_log <$> close)
                              (np_log <$> shift_down i lagged)) df))
          (seq 1 7) df;
  high ← attr "high" df;
  low ← attr "low" df;
  high' ← attr "high" df;
  low' ← attr "low" df;
  let df := assign_series "RR" (index df)
              (col_div
                 (fmul (Fin 2) <$> col_sub (shift_down 1 high) (shift_down 1 low))
                 (col_add (shift_down 1 high') (shift_down 1 low'))) df in
  df ← for_each (λ df i,
                   high ← attr "high" df;
                   low ← attr "low" df;
                   mret (assign_series ("sigma_lag_" +:+ pretty i) (index df)
                           (pow_half
                              <$> ((λ x, fdiv (fmul x x)
                                           (fmul (Fin 4) (np_log (Fin 2))))
                                     <$> (np_log
                                            <$> col_div (shift_down i high)
                                                  (shift_down i low)))) df))
          (seq 1 7) df;
  mret (day_name_dummies df).

(** [add_features] *)
Definition add_features (df : DataFrame) : result DataFrame :=
  df ← add_features_columns df;
  mret (dropna df).

End AddFeatures.

(** ** Sample collaborators and data for add_features *)

(** A rational stand-in for the logarithm, with its zero at 1, its sign
    and its missing and infinite values: [2 (x - 1) / (x + 1)], the first
    term of the series of [ln x]. *)
Definition log_first_term : Log := λ x,
  match x with
  | Fin q =>
      if Qzero_b q then NInf
      else if Qpos_b q then Fin (2 * (q - 1) / (q + 1))
      else NaN
  | PInf => PInf
  | _ => NaN
  end.

(** [x ** 0.5] with the exact root. *)
Definition pow_half_exact : HalfPower := λ x,
  match x with
  | NInf => PInf
  | _ => @np_sqrt sqrt_exact x
  end.

(** Timestamps that count days, day 0 being a Thursday. *)
Definition days_calendar : Calendar := λ t,
  match (t mod 7)%Z with
  | 0 => "Thursday" | 1 => "Friday" | 2 => "Saturday" | 3 => "Sunday"
  | 4 => "Monday" | 5 => "Tuesday" | _ => "Wednesday"
  end%Z.

(** Eleven days of prices. *)
Definition raw_prices : DataFrame :=
  frame [1; 2; 3; 4; 5; 6; 7; 8; 9; 10; 11]%Z
    [("close", [100; 102; 101; 104; 108; 107; 110; 112; 111; 115; 118]%Q);
     ("high",  [103; 104; 103; 106; 109; 110; 111; 114; 113; 116; 120]%Q);
     ("low",   [ 99; 100; 100; 101; 104; 106; 107; 110; 109; 111; 114]%Q);
     ("volume", [ 10;  12;  11;  14;  18;  17;  10;  12;  11;  15;  18]%Q)].

(** ** The columns of add_features in closed form, for the proofs *)

Section NewColumns.
Context `{!Log} `{!HalfPower}.

Definition target_columns (close : list float) : list (string * list float) :=
  [("fwd_log_ret", col_sub (np_log <$> shift_up close) (np_log <$> close));
   ("fwd_ret", col_sub (shift_up close) close);
   ("fwd_pct_chg", shift_up (pct_change close));
   ("fwd_close_positive", gt0 (col_sub (shift_up close) close));
   ("pct_chg", pct_change close)].

Definition lag_columns (close : list float) : list (string * list float) :=
  (λ i, ("log_ret_lag_" +:+ pretty i,
         col_sub (np_log <$> close) (np_log <$> shift_down i close)))
    <$> seq 1 7.

Definition RR_column (high low : list float) : list float :=
  col_div (fmul (Fin 2) <$> col_sub (shift_down 1 high) (shift_down 1 low))
          (col_add (shift_down 1 high) (shift_down 1 low)).

Definition sigma_columns (high low : list float) : list (string * list float) :=
  (λ i, ("sigma_lag_" +:+ pretty i,
         pow_half
           <$> ((λ x, fdiv (fmul x x) (fmul (Fin 4) (np_log (Fin 2))))
                  <$> (np_log <$> col_div (shift_down i high) (shift_down i low)))))
    <$> seq 1 7.

Definition new_columns (close high low : list float) : list (string * list float) :=
  target_columns close ++ lag_columns close ++ [("RR", RR_column high low)]
  ++ sigma_columns high low.

End NewColumns.

(** Writing columns one after the other. *)
Definition put_columns (new cols : list (string * list float))
  : list (string * list float) :=
  foldl (λ cols cv, put_column cv.1 cv.2 cols) cols new.

(** The seven days of BTC in one frame, before they are split. *)
Definition btc_history : DataFrame :=
  frame [1; 2; 3; 4; 5; 6; 7]%Z
    [("close", [100; 102; 101; 104; 105; 100; 110]%Q);
     ("fwd_ret", [2; -1; 3; 1; -5; 10; 1]%Q);
     ("fwd_pct_chg",
      [2 # 100; -1 # 102; 3 # 101; 1 # 104; -5 # 105; 10 # 100; 1 # 110]%Q);
     ("fwd_log_ret",
      [2 # 100; -1 # 100; 3 # 100; 1 # 100; -5 # 100; 10 # 100; 1 # 100]%Q);
     ("fwd_close_positive", [1; 0; 1; 1; 0; 1; 1]%Q);
     ("pct_chg",
      [1 # 100; 2 # 100; -1 # 102; 3 # 101; 1 # 104; -5 # 105; 10 # 100]%Q);
     ("RR", [1; 3; 1; 3; 4; 0; 2]%Q)].

(** A split in which the label of the second Train day and of the first
    Validate day is missing, so that the window of the second pass has no
    label at all. *)
Definition gap_train : DataFrame :=
  mkDF [1; 2]%Z
    [("close", [Fin 98; Fin 99]); ("fwd_close_positive", [Fin 1; NaN]);
     ("pct_chg", [Fin (1 # 97); Fin (1 # 98)]); ("RR", [Fin 1; Fin 3])].

Definition gap_validate : DataFrame :=
  mkDF [3; 4]%Z
    [("close", [Fin 100; Fin 105]); ("fwd_close_positive", [NaN; Fin 0]);
     ("pct_chg", [Fin (1 # 99); Fin (5 # 100)]); ("RR", [Fin 2; Fin 2])].

Definition gap_test : DataFrame :=
  mkDF [5]%Z
    [("close", [Fin 104]); ("fwd_close_positive", [Fin 1]);
     ("pct_chg", [Fin (-1 # 105)]); ("RR", [Fin 2])].

(** * Properties *)

(** ** The result monad *)

Lemma bind_ok_inv {A B} (f : A → result B) (m : result A) (b : B) :
  m ≫= f = Ok b → ∃ a, m = Ok a ∧ f a = Ok b.
Proof. destruct m as [a|e]; [|discriminate]. intros H. by exists a. Qed.

Lemma fmap_ok_inv {A B} (f : A → B) (m : result A) (b : B) :
  f <$> m = Ok b → ∃ a, m = Ok a ∧ b = f a.
Proof. destruct m as [a|e]; [|discriminate]. intros [= <-]. by exists a. Qed.

Lemma of_option_ok_inv {A} (e : exn) (o : option A) (a : A) :
  of_option e o = Ok a → o = Some a.
Proof. destruct o; [|discriminate]. by intros [= ->]. Qed.

(** Peels the successful run of a sequence of statements into one
    equation per statement. *)
Ltac ok_step :=
  match goal with
  | H : Raise _ = Ok _ |- _ => discriminate H
  | H : Ok _ = Ok _ |- _ => injection H as H; subst
  | H : mret _ = Ok _ |- _ => injection H as H; subst
  | H : _ ≫= _ = Ok _ |- _ =>
      let a := fresh "a" in
      let Ha := fresh "Ha" in
      apply bind_ok_inv in H; destruct H as (a & Ha & H)
  | H : _ <$> _ = Ok _ |- _ =>
      let a := fresh "a" in
      let Ha := fresh "Ha" in
      apply fmap_ok_inv in H; destruct H as (a & Ha & H)
  | H : of_option _ _ = Ok _ |- _ => apply of_option_ok_inv in H
  | H : (let '(_, _) := ?p in _) = Ok _ |- _ => destruct p; simpl in H
  | H : (if decide ?P then _ else _) = Ok _ |- _ => destruct (decide P)
  end.
Ltac ok_inv := repeat ok_step.

Lemma mapM_ok_Forall2 {A B} (f : A → result B) (l : list A) (k : list B) :
  mapM f l = Ok k ↔ Forall2 (λ x y, f x = Ok y) l k.
Proof.
  split.
  - revert k. induction l as [|x l IH]; intros k H; simpl in H.
    + injection H as <-. constructor.
    + ok_inv. constructor; auto.
  - induction 1 as [|x y l k Hxy _ IH]; [done|].
    simpl. rewrite Hxy. simpl. rewrite IH. done.
Qed.

Lemma mapM_ok_length {A B} (f : A → result B) (l : list A) (k : list B) :
  mapM f l = Ok k → length k = length l.
Proof. intros H%mapM_ok_Forall2. symmetry. by eapply Forall2_length. Qed.

Lemma mapM_ok_fmap {A B} (f : A → result B) (g : A → B) (l : list A) (k : list B) :
  mapM f l = Ok k → (∀ x y, x ∈ l → f x = Ok y → y = g x) → k = g <$> l.
Proof.
  intros H%mapM_ok_Forall2 Hg.
  induction H as [|x y l k Hxy _ IH]; [done|].
  simpl. f_equal.
  - apply Hg; [left | done].
  - apply IH. intros x' y' Hin. apply Hg. by right.
Qed.

Lemma mapM_fmap_ok {A B} (f : A → result B) (g : A → B) (l : list A) :
  (∀ x, x ∈ l → f x = Ok (g x)) → mapM f l = Ok (g <$> l).
Proof.
  intros Hg. apply mapM_ok_Forall2.
  induction l as [|x l IH]; simpl; constructor.
  - apply Hg. left.
  - apply IH. intros x' Hin. apply Hg. by right.
Qed.

Lemma for_each_app {S A} (body : S → A → result S) (xs ys : list A) (st : S) :
  for_each body (xs ++ ys) st = for_each body xs st ≫= for_each body ys.
Proof.
  revert st. induction xs as [|x xs IH]; intros st; simpl; [done|].
  destruct (body st x) as [st'|e]; simpl; [apply IH | done].
Qed.

(** ** Frames *)

Lemma assoc_app {A} (c : string) (l1 l2 : list (string * A)) :
  assoc c (l1 ++ l2) = match assoc c l1 with Some v => Some v | None => assoc c l2 end.
Proof.
  induction l1 as [|[c' v] l1 IH]; simpl; [done|].
  by destruct (decide (c = c')).
Qed.

Lemma assoc_fmap_key {A} (g : string → A) (c : string) (cs : list string) :
  assoc c ((λ c', (c', g c')) <$> cs) = if decide (c ∈ cs) then Some (g c) else None.
Proof.
  induction cs as [|c' cs IH].
  - simpl. destruct (decide (c ∈ [])) as [H|]; [by apply elem_of_nil in H | done].
  - rewrite fmap_cons. cbn [assoc]. destruct (decide (c = c')) as [->|Hne].
    + destruct (decide (c' ∈ c' :: cs)) as [|Hn]; [done|]. destruct Hn. left.
    + rewrite IH. destruct (decide (c ∈ cs)) as [Hin|Hnin].
      * destruct (decide (c ∈ c' :: cs)) as [|Hn]; [done|]. destruct Hn. by right.
      * destruct (decide (c ∈ c' :: cs)) as [Hin|]; [|done].
        apply elem_of_cons in Hin as [?|?]; done.
Qed.

Lemma assoc_filter_notin {A} (c : string) (cs : list string) (l : list (string * A)) :
  assoc c (filter (λ cv : string * A, cv.1 ∉ cs) l)
  = if decide (c ∈ cs) then None else assoc c l.
Proof.
  induction l as [|[c' v] l IH]; simpl.
  - by destruct (decide (c ∈ cs)).
  - rewrite filter_cons. simpl. destruct (decide (c' ∉ cs)) as [Hn|Hn]; simpl.
    + destruct (decide (c = c')) as [->|]; [|done].
      by destruct (decide (c' ∈ cs)).
    + rewrite IH. destruct (decide (c ∈ cs)) as [|Hc]; [done|].
      destruct (decide (c = c')) as [->|]; [|done].
      destruct Hn. done.
Qed.

Lemma zip_with_fmap_same {A B C D} (f : B → C → D) (g : A → B) (h : A → C) (l : list A) :
  zip_with f (g <$> l) (h <$> l) = (λ x, f (g x) (h x)) <$> l.
Proof. induction l; simpl; [done | by f_equal]. Qed.

Lemma select_ok (cs : list string) (df X : DataFrame) :
  select cs df = Ok X →
  index X = index df
  ∧ columns X = (λ c, (c, cells c df)) <$> cs
  ∧ ∀ c, c ∈ cs → col c df = Ok (cells c df).
Proof.
  unfold select. intros H. ok_inv. simpl. split; [done|].
  pose proof Ha as HF%mapM_ok_Forall2.
  split.
  - eapply mapM_ok_fmap; [exact Ha|]. intros c y _ Hy. simpl in Hy.
    unfold col, cells in *. destruct (assoc c (columns df)); simpl in Hy; [|done].
    by injection Hy as <-.
  - intros c Hin. apply list_elem_of_lookup in Hin as [i Hi].
    destruct (Forall2_lookup_l _ _ _ _ _ HF Hi) as (y & _ & Hy). simpl in Hy.
    unfold col, cells in *. by destruct (assoc c (columns df)).
Qed.

Lemma col_select (cs : list string) (df X : DataFrame) (c : string) :
  select cs df = Ok X → c ∈ cs → col c X = col c df.
Proof.
  intros (_ & HX & Hc)%select_ok Hin. rewrite (Hc c Hin).
  unfold col. rewrite HX, assoc_fmap_key. by rewrite decide_True.
Qed.

Lemma drop_columns_ok (cs : list string) (df K : DataFrame) :
  drop_columns cs df = Ok K →
  index K = index df
  ∧ columns K = filter (λ cv : string * list float, cv.1 ∉ cs) (columns df).
Proof. unfold drop_columns. intros H. ok_inv. done. Qed.

(** ** Scaling *)

Section ScalingFacts.
Context `{!StdDev}.

Lemma scaler_transform_ok (Xs : DataFrame) (s s' : option StandardScaler)
    (a : list (list float)) :
  scaler_transform Xs s = Ok (a, s') →
  s' = s ∧ ∃ sc, s = Some sc
  ∧ a = zip_with (λ ms v, scale_column ms.1 ms.2 v)
          (zip (mean_ sc) (scale_ sc)) (columns Xs).*2.
Proof.
  unfold scaler_transform. destruct s as [sc|]; [|done].
  intros Hrun. ok_inv. split; [done|]. by exists sc.
Qed.

Lemma zip_fmap_key {A} (g : string → A) (cs : list string) :
  zip cs (g <$> cs) = (λ c, (c, g c)) <$> cs.
Proof. induction cs; simpl; [done | by f_equal]. Qed.

Lemma scaled_frame_columns (F X Xsc : DataFrame)
    (features_to_use features_to_scale : list string) (mf sf : string → float)
    (s' : option StandardScaler) :
  select features_to_use F = Ok X →
  scaled_concat scaler_transform features_to_scale X
    (Some (mkScaler (mf <$> features_to_scale) (sf <$> features_to_scale)))
    = Ok (Xsc, s') →
  s' = Some (mkScaler (mf <$> features_to_scale) (sf <$> features_to_scale))
  ∧ index Xsc = index F
  ∧ (∀ c, c ∈ features_to_scale →
       ∃ v, col c F = Ok v
            ∧ col c Xsc = Ok ((λ x, fdiv (fsub x (mf c)) (sf c)) <$> v))
  ∧ (∀ c, c ∈ features_to_use → c ∉ features_to_scale → col c Xsc = col c F).
Proof.
  intros HX Hrun. unfold scaled_concat in Hrun. ok_inv.
  match goal with Hd : drop_columns _ _ = Ok ?k |- _ =>
    rename Hd into Hkept; rename k into kept end.
  match goal with Hd : select features_to_scale _ = Ok ?k |- _ =>
    rename Hd into HXs; rename k into Xs end.
  match goal with Hd : scaler_transform _ _ = Ok _ |- _ => rename Hd into Ht end.
  match goal with Hd : frame_of_array _ _ _ = Ok _ |- _ => rename Hd into Hfr end.
  destruct (select_ok _ _ _ HX) as (HiX & HcX & HokX).
  destruct (drop_columns_ok _ _ _ Hkept) as (Hik & Hck).
  destruct (select_ok _ _ _ HXs) as (HiXs & HcXs & HokXs).
  apply scaler_transform_ok in Ht as (-> & sc & [= <-] & ->). simpl in Hfr.
  split; [done|].
  unfold frame_of_array in Hfr. ok_inv.
  unfold concat_columns, col. simpl.
  split; [congruence|].
  rewrite HcXs, <-list_fmap_compose.
  rewrite !zip_with_fmap_same. simpl. rewrite zip_fmap_key.
  split.
  - intros c Hc. exists (cells c F).
    assert (c ∈ features_to_use) as Hu.
    { specialize (HokXs c Hc). unfold col in HokXs.
      rewrite HcX, assoc_fmap_key in HokXs.
      by destruct (decide (c ∈ features_to_use)). }
    split; [by apply HokX|].
    rewrite assoc_app, Hck, assoc_filter_notin, decide_True by done.
    rewrite assoc_fmap_key, decide_True by done.
    simpl. unfold scale_column. do 2 f_equal.
    unfold cells at 1. rewrite HcX, assoc_fmap_key, decide_True by done. done.
  - intros c Hu Hns.
    rewrite assoc_app, Hck, assoc_filter_notin, decide_False by done.
    rewrite HcX, assoc_fmap_key, decide_True by done. simpl.
    specialize (HokX c Hu). unfold col in HokX. by rewrite HokX.
Qed.

Lemma cells_select (cs : list string) (df X : DataFrame) (c : string) :
  select cs df = Ok X → c ∈ cs → cells c X = cells c df.
Proof.
  intros (_ & HX & _)%select_ok Hin. unfold cells at 1.
  by rewrite HX, assoc_fmap_key, decide_True.
Qed.

Lemma select_subset (cs cs' : list string) (df X Xs : DataFrame) :
  select cs df = Ok X → select cs' X = Ok Xs → cs' ⊆ cs.
Proof.
  intros (_ & HX & _)%select_ok (_ & _ & Hok)%select_ok c Hc.
  specialize (Hok c Hc). unfold col in Hok.
  rewrite HX, assoc_fmap_key in Hok. by destruct (decide (c ∈ cs)).
Qed.

Lemma col_cells (c : string) (df : DataFrame) (v : list float) :
  col c df = Ok v → cells c df = v.
Proof. unfold col, cells. destruct (assoc c (columns df)); [by intros [= ->] | done]. Qed.

Lemma fit_transform_statistics (F X Xsc : DataFrame)
    (features_to_use features_to_scale : list string)
    (s' : option StandardScaler) :
  select features_to_use F = Ok X →
  scaled_concat scaler_fit_transform features_to_scale X None = Ok (Xsc, s') →
  let fitted := Some (mkScaler ((λ c, nanmean (cells c F)) <$> features_to_scale)
                        ((λ c, std (cells c F)) <$> features_to_scale)) in
  s' = fitted
  ∧ scaled_concat scaler_transform features_to_scale X fitted = Ok (Xsc, s').
Proof.
  intros HX Hrun. unfold scaled_concat in Hrun. ok_inv.
  match goal with Hd : drop_columns _ _ = Ok ?k |- _ =>
    rename Hd into Hkept; rename k into kept end.
  match goal with Hd : select features_to_scale _ = Ok ?k |- _ =>
    rename Hd into HXs; rename k into Xs end.
  match goal with Hd : scaler_fit_transform _ _ = Ok _ |- _ => rename Hd into Ht end.
  match goal with Hd : frame_of_array _ _ _ = Ok _ |- _ => rename Hd into Hfr end.
  unfold scaler_fit_transform, scaler_fit in Ht. ok_inv.
  assert ((columns Xs).*2 = (λ c, cells c F) <$> features_to_scale) as Hcols.
  { destruct (select_ok _ _ _ HXs) as (_ & -> & _).
    rewrite <-list_fmap_compose. apply list_fmap_ext. intros i c Hc. simpl.
    eapply cells_select; [done|].
    eapply select_subset; [done..|]. by eapply list_elem_of_lookup_2. }
  rewrite Hcols, <-!list_fmap_compose in Ht. unfold compose in Ht.
  pose proof Ht as (-> & _)%scaler_transform_ok.
  split; [done|].
  unfold scaled_concat. rewrite Hkept. cbn [mbind result_bind].
  rewrite HXs. cbn [mbind result_bind]. rewrite Ht. cbn [mbind result_bind].
  by rewrite Hfr.
Qed.

(** C5.  For every column marked to-scale, the scaler's mean and standard
    deviation are those of the Train column, each of Train, Validate and
    Test gets [(x - mean) / std] with these same statistics, every other
    used column comes out as it went in, and the scaler object still holds
    the Train statistics after Validate and Test were transformed. *)
Theorem scale_datasets_train_statistics (train validate test : DataFrame)
    (target : string) (features_to_use features_to_scale : list string)
    (out : Scaled) (sc : option StandardScaler) :
  scale_datasets_run train validate test target features_to_use features_to_scale
    = Ok (out, sc) →
  (∃ trs, mapM (λ c, col c train) features_to_scale = Ok trs
          ∧ sc = Some (mkScaler (nanmean <$> trs) (std <$> trs)))
  ∧ (∀ c, c ∈ features_to_scale → ∃ tr va te,
       col c train = Ok tr ∧ col c validate = Ok va ∧ col c test = Ok te
       ∧ col c (X_train_scaled out)
         = Ok ((λ x, fdiv (fsub x (nanmean tr)) (std tr)) <$> tr)
       ∧ col c (X_validate_scaled out)
         = Ok ((λ x, fdiv (fsub x (nanmean tr)) (std tr)) <$> va)
       ∧ col c (X_test_scaled out)
         = Ok ((λ x, fdiv (fsub x (nanmean tr)) (std tr)) <$> te))
  ∧ (∀ c, c ∈ features_to_use → c ∉ features_to_scale →
       col c (X_train_scaled out) = col c train
       ∧ col c (X_validate_scaled out) = col c validate
       ∧ col c (X_test_scaled out) = col c test).
Proof.
  unfold scale_datasets_run. intros Hrun. ok_inv. simpl.
  match goal with
  | Htr : select features_to_use train = Ok ?Xtr,
    Hva : select features_to_use validate = Ok ?Xva,
    Hte : select features_to_use test = Ok ?Xte,
    Hf : scaled_concat scaler_fit_transform _ _ _ = Ok (?d, ?o),
    Hv : scaled_concat scaler_transform _ ?Xva _ = Ok _,
    Ht : scaled_concat scaler_transform _ ?Xte _ = Ok _ |- _ =>
      destruct (fit_transform_statistics _ _ _ _ _ _ Htr Hf) as (-> & Hf');
      destruct (scaled_frame_columns _ _ _ _ _ _ _ _ Htr Hf') as (_ & _ & Hs1 & Hk1);
      destruct (scaled_frame_columns _ _ _ _ _ _ _ _ Hva Hv) as (-> & _ & Hs2 & Hk2);
      destruct (scaled_frame_columns _ _ _ _ _ _ _ _ Hte Ht) as (-> & _ & Hs3 & Hk3)
  end.
  split; [|split].
  - exists ((λ c, cells c train) <$> features_to_scale). split.
    + apply mapM_fmap_ok. intros c Hc.
      destruct (Hs1 c Hc) as (v & Hv & _). by rewrite (col_cells _ _ _ Hv).
    + by rewrite <-!list_fmap_compose.
  - intros c Hc.
    destruct (Hs1 c Hc) as (tr & Htr & Hc1).
    destruct (Hs2 c Hc) as (va & Hva & Hc2).
    destruct (Hs3 c Hc) as (te & Hte & Hc3).
    exists tr, va, te. rewrite (col_cells _ _ _ Htr) in Hc1, Hc2, Hc3. done.
  - intros c Hu Hns. auto.
Qed.

End ScalingFacts.

(** ** The rolling engine *)

Section EngineFacts.
Context {M : Type} `{!Estimator M} `{!StdDev}.

Lemma check_array_ok (X : DataFrame) (u : ()) :
  check_array X = Ok u → len X ≠ 0 ∧ columns X ≠ [].
Proof. unfold check_array. intros Hrun. repeat case_decide; done. Qed.

Lemma scaled_concat_index op (cs : list string) (X Xsc : DataFrame)
    (s s' : option StandardScaler) :
  scaled_concat op cs X s = Ok (Xsc, s') → index Xsc = index X.
Proof.
  unfold scaled_concat. intros Hrun. ok_inv. simpl.
  match goal with Hd : drop_columns _ _ = Ok _ |- _ =>
    by apply drop_columns_ok in Hd as (-> & _) end.
Qed.

Lemma fit_transform_nonempty (cs : list string) (X Xsc : DataFrame)
    (s s' : option StandardScaler) :
  scaled_concat scaler_fit_transform cs X s = Ok (Xsc, s') → len X ≠ 0.
Proof.
  unfold scaled_concat, scaler_fit_transform, scaler_fit. intros Hrun. ok_inv.
  match goal with Hd : select cs X = Ok _ |- _ =>
    apply select_ok in Hd as (Hi & _) end.
  match goal with Hd : check_array _ = Ok _ |- _ =>
    apply check_array_ok in Hd as (Hd & _) end.
  unfold len in *. congruence.
Qed.

(** What [scale_datasets] keeps of its inputs: the row labels, and a
    Train set that has rows. *)
Lemma scale_datasets_index (train validate test : DataFrame) (target : string)
    (features_to_use features_to_scale : list string) (sc : Scaled) :
  scale_datasets train validate test target features_to_use features_to_scale
    = Ok sc →
  len train ≠ 0
  ∧ index (X_train_scaled sc) = index train
  ∧ index (X_validate_scaled sc) = index validate
  ∧ index (y_train sc) = index train
  ∧ index (y_validate sc) = index validate
  ∧ columns (y_train sc) = [(target, cells target train)]
  ∧ columns (y_validate sc) = [(target, cells target validate)]
  ∧ col target train = Ok (cells target train)
  ∧ col target validate = Ok (cells target validate).
Proof.
  unfold scale_datasets, scale_datasets_run. intros Hrun. ok_inv. simpl.
  repeat match goal with
  | Hd : scaled_concat scaler_fit_transform _ _ _ = Ok _ |- _ =>
      pose proof (fit_transform_nonempty _ _ _ _ _ Hd);
      apply scaled_concat_index in Hd
  | Hd : scaled_concat _ _ _ _ = Ok _ |- _ => apply scaled_concat_index in Hd
  | Hd : select [target] _ = Ok _ |- _ =>
      apply select_ok in Hd as (? & ? & Hd);
      specialize (Hd target (list_elem_of_here _ _))
  | Hd : select _ _ = Ok _ |- _ => apply select_ok in Hd as (? & ? & _)
  end.
  unfold len in *. repeat split; first [congruence | done].
Qed.

(** The loop starts on the Train rows and reads the Validate rows. *)
Lemma rolling_init_index (train validate test : DataFrame) (model : M)
    (target : string) (features_to_use features_to_scale : list string)
    (perform_feature_selection : bool) (st : Rolling) (Xv yv : DataFrame) :
  rolling_init train validate test model target features_to_use
    features_to_scale perform_feature_selection = Ok (st, Xv, yv) →
  len train ≠ 0
  ∧ index (X_train_scaled_featured_rolled st) = index train
  ∧ index (y_train_rolled st) = index train
  ∧ index Xv = index validate
  ∧ index yv = index validate
  ∧ columns (y_train_rolled st) = [(target, cells target train)]
  ∧ columns yv = [(target, cells target validate)]
  ∧ col target train = Ok (cells target train)
  ∧ col target validate = Ok (cells target validate)
  ∧ train_rolling_predictions st = [] ∧ train_rolling_actuals st = []
  ∧ validate_rolling_predictions st = [] ∧ validate_rolling_actuals st = [].
Proof.
  unfold rolling_init. intros Hrun. ok_inv. simpl.
  match goal with Hd : scale_datasets _ _ _ _ _ _ = Ok _ |- _ =>
    apply scale_datasets_index in Hd as (? & ? & ? & ? & ? & ? & ? & ? & ?) end.
  destruct perform_feature_selection; ok_inv;
    repeat match goal with
    | Hd : select _ _ = Ok _ |- _ => apply select_ok in Hd as (? & _ & _)
    end;
    repeat split; first [congruence | done].
Qed.

Lemma iloc_ok (i : nat) (df : DataFrame) (row : Series) :
  iloc i df = Ok row → index df !! i = Some row.1.
Proof. unfold iloc. intros Hrun. ok_inv. done. Qed.

(** One pass: the oldest row leaves the window, Validate row
    [validate_row] enters it. *)
Lemma rolling_step_ok (target : string) (Xv yv : DataFrame) (st st' : Rolling)
    (validate_row : nat) :
  rolling_step target Xv yv st validate_row = Ok st' →
  ∃ x_row y_row,
    iloc validate_row Xv = Ok x_row ∧ iloc validate_row yv = Ok y_row
    ∧ X_train_scaled_featured_rolled st'
      = append (iloc_tail (X_train_scaled_featured_rolled st)) x_row
    ∧ y_train_rolled st' = append (iloc_tail (y_train_rolled st)) y_row.
Proof.
  unfold rolling_step. intros Hrun. ok_inv. simpl. eauto 10.
Qed.

Lemma tail_drop {A} (n : nat) (l : list A) : tail (drop n l) = drop (S n) l.
Proof.
  revert l. induction n as [|n IH]; intros [|x l]; simpl; auto.
Qed.

(** The loop invariant on row labels: after [n] passes the window holds
    the last [len train] labels of Train followed by the first [n] labels
    of Validate. *)
Lemma rolling_window_index (target : string) (Xv yv : DataFrame) (st0 : Rolling)
    (n : nat) (st : Rolling) :
  index (y_train_rolled st0) = index (X_train_scaled_featured_rolled st0) →
  index yv = index Xv →
  index (X_train_scaled_featured_rolled st0) ≠ [] →
  for_each (rolling_step target Xv yv) (seq 0 n) st0 = Ok st →
  let window :=
    drop n (index (X_train_scaled_featured_rolled st0) ++ take n (index Xv)) in
  n ≤ len Xv
  ∧ index (X_train_scaled_featured_rolled st) = window
  ∧ index (y_train_rolled st) = window.
Proof.
  intros Hy Hyv HT. revert st.
  induction n as [|n IH]; intros st Hrun.
  - simpl in Hrun. injection Hrun as <-. simpl.
    rewrite take_0, app_nil_r. split; [lia | done].
  - rewrite seq_S, for_each_app in Hrun. simpl in Hrun. ok_inv.
    match goal with Hd : for_each _ _ _ = Ok ?s |- _ =>
      destruct (IH s Hd) as (Hn & HXs & Hys) end.
    match goal with Hd : rolling_step _ _ _ _ _ = Ok _ |- _ =>
      apply rolling_step_ok in Hd as (x_row & y_row & Hx & Hyr & -> & ->) end.
    apply iloc_ok in Hx, Hyr. rewrite Hyv in Hyr.
    assert (y_row.1 = x_row.1) as Hsame by congruence.
    unfold append, iloc_tail. simpl. rewrite Hsame, HXs, Hys.
    assert (n < len Xv) by (by eapply lookup_lt_Some).
    assert (length (index (X_train_scaled_featured_rolled st0)) ≠ 0)
      by (by destruct (index (X_train_scaled_featured_rolled st0))).
    assert (tail (drop n (index (X_train_scaled_featured_rolled st0)
                          ++ take n (index Xv))) ++ [x_row.1]
            = drop (S n) (index (X_train_scaled_featured_rolled st0)
                          ++ take (S n) (index Xv))) as ->.
    { rewrite (take_S_r _ _ _ Hx), app_assoc, tail_drop.
      symmetry. apply drop_app_le.
      rewrite length_app, length_take. unfold len in *. lia. }
    split; [lia | done].
Qed.

Lemma rolling_state_window (train validate test : DataFrame) (model : M)
    (target : string) (features_to_use features_to_scale : list string)
    (perform_feature_selection : bool) (n : nat) (st : Rolling) :
  rolling_state train validate test model target features_to_use
    features_to_scale perform_feature_selection n = Ok st →
  let window := drop n (index train ++ take n (index validate)) in
  len train ≠ 0 ∧ n ≤ len validate
  ∧ index (X_train_scaled_featured_rolled st) = window
  ∧ index (y_train_rolled st) = window.
Proof.
  unfold rolling_state. intros Hrun. ok_inv.
  match goal with Hd : rolling_init _ _ _ _ _ _ _ _ = Ok _ |- _ =>
    apply rolling_init_index in Hd
      as (Hne & HX & Hy & HXv & Hyv & _) end.
  match goal with Hd : for_each _ _ _ = Ok _ |- _ =>
    apply rolling_window_index in Hd as (Hn & HXs & Hys) end.
  - unfold len in *. rewrite HX, HXv in *. done.
  - congruence.
  - congruence.
  - rewrite HX. unfold len in Hne. by destruct (index train).
Qed.

(** The states that [rolling_state] describes are the ones a complete run
    goes through. *)
Lemma get_rolling_predictions_passes (train validate test : DataFrame) (model : M)
    (target : string) (features_to_use features_to_scale : list string)
    (perform_feature_selection : bool) (run : Rolling) (n : nat) :
  get_rolling_predictions train validate test model target features_to_use
    features_to_scale perform_feature_selection = Ok run →
  n ≤ len validate →
  ∃ st, rolling_state train validate test model target features_to_use
          features_to_scale perform_feature_selection n = Ok st.
Proof.
  unfold get_rolling_predictions, rolling_state. intros Hrun Hn. ok_inv.
  match goal with Hd : rolling_init _ _ _ _ _ _ _ _ = Ok _ |- _ =>
    pose proof (rolling_init_index _ _ _ _ _ _ _ _ _ _ _ Hd)
      as (_ & _ & _ & HXv & _); rewrite Hd end.
  simpl.
  match goal with Hd : for_each _ (seq 0 (len ?Xv)) _ = Ok _ |- _ =>
    replace (len Xv) with (n + (len validate - n)) in Hd
      by (unfold len in *; rewrite HXv; lia);
    rewrite seq_app, for_each_app in Hd end.
  ok_inv. eauto.
Qed.

(** The windows keep the length of Train through any number of passes. *)
Lemma rolling_window_length (train validate test : DataFrame) (model : M)
    (target : string) (features_to_use features_to_scale : list string)
    (perform_feature_selection : bool) (st0 : Rolling) (Xv yv : DataFrame)
    (n : nat) (s : Rolling) :
  rolling_init train validate test model target features_to_use
    features_to_scale perform_feature_selection = Ok (st0, Xv, yv) →
  for_each (rolling_step target Xv yv) (seq 0 n) st0 = Ok s →
  len (X_train_scaled_featured_rolled s) = len train
  ∧ len (y_train_rolled s) = len train.
Proof.
  intros Hinit Hs.
  pose proof (rolling_init_index _ _ _ _ _ _ _ _ _ _ _ Hinit)
    as (Hne & HX & Hy & HXv & Hyv & _).
  apply rolling_window_index in Hs as (Hn & HXs & Hys).
  - unfold len in *. rewrite HXs, Hys, HX, HXv.
    rewrite length_drop, length_app, length_take. rewrite HXv in Hn. lia.
  - congruence.
  - congruence.
  - rewrite HX. unfold len in Hne. by destruct (index train).
Qed.

(** C1.  No look-ahead: under a chronological split (the timestamps of
    Train followed by Validate strictly increase), every row of the window
    that pass [i] of a rolling run fits the model on carries a timestamp
    strictly below the timestamp of Validate row [i], the row predicted by
    that pass. *)
Theorem rolling_no_look_ahead (train validate test : DataFrame) (model : M)
    (target : string) (features_to_use features_to_scale : list string)
    (perform_feature_selection : bool) (i : nat) (t : Z) (st : Rolling) :
  StronglySorted Z.lt (index train ++ index validate) →
  index validate !! i = Some t →
  rolling_state train validate test model target features_to_use
    features_to_scale perform_feature_selection i = Ok st →
  Forall (λ t', (t' < t)%Z) (index (X_train_scaled_featured_rolled st))
  ∧ Forall (λ t', (t' < t)%Z) (index (y_train_rolled st)).
Proof.
  intros Hsorted Ht Hrun.
  apply rolling_state_window in Hrun as (_ & _ & -> & ->).
  assert (Forall (λ t', (t' < t)%Z)
            (drop i (index train ++ take i (index validate)))) as Hlt.
  { apply Forall_drop, Forall_forall. intros t' Hin.
    rewrite <-(take_drop_middle _ _ _ Ht), app_assoc in Hsorted.
    eapply StronglySorted_app_1_elem_of; [exact Hsorted | exact Hin | left]. }
  done.
Qed.

(** C2.  Fixed window length: in every state of a rolling run the feature
    window and the target window have as many rows as Train, and each pass
    turns the window into itself without its first row, followed by the
    Validate row that the pass has just predicted (its features, and its
    timestamp with its true target). *)
Theorem rolling_window_fixed_length (train validate test : DataFrame) (model : M)
    (target : string) (features_to_use features_to_scale : list string)
    (perform_feature_selection : bool) (st0 : Rolling) (Xv yv : DataFrame)
    (i : nat) (st : Rolling) :
  rolling_init train validate test model target features_to_use
    features_to_scale perform_feature_selection = Ok (st0, Xv, yv) →
  for_each (rolling_step target Xv yv) (seq 0 i) st0 = Ok st →
  (len (X_train_scaled_featured_rolled st) = len train
   ∧ len (y_train_rolled st) = len train)
  ∧ ∀ st', rolling_step target Xv yv st i = Ok st' →
      ∃ x_row t v y,
        iloc i Xv = Ok x_row
        ∧ index validate !! i = Some t ∧ x_row.1 = t
        ∧ col target validate = Ok v ∧ v !! i = Some y
        ∧ X_train_scaled_featured_rolled st'
          = append (iloc_tail (X_train_scaled_featured_rolled st)) x_row
        ∧ y_train_rolled st'
          = append (iloc_tail (y_train_rolled st)) (t, [(target, y)])
        ∧ len (X_train_scaled_featured_rolled st') = len train
        ∧ len (y_train_rolled st') = len train.
Proof.
  intros Hinit Hrun.
  pose proof (rolling_init_index _ _ _ _ _ _ _ _ _ _ _ Hinit)
    as (Hne & HX & Hy & HXv & Hyv & _ & Hcv & _ & Hcol & _).
  pose proof (λ n s, rolling_window_length _ _ _ _ _ _ _ _ _ _ _ n s Hinit)
    as Hlen.
  split; [exact (Hlen i st Hrun)|].
  intros st' Hstep.
  assert (for_each (rolling_step target Xv yv) (seq 0 (S i)) st0 = Ok st')
    as Hnext.
  { rewrite seq_S, for_each_app, Hrun. simpl. by rewrite Hstep. }
  apply (Hlen (S i)) in Hnext as (HlX & Hly).
  apply rolling_step_ok in Hstep as (x_row & y_row & Hx & Hyr & HX' & Hy').
  pose proof (iloc_ok _ _ _ Hx) as Ht. rewrite HXv in Ht.
  unfold iloc in Hyr. rewrite Hyv, Ht, Hcv in Hyr. simpl in Hyr. ok_inv.
  match goal with Hd : cells target validate !! i = Some ?v |- _ =>
    exists x_row, x_row.1, (cells target validate), v end.
  done.
Qed.

End EngineFacts.

(** ** Result tables *)

Lemma range_index_length (n : nat) : length (range_index n) = n.
Proof. unfold range_index. by rewrite length_fmap, length_seq. Qed.

Lemma align_same (idx : list Z) (v : list float) : align idx v idx = v.
Proof. unfold align. by rewrite decide_True. Qed.

Lemma assign_list_empty (c : string) (v : list float) :
  v ≠ [] →
  assign_list c v empty_frame = Ok (mkDF (range_index (length v)) [(c, v)]).
Proof.
  intros Hv. unfold assign_list. simpl.
  destruct (decide ([] = [] ∧ v ≠ [])) as [_|Hn]; [|by destruct Hn].
  unfold len. simpl. by rewrite range_index_length, decide_True.
Qed.

Lemma assign_list_ok (c : string) (v : list float) (idx : list Z)
    (cols : list (string * list float)) (df' : DataFrame) :
  idx ≠ [] →
  assign_list c v (mkDF idx cols) = Ok df' →
  length v = length idx ∧ df' = mkDF idx (put_column c v cols).
Proof.
  intros Hi. unfold assign_list. simpl.
  destruct (decide (idx = [] ∧ v ≠ [])) as [[? _]|_]; [done|].
  intros Hrun. ok_inv. done.
Qed.

Lemma set_index_ok (idx : list Z) (df df' : DataFrame) :
  set_index idx df = Ok df' →
  length idx = len df ∧ df' = mkDF idx (columns df).
Proof. unfold set_index. intros Hrun. ok_inv. done. Qed.

Lemma assign_series_same (c : string) (v : list float) (idx : list Z)
    (cols : list (string * list float)) :
  idx ≠ [] →
  assign_series c idx v (mkDF idx cols) = mkDF idx (put_column c v cols).
Proof.
  intros Hi. unfold assign_series. simpl.
  destruct (decide (idx = [] ∧ v ≠ [])) as [[? _]|_]; [done|].
  simpl. by rewrite align_same.
Qed.

Lemma length_nonempty {A} (l : list A) : l ≠ [] ↔ length l ≠ 0.
Proof. by destruct l. Qed.

(** Evaluates, in a hypothesis, the column writes and reads of a frame
    whose column labels are literals. *)
Ltac string_decide_in H :=
  repeat match type of H with
  | context [decide (?a = ?b)] =>
      lazymatch type of a with
      | string =>
          first [ rewrite (decide_True (P := a = b)) in H by reflexivity
                | rewrite (decide_False (P := a = b)) in H by discriminate ]
      end
  end.

Ltac frame_eval_in H :=
  repeat first
    [ rewrite assign_series_same in H by done
    | progress unfold col in H
    | progress cbn [index columns put_column assoc of_option
                    mbind result_bind mret result_ret] in H
    | progress string_decide_in H ].

Lemma validate_res_of_ok (validate : DataFrame) (actuals : list float)
    (preds : list (list float)) (vr : DataFrame) :
  validate_res_of validate actuals preds = Ok vr →
  actuals ≠ [] →
  ∃ predictions close,
    firsts preds = Ok predictions ∧ col "close" validate = Ok close
    ∧ length actuals = len validate ∧ length predictions = len validate
    ∧ vr = mkDF (index validate) (validate_res_columns actuals predictions close).
Proof.
  unfold validate_res_of. intros Hrun Hne.
  rewrite assign_list_empty in Hrun by done.
  cbn [mbind result_bind] in Hrun.
  apply bind_ok_inv in Hrun as (predictions & Hp & Hrun).
  apply bind_ok_inv in Hrun as (vr1 & H1 & Hrun).
  apply assign_list_ok in H1 as (Hlp & ->);
    [|apply length_nonempty; rewrite range_index_length;
      by apply length_nonempty].
  apply bind_ok_inv in Hrun as (vr2 & H2 & Hrun).
  apply set_index_ok in H2 as (Hlv & ->). unfold len in Hlv. simpl in Hlv, Hlp.
  rewrite range_index_length in Hlv, Hlp.
  assert (index validate ≠ []) as Hv.
  { apply length_nonempty. rewrite Hlv. by apply length_nonempty. }
  apply bind_ok_inv in Hrun as (close & Hc & Hrun). rewrite Hc in Hrun.
  frame_eval_in Hrun.
  apply bind_ok_inv in Hrun as (vr3 & H3 & Hrun).
  apply assign_list_ok in H3 as (Hlr & ->); [|done].
  frame_eval_in Hrun. injection Hrun as <-.
  exists predictions, close. unfold len. repeat split; try done; congruence.
Qed.

Lemma length_shift_up (v : list float) : length (shift_up v) = length v.
Proof. destruct v; simpl; [done|]. rewrite length_app. simpl. lia. Qed.

Lemma shift_up_lookup (v : list float) (i : nat) :
  i < length v → shift_up v !! i = Some (default NaN (v !! S i)).
Proof.
  destruct v as [|x v]; simpl; [lia|]. intros Hi.
  destruct (v !! i) as [y|] eqn:Hy; simpl.
  - by rewrite lookup_app_l_Some with (x := y).
  - apply lookup_ge_None in Hy.
    rewrite lookup_app_r by done.
    by replace (i - length v) with 0 by lia.
Qed.

Lemma truthy_of_bool (b : bool) : truthy (of_bool b) = b.
Proof. by destruct b. Qed.

(** One row of the three trade columns: the position is long when the
    condition cell is true, the return is the move to the next close in
    the direction of the position, and the percent return is the return
    over the close. *)
Lemma trade_row (cond close : list float) (i : nat) (g c : float) :
  cond !! i = Some g → close !! i = Some c →
  let next_day_close := shift_up close in
  let ret := np_where cond (col_sub next_day_close close)
               (col_sub close next_day_close) in
  let n := default NaN (close !! S i) in
  let r := if truthy g then fsub n c else fsub c n in
  next_day_close !! i = Some n
  ∧ ret !! i = Some r
  ∧ col_div ret close !! i = Some (fdiv r c).
Proof.
  intros Hg Hc. simpl.
  assert (shift_up close !! i = Some (default NaN (close !! S i))) as Hn
    by (apply shift_up_lookup; by eapply lookup_lt_Some).
  assert (np_where cond (col_sub (shift_up close) close)
            (col_sub close (shift_up close)) !! i
          = Some (if truthy g then fsub (default NaN (close !! S i)) c
                  else fsub c (default NaN (close !! S i)))) as Hr.
  { unfold np_where, col_sub. rewrite !lookup_zip_with, Hg, Hn, Hc. done. }
  split; [done|]. split; [done|].
  unfold col_div. by rewrite lookup_zip_with, Hr, Hc.
Qed.

(** ** The records of a rolling run *)

Section RunFacts.
Context {M : Type} `{!Estimator M} `{!StdDev}.

(** What one pass adds to the four lists: the in-sample predictions and
    actuals of the window it fitted, and the prediction and actual of the
    Validate row. *)
Lemma rolling_step_records (target : string) (Xv yv : DataFrame)
    (st st' : Rolling) (validate_row : nat) :
  rolling_step target Xv yv st validate_row = Ok st' →
  ∃ m train_prediction train_actual x_row validate_prediction y_row validate_actual,
    col target (y_train_rolled st) = Ok train_actual
    ∧ fit (fitted_model st) (X_train_scaled_featured_rolled st) train_actual = Ok m
    ∧ predict m (X_train_scaled_featured_rolled st) = Ok train_prediction
    ∧ iloc validate_row Xv = Ok x_row
    ∧ predict m (frame_of_row x_row) = Ok validate_prediction
    ∧ iloc validate_row yv = Ok y_row
    ∧ assoc target y_row.2 = Some validate_actual
    ∧ fitted_model st' = m
    ∧ train_rolling_predictions st'
      = train_rolling_predictions st ++ [train_prediction]
    ∧ train_rolling_actuals st' = train_rolling_actuals st ++ [train_actual]
    ∧ validate_rolling_predictions st'
      = validate_rolling_predictions st ++ [validate_prediction]
    ∧ validate_rolling_actuals st'
      = validate_rolling_actuals st ++ [validate_actual].
Proof.
  unfold rolling_step. intros Hrun. ok_inv. simpl.
  repeat eexists; eauto. congruence.
Qed.

Lemma iloc_single_column (i : nat) (idx : list Z) (c : string) (v : list float)
    (row : Series) (x : float) :
  iloc i (mkDF idx [(c, v)]) = Ok row → assoc c row.2 = Some x → v !! i = Some x.
Proof.
  unfold iloc. simpl. intros Hrun. ok_inv. simpl.
  rewrite decide_True by done. congruence.
Qed.

Lemma rolling_accumulators (target : string) (Xv yv : DataFrame) (vt : list float)
    (st0 : Rolling) (n : nat) (st : Rolling) :
  train_rolling_predictions st0 = [] → train_rolling_actuals st0 = [] →
  validate_rolling_predictions st0 = [] → validate_rolling_actuals st0 = [] →
  columns yv = [(target, vt)] →
  for_each (rolling_step target Xv yv) (seq 0 n) st0 = Ok st →
  length (train_rolling_predictions st) = n
  ∧ length (train_rolling_actuals st) = n
  ∧ length (validate_rolling_predictions st) = n
  ∧ validate_rolling_actuals st = take n vt
  ∧ n ≤ length vt.
Proof.
  intros H1 H2 H3 H4 Hyv. revert st.
  induction n as [|n IH]; intros st Hrun.
  - simpl in Hrun. injection Hrun as <-. rewrite H1, H2, H3, H4, take_0.
    simpl. repeat split; lia.
  - rewrite seq_S, for_each_app in Hrun. simpl in Hrun. ok_inv.
    match goal with Hd : for_each _ _ _ = Ok ?s |- _ =>
      destruct (IH s Hd) as (L1 & L2 & L3 & L4 & L5) end.
    match goal with Hd : rolling_step _ _ _ _ _ = Ok _ |- _ =>
      apply rolling_step_records in Hd
        as (m & tp & ta & x_row & vp & y_row & va & _ & _ & _ & _ & _ & Hy
            & Hva & _ & -> & -> & -> & ->) end.
    destruct yv as [idx cols]. simpl in Hyv. subst cols.
    pose proof (iloc_single_column _ _ _ _ _ _ Hy Hva) as Hlk.
    rewrite !length_app, L1, L2, L3, L4. simpl.
    rewrite (take_S_r _ _ _ Hlk).
    apply lookup_lt_Some in Hlk. repeat split; lia.
Qed.

(** A complete run: one record per Validate row, in the order of the rows;
    the recorded actuals are the target column of Validate. *)
Lemma get_rolling_predictions_records (train validate test : DataFrame) (model : M)
    (target : string) (features_to_use features_to_scale : list string)
    (perform_feature_selection : bool) (run : Rolling) :
  get_rolling_predictions train validate test model target features_to_use
    features_to_scale perform_feature_selection = Ok run →
  len train ≠ 0
  ∧ length (train_rolling_predictions run) = len validate
  ∧ length (train_rolling_actuals run) = len validate
  ∧ length (validate_rolling_predictions run) = len validate
  ∧ length (validate_rolling_actuals run) = len validate
  ∧ validate_rolling_actuals run = take (len validate) (cells target validate).
Proof.
  unfold get_rolling_predictions. intros Hrun. ok_inv.
  match goal with Hd : rolling_init _ _ _ _ _ _ _ _ = Ok _ |- _ =>
    apply rolling_init_index in Hd
      as (Hne & _ & _ & HXv & _ & _ & Hcv & _ & _ & E1 & E2 & E3 & E4) end.
  match goal with Hd : for_each _ _ _ = Ok _ |- _ =>
    eapply rolling_accumulators in Hd as (L1 & L2 & L3 & L4 & L5); [|done..] end.
  unfold len in *. rewrite HXv in *. rewrite L4, length_take.
  repeat split; try done. lia.
Qed.

End RunFacts.

(** ** Dictionary keys and the store *)

Lemma string_app_length (s t : string) :
  String.length (s +:+ t) = String.length s + String.length t.
Proof. induction s as [|a s IH]; simpl; [done | by rewrite IH]. Qed.

Lemma string_app_ne_self (s t : string) : t ≠ "" → s +:+ t ≠ s.
Proof.
  intros Ht Heq. apply (f_equal String.length) in Heq.
  rewrite string_app_length in Heq. destruct t; [done|]. simpl in Heq. lia.
Qed.

Lemma string_app_ne (s t1 t2 : string) : t1 ≠ t2 → s +:+ t1 ≠ s +:+ t2.
Proof. intros Ht Heq. by apply String.app_inj in Heq. Qed.

Lemma setitem_lookup (l : nat) (key : string) (v : entry) (h : Store) (d : Dict) :
  h !! l = Some d → setitem l key v h = <[l := <[key := v]> d]> h.
Proof.
  intros Hd. unfold setitem. apply map_eq. intros l'.
  rewrite lookup_alter, lookup_insert.
  destruct (decide (l = l')) as [<-|]; [by rewrite Hd | done].
Qed.

Lemma setitem_3 (l : nat) (k1 k2 k3 : string) (v1 v2 v3 : entry) (h : Store)
    (d : Dict) :
  h !! l = Some d →
  setitem l k3 v3 (setitem l k2 v2 (setitem l k1 v1 h))
  = <[l := <[k3 := v3]> (<[k2 := v2]> (<[k1 := v1]> d))]> h.
Proof.
  intros Hd.
  rewrite (setitem_lookup l k1 v1 h d Hd).
  rewrite (setitem_lookup l k2 v2 _ (<[k1 := v1]> d)) by apply lookup_insert_eq.
  rewrite (setitem_lookup l k3 v3 _ (<[k2 := v2]> (<[k1 := v1]> d)))
    by apply lookup_insert_eq.
  by rewrite !insert_insert_eq.
Qed.

Section PassFacts.
Context {M : Type} `{!Estimator M} `{!StdDev} `{!Sqrt}.

Lemma rolling_reg_model_ok (train validate test : DataFrame) (target : string)
    (features_to_use features_to_scale : list string) (l : nat)
    (ms ms' : list M) (h h' : Store) (j : nat) :
  rolling_reg_model train validate test target features_to_use
    features_to_scale l (ms, h) j = Ok (ms', h') →
  ∃ m run rmses predictions validate_rmse vr,
    ms !! j = Some m
    ∧ get_rolling_predictions train validate test m target features_to_use
        features_to_scale true = Ok run
    ∧ mapM (λ i,
              a ← of_option IndexError (train_rolling_actuals run !! i);
              p ← of_option IndexError (train_rolling_predictions run !! i);
              rmse a p)
           (seq 0 (length (train_rolling_actuals run))) = Ok rmses
    ∧ firsts (validate_rolling_predictions run) = Ok predictions
    ∧ rmse (validate_rolling_actuals run) predictions = Ok validate_rmse
    ∧ validate_res_of validate (validate_rolling_actuals run)
        (validate_rolling_predictions run) = Ok vr
    ∧ ms' = <[j := fitted_model run]> ms
    ∧ h' = setitem l (model_name m +:+ "_train_rmse") (Number (np_mean rmses))
             (setitem l (model_name m +:+ "_validate_rmse") (Number validate_rmse)
                (setitem l (model_name m) (Table vr) h)).
Proof.
  unfold rolling_reg_model. intros Hrun. ok_inv.
  repeat eexists; eauto.
Qed.

Lemma rolling_class_model_ok (train validate test : DataFrame) (target : string)
    (features_to_use features_to_scale : list string) (l : nat)
    (ms ms' : list M) (h h' : Store) (j : nat) :
  rolling_class_model train validate test target features_to_use
    features_to_scale l (ms, h) j = Ok (ms', h') →
  ∃ m run predictions validate_accuracy vr baseline,
    ms !! j = Some m
    ∧ get_rolling_predictions train validate test m target features_to_use
        features_to_scale false = Ok run
    ∧ firsts (validate_rolling_predictions run) = Ok predictions
    ∧ accuracy_score (validate_rolling_actuals run) predictions
      = Ok validate_accuracy
    ∧ validate_res_of validate (validate_rolling_actuals run)
        (validate_rolling_predictions run) = Ok vr
    ∧ baseline_of train validate = Ok baseline
    ∧ ms' = <[j := fitted_model run]> ms
    ∧ h' = setitem l "baseline" (Table baseline)
             (setitem l (model_name m +:+ "_accuracy") (Number validate_accuracy)
                (setitem l (model_name m) (Table vr) h)).
Proof.
  unfold rolling_class_model. intros Hrun. ok_inv.
  repeat eexists; eauto.
Qed.

Lemma transform_nonempty (cs : list string) (X Xsc : DataFrame)
    (s s' : option StandardScaler) :
  scaled_concat scaler_transform cs X s = Ok (Xsc, s') → len X ≠ 0.
Proof.
  unfold scaled_concat, scaler_transform. intros Hrun. ok_inv.
  destruct s; [|done]. ok_inv.
  match goal with Hd : select cs X = Ok _ |- _ =>
    apply select_ok in Hd as (Hi & _) end.
  match goal with Hd : check_array _ = Ok _ |- _ =>
    apply check_array_ok in Hd as (Hd & _) end.
  unfold len in *. congruence.
Qed.

Lemma get_rolling_predictions_nonempty (train validate test : DataFrame) (model : M)
    (target : string) (features_to_use features_to_scale : list string)
    (perform_feature_selection : bool) (run : Rolling) :
  get_rolling_predictions train validate test model target features_to_use
    features_to_scale perform_feature_selection = Ok run →
  len validate ≠ 0.
Proof.
  unfold get_rolling_predictions, rolling_init, scale_datasets, scale_datasets_run.
  intros Hrun. ok_inv.
  match goal with
  | Hs : select features_to_use validate = Ok ?X,
    Hd : scaled_concat scaler_transform _ ?X _ = Ok _ |- _ =>
      apply transform_nonempty in Hd; apply select_ok in Hs as (Hi & _)
  end.
  unfold len in *. congruence.
Qed.

End PassFacts.

(** ** Trade returns of a rolling run *)

Lemma fgt0_of_bool (b : bool) : fgt0 (of_bool b) = b.
Proof. by destruct b. Qed.

Lemma Qpos_b_true (q : Q) : (0 < q)%Q → Qpos_b q = true.
Proof.
  intros Hq. unfold Qpos_b. destruct (Qle_bool q 0) eqn:Hle; [|done].
  apply Qle_bool_iff in Hle. by apply Qle_not_lt in Hle.
Qed.

Lemma Qpos_b_false (q : Q) : (q <= 0)%Q → Qpos_b q = false.
Proof. intros Hq. unfold Qpos_b. by apply Qle_bool_iff in Hq as ->. Qed.

Lemma Qzero_b_false (q : Q) : ¬ (q == 0)%Q → Qzero_b q = false.
Proof.
  intros Hq. unfold Qzero_b. destruct (Qeq_bool q 0) eqn:Heq; [|done].
  by apply Qeq_bool_iff in Heq.
Qed.

Ltac string_decide :=
  repeat match goal with
  | |- context [decide (?a = ?b)] =>
      lazymatch type of a with
      | string =>
          first [ rewrite (decide_True (P := a = b)) by reflexivity
                | rewrite (decide_False (P := a = b)) by discriminate ]
      end
  end.

Lemma validate_res_cells (idx : list Z) (actuals predictions close : list float) :
  let vr := mkDF idx (validate_res_columns actuals predictions close) in
  let ret := np_where (gt0 predictions) (col_sub (shift_up close) close)
               (col_sub close (shift_up close)) in
  cells "actual" vr = actuals
  ∧ cells "predictions" vr = predictions
  ∧ cells "close" vr = close
  ∧ cells "next_day_close" vr = shift_up close
  ∧ cells "go_long" vr = gt0 predictions
  ∧ cells "ret" vr = ret
  ∧ cells "pct_ret" vr = col_div ret close.
Proof. repeat split; unfold cells; cbn; string_decide; done. Qed.

Section TradeFacts.
Context {M : Type} `{!Estimator M} `{!StdDev}.

(** C3.  In the result table of a rolling run, row by row: [go_long] is
    the truth of [prediction > 0] (for a boolean prediction, the
    prediction itself); [ret] is [next_day_close - close] when long and
    [close - next_day_close] otherwise; [pct_ret] is [ret / close].  With
    close 100 and next close 105, a prediction of +0.02 gives long, 5 and
    0.05, and a prediction of -0.01 gives short and -5. *)
Theorem trade_conversion_rows (train validate test : DataFrame) (model : M)
    (target : string) (features_to_use features_to_scale : list string)
    (perform_feature_selection : bool) (run : Rolling) (validate_res : DataFrame)
    (i : nat) (prediction close next_close : float) :
  get_rolling_predictions train validate test model target features_to_use
    features_to_scale perform_feature_selection = Ok run →
  validate_res_of validate (validate_rolling_actuals run)
    (validate_rolling_predictions run) = Ok validate_res →
  cells "predictions" validate_res !! i = Some prediction →
  cells "close" validate_res !! i = Some close →
  cells "next_day_close" validate_res !! i = Some next_close →
  let go_long := fgt0 prediction in
  let trade_return :=
    if go_long then fsub next_close close else fsub close next_close in
  cells "go_long" validate_res !! i = Some (of_bool go_long)
  ∧ (∀ b, prediction = of_bool b → go_long = b)
  ∧ cells "ret" validate_res !! i = Some trade_return
  ∧ cells "pct_ret" validate_res !! i = Some (fdiv trade_return close)
  ∧ (feq close (Fin 100) → feq next_close (Fin 105) →
     feq prediction (Fin 0.02) →
     go_long = true ∧ feq trade_return (Fin 5)
     ∧ feq (fdiv trade_return close) (Fin 0.05))
  ∧ (feq close (Fin 100) → feq next_close (Fin 105) →
     feq prediction (Fin (-0.01)) →
     go_long = false ∧ feq trade_return (Fin (-5))).
Proof.
  intros Hrun Htab Hp Hc Hn.
  pose proof (get_rolling_predictions_nonempty _ _ _ _ _ _ _ _ _ Hrun) as Hne.
  pose proof (get_rolling_predictions_records _ _ _ _ _ _ _ _ _ Hrun)
    as (_ & _ & _ & _ & Hla & _).
  apply validate_res_of_ok in Htab
    as (predictions & closes & _ & _ & _ & _ & ->);
    [|apply length_nonempty; congruence].
  destruct (validate_res_cells (index validate) (validate_rolling_actuals run)
              predictions closes) as (_ & E2 & E3 & E4 & E5 & E6 & E7).
  rewrite E2 in Hp. rewrite E3 in Hc. rewrite E4 in Hn. rewrite E5, E6, E7.
  assert (gt0 predictions !! i = Some (of_bool (fgt0 prediction))) as Hg.
  { unfold gt0. by rewrite list_lookup_fmap, Hp. }
  destruct (trade_row _ _ _ _ _ Hg Hc) as (Hn' & Hr & Hpct).
  rewrite Hn in Hn'. injection Hn' as Hn'. rewrite <-Hn' in Hr, Hpct.
  rewrite truthy_of_bool in Hr, Hpct.
  split; [done|]. split; [intros b ->; apply fgt0_of_bool|].
  split; [done|]. split; [done|].
  split.
  - destruct close as [c| | |], next_close as [n| | |],
      prediction as [p| | |]; cbn [feq fgt0 fsub fdiv]; try tauto.
    intros Hc' Hn'' Hp'.
    rewrite Qpos_b_true by (rewrite Hp'; reflexivity). cbn [feq fgt0 fsub fdiv].
    rewrite Qzero_b_false by (rewrite Hc'; discriminate).
    cbn [feq]. rewrite Hc', Hn''. split; [done|]. split; reflexivity.
  - destruct close as [c| | |], next_close as [n| | |],
      prediction as [p| | |]; cbn [feq fgt0 fsub fdiv]; try tauto.
    intros Hc' Hn'' Hp'.
    rewrite Qpos_b_false by (rewrite Hp'; discriminate). cbn [feq].
    rewrite Hc', Hn''. split; [done|]. reflexivity.
Qed.

End TradeFacts.

(** ** The aggregated numbers of a rolling run *)

Lemma mapM_seq_lookup {B} (f : nat → result B) (n : nat) (k : list B) (i : nat) :
  mapM f (seq 0 n) = Ok k → i < n → ∃ y, k !! i = Some y ∧ f i = Ok y.
Proof.
  intros HF%mapM_ok_Forall2 Hi.
  assert (seq 0 n !! i = Some i) as Hs by (by apply lookup_seq_lt).
  destruct (Forall2_lookup_l _ _ _ _ _ HF Hs) as (y & Hy & Hf). eauto.
Qed.

Section AggregateFacts.
Context {M : Type} `{!Estimator M} `{!StdDev} `{!Sqrt}.

(** The lists of records only grow. *)
Lemma rolling_records_grow (target : string) (Xv yv : DataFrame) (rows : list nat)
    (st st' : Rolling) :
  for_each (rolling_step target Xv yv) rows st = Ok st' →
  train_rolling_predictions st `prefix_of` train_rolling_predictions st'
  ∧ train_rolling_actuals st `prefix_of` train_rolling_actuals st'.
Proof.
  revert st. induction rows as [|r rows IH]; intros st Hrun; simpl in Hrun.
  - by injection Hrun as <-.
  - ok_inv.
    match goal with Hd : for_each _ _ _ = Ok _ |- _ =>
      apply IH in Hd as (P1 & P2) end.
    match goal with Hd : rolling_step _ _ _ _ _ = Ok _ |- _ =>
      apply rolling_step_records in Hd
        as (? & tp & ta & ? & ? & ? & ? & _ & _ & _ & _ & _ & _ & _ & _
            & E1 & E2 & _ & _) end.
    rewrite E1 in P1. rewrite E2 in P2. split.
    + etrans; [|exact P1]. by apply prefix_app_r.
    + etrans; [|exact P2]. by apply prefix_app_r.
Qed.

(** The in-sample record number [i] of a complete run is that of the
    window of pass [i]: the targets of the window, and the predictions on
    the window of the model fitted on it. *)
Lemma get_rolling_predictions_in_sample (train validate test : DataFrame) (model : M)
    (target : string) (features_to_use features_to_scale : list string)
    (perform_feature_selection : bool) (run : Rolling) (i : nat) :
  get_rolling_predictions train validate test model target features_to_use
    features_to_scale perform_feature_selection = Ok run →
  i < len validate →
  ∃ st m a p,
    rolling_state train validate test model target features_to_use
      features_to_scale perform_feature_selection i = Ok st
    ∧ len (y_train_rolled st) = len train
    ∧ col target (y_train_rolled st) = Ok a
    ∧ fit (fitted_model st) (X_train_scaled_featured_rolled st) a = Ok m
    ∧ predict m (X_train_scaled_featured_rolled st) = Ok p
    ∧ train_rolling_actuals run !! i = Some a
    ∧ train_rolling_predictions run !! i = Some p.
Proof.
  unfold get_rolling_predictions, rolling_state. intros Hrun Hi. ok_inv.
  match goal with Hd : rolling_init _ _ _ _ _ _ _ _ = Ok _ |- _ =>
    pose proof (rolling_init_index _ _ _ _ _ _ _ _ _ _ _ Hd)
      as (_ & _ & _ & HXv & _ & _ & Hcv & _ & _ & E1 & E2 & E3 & E4);
    pose proof Hd as Hinit; rewrite Hd end.
  cbn [mbind result_bind].
  match goal with Hd : for_each _ (seq 0 (len ?Xv)) _ = Ok _ |- _ =>
    replace (len Xv) with (i + (1 + (len validate - S i))) in Hd
      by (unfold len in *; rewrite HXv; lia);
    rewrite seq_app, for_each_app in Hd;
    apply bind_ok_inv in Hd as (st & Hst & Hd);
    rewrite seq_app, for_each_app in Hd;
    apply bind_ok_inv in Hd as (st1 & Hstep & Hd)
  end.
  simpl in Hstep. apply bind_ok_inv in Hstep as (st1' & Hstep & [= ->]).
  exists st.
  destruct (rolling_window_length _ _ _ _ _ _ _ _ _ _ _ _ _ Hinit Hst)
    as (_ & Hly).
  pose proof (rolling_accumulators _ _ _ _ _ _ _ E1 E2 E3 E4 Hcv Hst)
    as (L1 & L2 & _).
  match goal with Hd : for_each _ _ st1 = Ok _ |- _ =>
    apply rolling_records_grow in Hd as (P1 & P2) end.
  apply rolling_step_records in Hstep
    as (m & tp & ta & ? & ? & ? & ? & Hta & Hfit & Hpred & _ & _ & _ & _ & _
        & E1' & E2' & _ & _).
  exists m, ta, tp. repeat split; try done.
  - eapply prefix_lookup_Some; [|exact P2]. rewrite E2'.
    rewrite lookup_app_r by lia. by replace (i - _) with 0 by lia.
  - eapply prefix_lookup_Some; [|exact P1]. rewrite E1'.
    rewrite lookup_app_r by lia. by replace (i - _) with 0 by lia.
Qed.

(** C7 (amended).  A rolling regression run ends with two aggregated error
    numbers: the mean, over the [len validate] refits, of the RMSE of each
    refit on its own window of [len train] rows, and one RMSE over the
    whole ordered sequence of [len validate] out-of-sample predictions;
    the result table keeps the records in the order of the Validate rows.
    A rolling classification run ends with one number only, the accuracy
    over the out-of-sample sequence. *)
Theorem rolling_run_aggregates (train validate test : DataFrame) (target : string)
    (features_to_use features_to_scale : list string) (l : nat)
    (ms : list M) (h : Store) (d : Dict) (j : nat) :
  h !! l = Some d →
  (∀ ms' h',
     rolling_reg_model train validate test target features_to_use
       features_to_scale l (ms, h) j = Ok (ms', h') →
     ∃ m run rmses predictions validate_rmse vr,
       ms !! j = Some m
       ∧ get_rolling_predictions train validate test m target features_to_use
           features_to_scale true = Ok run
       ∧ length rmses = len validate
       ∧ (∀ i, i < len validate →
            ∃ st fitted a p r,
              rolling_state train validate test m target features_to_use
                features_to_scale true i = Ok st
              ∧ len (y_train_rolled st) = len train
              ∧ col target (y_train_rolled st) = Ok a
              ∧ fit (fitted_model st) (X_train_scaled_featured_rolled st) a
                = Ok fitted
              ∧ predict fitted (X_train_scaled_featured_rolled st) = Ok p
              ∧ rmse a p = Ok r
              ∧ rmses !! i = Some r)
       ∧ firsts (validate_rolling_predictions run) = Ok predictions
       ∧ length predictions = len validate
       ∧ validate_rolling_actuals run = take (len validate) (cells target validate)
       ∧ length (validate_rolling_actuals run) = len validate
       ∧ rmse (validate_rolling_actuals run) predictions = Ok validate_rmse
       ∧ index vr = index validate
       ∧ cells "actual" vr = validate_rolling_actuals run
       ∧ cells "predictions" vr = predictions
       ∧ h' !! l
         = Some (<[model_name m +:+ "_train_rmse" := Number (np_mean rmses)]>
                   (<[model_name m +:+ "_validate_rmse" := Number validate_rmse]>
                      (<[model_name m := Table vr]> d))))
  ∧ (∀ ms' h',
       rolling_class_model train validate test target features_to_use
         features_to_scale l (ms, h) j = Ok (ms', h') →
       ∃ m run predictions validate_accuracy vr baseline,
         ms !! j = Some m
         ∧ get_rolling_predictions train validate test m target features_to_use
             features_to_scale false = Ok run
         ∧ firsts (validate_rolling_predictions run) = Ok predictions
         ∧ length predictions = len validate
         ∧ validate_rolling_actuals run
           = take (len validate) (cells target validate)
         ∧ accuracy_score (validate_rolling_actuals run) predictions
           = Ok validate_accuracy
         ∧ index vr = index validate
         ∧ cells "actual" vr = validate_rolling_actuals run
         ∧ cells "predictions" vr = predictions
         ∧ h' !! l
           = Some (<["baseline" := Table baseline]>
                     (<[model_name m +:+ "_accuracy" := Number validate_accuracy]>
                        (<[model_name m := Table vr]> d)))).
Proof.
  intros Hd. split.
  - intros ms' h' Hpass.
    apply rolling_reg_model_ok in Hpass
      as (m & run & rmses & predictions & validate_rmse & vr & Hm & Hrun
          & Hrmses & Hfirsts & Hvr & Htab & -> & ->).
    pose proof (get_rolling_predictions_records _ _ _ _ _ _ _ _ _ Hrun)
      as (_ & L1 & L2 & L3 & L4 & Hact).
    pose proof (get_rolling_predictions_nonempty _ _ _ _ _ _ _ _ _ Hrun) as Hne.
    pose proof Htab as Htab'.
    apply validate_res_of_ok in Htab'
      as (predictions' & closes & Hf' & _ & _ & Hlp & ->);
      [|apply length_nonempty; congruence].
    assert (predictions' = predictions) as -> by congruence.
    destruct (validate_res_cells (index validate) (validate_rolling_actuals run)
                predictions closes) as (E1 & E2 & _).
    exists m, run, rmses, predictions, validate_rmse,
      (mkDF (index validate)
         (validate_res_columns (validate_rolling_actuals run) predictions closes)).
    repeat split; try done.
    + apply mapM_ok_length in Hrmses. rewrite length_seq in Hrmses. congruence.
    + intros i Hi.
      destruct (get_rolling_predictions_in_sample _ _ _ _ _ _ _ _ _ i Hrun Hi)
        as (st & fitted & a & p & Hst & Hlen & Hcol & Hfit & Hpred & Ha & Hp).
      destruct (mapM_seq_lookup _ _ _ i Hrmses) as (r & Hr & Hfr); [lia|].
      rewrite Ha, Hp in Hfr. simpl in Hfr.
      exists st, fitted, a, p, r. done.
    + by rewrite (setitem_3 _ _ _ _ _ _ _ _ _ Hd), lookup_insert_eq.
  - intros ms' h' Hpass.
    apply rolling_class_model_ok in Hpass
      as (m & run & predictions & validate_accuracy & vr & baseline & Hm & Hrun
          & Hfirsts & Hacc & Htab & Hbase & -> & ->).
    pose proof (get_rolling_predictions_records _ _ _ _ _ _ _ _ _ Hrun)
      as (_ & L1 & L2 & L3 & L4 & Hact).
    pose proof (get_rolling_predictions_nonempty _ _ _ _ _ _ _ _ _ Hrun) as Hne.
    pose proof Htab as Htab'.
    apply validate_res_of_ok in Htab'
      as (predictions' & closes & Hf' & _ & _ & Hlp & ->);
      [|apply length_nonempty; congruence].
    assert (predictions' = predictions) as -> by congruence.
    destruct (validate_res_cells (index validate) (validate_rolling_actuals run)
                predictions closes) as (E1 & E2 & _).
    exists m, run, predictions, validate_accuracy,
      (mkDF (index validate)
         (validate_res_columns (validate_rolling_actuals run) predictions closes)),
      baseline.
    repeat split; try done.
    by rewrite (setitem_3 _ _ _ _ _ _ _ _ _ Hd), lookup_insert_eq.
Qed.

End AggregateFacts.

(** ** The majority-class baseline *)

Lemma feqb_sym (x y : float) : feqb x y = feqb y x.
Proof.
  destruct x as [a| | |], y as [b| | |]; simpl; try done.
  destruct (Qeq_bool a b) eqn:E1, (Qeq_bool b a) eqn:E2; try done.
  - apply Qeq_bool_iff in E1. symmetry in E1. apply Qeq_bool_iff in E1. congruence.
  - apply Qeq_bool_iff in E2. symmetry in E2. apply Qeq_bool_iff in E2. congruence.
Qed.

Lemma feqb_trans (x y z : float) :
  feqb x y = true → feqb y z = true → feqb x z = true.
Proof.
  destruct x as [a| | |], y as [b| | |], z as [c| | |]; simpl; try done.
  intros E1%Qeq_bool_iff E2%Qeq_bool_iff. apply Qeq_bool_iff. by rewrite E1.
Qed.

Lemma count_of_feqb (x y : float) (l : list float) :
  feqb x y = true → count_of x l = count_of y l.
Proof.
  intros Hxy. unfold count_of. f_equal. apply list_filter_iff. intros z.
  split; intros Hz.
  - eapply feqb_trans; [|exact Hz]. by rewrite feqb_sym.
  - by eapply feqb_trans.
Qed.

Lemma count_of_pos (x : float) (l : list float) :
  0 < count_of x l → ∃ y, y ∈ l ∧ feqb x y = true.
Proof.
  unfold count_of. intros Hpos.
  destruct (filter (λ y, feqb x y = true) l) as [|y k] eqn:Hf; [simpl in Hpos; lia|].
  assert (y ∈ filter (λ y, feqb x y = true) l) as Hin by (rewrite Hf; left).
  apply list_elem_of_filter in Hin as (? & ?). eauto.
Qed.

(** The scan that [mode0] makes ends on an entry that no scanned entry
    beats in frequency. *)
Lemma mode_scan (l ys : list float) (b : float) :
  let r := fold_left (λ best y, if mode_prefers l y best then y else best) ys b in
  (r = b ∨ r ∈ ys)
  ∧ count_of b l ≤ count_of r l
  ∧ ∀ z, z ∈ ys → count_of z l ≤ count_of r l.
Proof.
  revert b. induction ys as [|y ys IH]; intros b; simpl.
  - split; [by left|]. split; [lia|]. intros z Hz. by apply elem_of_nil in Hz.
  - destruct (IH (if mode_prefers l y b then y else b)) as (Hin & Hb & Hall).
    assert (count_of b l ≤ count_of (if mode_prefers l y b then y else b) l
            ∧ count_of y l ≤ count_of (if mode_prefers l y b then y else b) l)
      as (Hb' & Hy').
    { unfold mode_prefers.
      destruct (count_of b l <? count_of y l) eqn:E1; simpl.
      - apply Nat.ltb_lt in E1. lia.
      - apply Nat.ltb_ge in E1.
        destruct (count_of y l =? count_of b l) eqn:E2; simpl.
        + apply Nat.eqb_eq in E2. destruct (fltb y b); lia.
        + lia. }
    split; [|split].
    + destruct Hin as [->|Hin].
      * destruct (mode_prefers l y b); [right; left | by left].
      * right. by right.
    + lia.
    + intros z [->|Hz]%elem_of_cons; [lia | by apply Hall].
Qed.

Lemma count_of_dropna (y : float) (l : list float) :
  count_of y (filter (λ x, isna x = false) l) = count_of y l.
Proof.
  unfold count_of. induction l as [|z l IH]; [done|].
  rewrite !filter_cons.
  destruct (decide (isna z = false)) as [Hz|Hz].
  - rewrite filter_cons. destruct (decide (feqb y z = true)); simpl; by rewrite IH.
  - rewrite IH. destruct (decide (feqb y z = true)) as [Hyz|]; [|done].
    destruct z; try done. by destruct y.
Qed.

Lemma mode0_ok (l : list float) (mc : float) :
  mode0 l = Ok mc →
  mc ∈ l ∧ isna mc = false ∧ ∀ y, count_of y l ≤ count_of mc l.
Proof.
  unfold mode0.
  destruct (filter (λ x, isna x = false) l) as [|x xs] eqn:Hf; [done|].
  intros [= <-].
  destruct (mode_scan (x :: xs) xs x) as (Hin & _ & Hall).
  set (r := fold_left _ xs x) in *.
  assert (r ∈ x :: xs) as Hr.
  { destruct Hin as [->|Hin]; [left | by right]. }
  assert (∀ z, z ∈ x :: xs → count_of z (x :: xs) ≤ count_of r (x :: xs)) as Hmax.
  { intros z [->|Hz]%elem_of_cons; [|by apply Hall].
    destruct (mode_scan (x :: xs) xs x) as (_ & Hb & _). exact Hb. }
  rewrite <-Hf in Hr, Hmax.
  pose proof Hr as (? & ?)%list_elem_of_filter.
  split; [done|]. split; [done|].
  intros y. rewrite <-(count_of_dropna y l), <-(count_of_dropna r l).
  destruct (decide (0 < count_of y (filter (λ x, isna x = false) l)))
    as [Hpos|]; [|lia].
  apply count_of_pos in Hpos as (z & Hz & Hyz).
  rewrite (count_of_feqb _ _ _ Hyz). by apply Hmax.
Qed.

Lemma baseline_of_ok (train validate baseline : DataFrame) :
  baseline_of train validate = Ok baseline →
  len validate ≠ 0 →
  ∃ close labels majority,
    col "close" validate = Ok close
    ∧ col "fwd_close_positive" train = Ok labels
    ∧ mode0 labels = Ok majority
    ∧ let go_long := replicate (len validate) majority in
      let ret := np_where go_long (col_sub (shift_up close) close)
                   (col_sub close (shift_up close)) in
      length ret = len validate
      ∧ baseline
        = mkDF (index validate)
            [("close", close); ("next_day_close", shift_up close);
             ("predictions", go_long); ("go_long", go_long); ("ret", ret)].
Proof.
  unfold baseline_of. intros Hrun Hne.
  assert (index validate ≠ []) as Hv by (by apply length_nonempty).
  apply bind_ok_inv in Hrun as (close & Hc & Hrun). rewrite Hc in Hrun.
  cbn [mbind result_bind] in Hrun.
  apply bind_ok_inv in Hrun as (labels & Hl & Hrun).
  apply bind_ok_inv in Hrun as (majority & Hm & Hrun).
  unfold assign_scalar in Hrun.
  frame_eval_in Hrun.
  apply assign_list_ok in Hrun as (Hlr & ->); [|done].
  frame_eval_in Hlr.
  exists close, labels, majority. unfold len in *. simpl in Hlr. done.
Qed.

Lemma baseline_cells (idx : list Z) (close go_long ret : list float) :
  let b := mkDF idx [("close", close); ("next_day_close", shift_up close);
                     ("predictions", go_long); ("go_long", go_long);
                     ("ret", ret)] in
  cells "predictions" b = go_long ∧ cells "ret" b = ret.
Proof. split; unfold cells; cbn; string_decide; done. Qed.

Lemma fsub_fin_notna (x y : float) :
  isfin x = true → isfin y = true → isna (fsub x y) = false.
Proof. by destruct x, y. Qed.

Lemma fsub_nan_l (x : float) : fsub NaN x = NaN.
Proof. by destruct x. Qed.

Lemma fsub_nan_r (x : float) : fsub x NaN = NaN.
Proof. by destruct x. Qed.

Section BaselineFacts.
Context {M : Type} `{!Estimator M} `{!StdDev}.

(** C9 (amended).  The majority-class baseline of a rolling classification
    pass predicts, on every Validate row, a most frequent label of the
    Train set; its trade-return column has one entry per Validate row, and
    every entry but the last is non-null when the closing prices are: the
    last one is null, the next close being taken inside Validate. *)
Theorem baseline_trade_returns (train validate test : DataFrame) (target : string)
    (features_to_use features_to_scale : list string) (l : nat)
    (ms ms' : list M) (h h' : Store) (d : Dict) (j : nat) :
  h !! l = Some d →
  rolling_class_model train validate test target features_to_use
    features_to_scale l (ms, h) j = Ok (ms', h') →
  length (cells "close" validate) = len validate →
  Forall (λ x, isfin x = true) (cells "close" validate) →
  ∃ d' baseline labels majority,
    h' !! l = Some d' ∧ d' !! "baseline" = Some (Table baseline)
    ∧ col "fwd_close_positive" train = Ok labels
    ∧ mode0 labels = Ok majority
    ∧ majority ∈ labels
    ∧ (∀ y, count_of y labels ≤ count_of majority labels)
    ∧ cells "predictions" baseline = replicate (len validate) majority
    ∧ len baseline = len validate
    ∧ length (cells "ret" baseline) = len validate
    ∧ (∀ i, S i < len validate →
         ∃ x, cells "ret" baseline !! i = Some x ∧ isna x = false)
    ∧ cells "ret" baseline !! (len validate - 1) = Some NaN.
Proof.
  intros Hd Hpass Hwf Hfin.
  apply rolling_class_model_ok in Hpass
    as (m & run & predictions & validate_accuracy & vr & baseline & Hm & Hrun
        & _ & _ & _ & Hbase & -> & ->).
  pose proof (get_rolling_predictions_nonempty _ _ _ _ _ _ _ _ _ Hrun) as Hne.
  apply baseline_of_ok in Hbase
    as (close & labels & majority & Hc & Hl & Hmode & Hlen & ->); [|done].
  rewrite (col_cells _ _ _ Hc) in Hwf, Hfin.
  destruct (mode0_ok _ _ Hmode) as (Hin & _ & Hmax).
  destruct (baseline_cells (index validate) close
              (replicate (len validate) majority)
              (np_where (replicate (len validate) majority)
                 (col_sub (shift_up close) close)
                 (col_sub close (shift_up close)))) as (E1 & E2).
  eexists _, _, labels, majority.
  split; [rewrite (setitem_3 _ _ _ _ _ _ _ _ _ Hd); apply lookup_insert_eq|].
  split; [apply lookup_insert_eq|].
  rewrite E1, E2. repeat split; try done.
  - intros i Hi.
    assert (is_Some (close !! i)) as [c Hci] by (apply lookup_lt_is_Some; lia).
    assert (is_Some (close !! S i)) as [c' Hci'] by (apply lookup_lt_is_Some; lia).
    assert (replicate (len validate) majority !! i = Some majority) as Hg
      by (apply lookup_replicate_2; lia).
    destruct (trade_row _ _ _ _ _ Hg Hci) as (_ & Hr & _).
    rewrite Hci' in Hr. simpl in Hr. eexists. split; [exact Hr|].
    assert (isfin c = true) by (by eapply Forall_lookup_1 in Hfin).
    assert (isfin c' = true) by (by eapply Forall_lookup_1 in Hfin).
    destruct (truthy majority); by apply fsub_fin_notna.
  - assert (is_Some (close !! (len validate - 1))) as [c Hci]
      by (apply lookup_lt_is_Some; lia).
    assert (replicate (len validate) majority !! (len validate - 1)
            = Some majority) as Hg by (apply lookup_replicate_2; lia).
    destruct (trade_row _ _ _ _ _ Hg Hci) as (_ & Hr & _).
    rewrite (lookup_ge_None_2 close (S (len validate - 1))) in Hr by lia.
    simpl in Hr. rewrite Hr. f_equal.
    by destruct (truthy majority), c.
Qed.

End BaselineFacts.

(** ** The shared dictionary of rolling_class_models *)

Lemma union_absorb (W d : Dict) : dom d ⊆ dom W → W ∪ d = W.
Proof.
  intros Hsub. apply map_eq. intros k. rewrite lookup_union.
  destruct (W !! k) as [v|] eqn:HW; simpl.
  - by destruct (d !! k).
  - assert (d !! k = None) as ->; [|done].
    apply not_elem_of_dom. intros Hk%Hsub. by apply not_elem_of_dom in HW.
Qed.

Lemma insert3_union (k1 k2 k3 : string) (v1 v2 v3 : entry) (d : Dict) :
  <[k3 := v3]> (<[k2 := v2]> (<[k1 := v1]> d))
  = <[k3 := v3]> (<[k2 := v2]> (<[k1 := v1]> (∅ : Dict))) ∪ d.
Proof. by rewrite <-!insert_union_l, (left_id_L ∅ (∪)). Qed.

Lemma three_keys (a b c : string) :
  ({[c]} ∪ {[a; b]} : gset string) = {[b; a; c]}.
Proof. set_solver. Qed.

Section SharedDict.
Context {M : Type} `{!Estimator M} `{!StdDev}.
Hypothesis fit_keeps_name :
  ∀ (m m' : M) X y, fit m X y = Ok m' → model_name m' = model_name m.

Lemma rolling_init_model (train validate test : DataFrame) (model : M)
    (target : string) (features_to_use features_to_scale : list string)
    (perform_feature_selection : bool) (st : Rolling) (Xv yv : DataFrame) :
  rolling_init train validate test model target features_to_use
    features_to_scale perform_feature_selection = Ok (st, Xv, yv) →
  fitted_model st = model.
Proof.
  unfold rolling_init. intros Hrun. ok_inv. done.
Qed.

Lemma rolling_steps_name (target : string) (Xv yv : DataFrame) (rows : list nat)
    (st st' : Rolling) :
  for_each (rolling_step target Xv yv) rows st = Ok st' →
  model_name (fitted_model st') = model_name (fitted_model st).
Proof.
  revert st. induction rows as [|r rows IH]; intros st Hrun; simpl in Hrun.
  - by injection Hrun as <-.
  - ok_inv.
    match goal with Hd : for_each _ _ _ = Ok _ |- _ => rewrite (IH _ Hd) end.
    match goal with Hd : rolling_step _ _ _ _ _ = Ok _ |- _ =>
      apply rolling_step_records in Hd
        as (m & ? & ? & ? & ? & ? & ? & _ & Hfit & _ & _ & _ & _ & _ & -> & _) end.
    by eapply fit_keeps_name.
Qed.

Lemma get_rolling_predictions_name (train validate test : DataFrame) (model : M)
    (target : string) (features_to_use features_to_scale : list string)
    (perform_feature_selection : bool) (run : Rolling) :
  get_rolling_predictions train validate test model target features_to_use
    features_to_scale perform_feature_selection = Ok run →
  model_name (fitted_model run) = model_name model.
Proof.
  unfold get_rolling_predictions. intros Hrun. ok_inv.
  match goal with Hd : for_each _ _ _ = Ok _ |- _ =>
    rewrite (rolling_steps_name _ _ _ _ _ _ Hd) end.
  f_equal. by eapply rolling_init_model.
Qed.

(** One pass of the model loop writes three keys, with values that do not
    depend on what the dictionary held. *)
Lemma rolling_class_model_writes (train validate test : DataFrame) (target : string)
    (features_to_use features_to_scale : list string) (l : nat)
    (ms ms' : list M) (h h' : Store) (d : Dict) (j : nat) :
  rolling_class_model train validate test target features_to_use
    features_to_scale l (ms, h) j = Ok (ms', h') →
  h !! l = Some d →
  model_name <$> ms' = model_name <$> ms
  ∧ ∃ W : Dict,
      dom W = class_keys (model_name <$> ms) [j]
      ∧ h' = <[l := W ∪ d]> h
      ∧ ∀ (h2 : Store) (d2 : Dict), h2 !! l = Some d2 →
          rolling_class_model train validate test target features_to_use
            features_to_scale l (ms, h2) j = Ok (ms', <[l := W ∪ d2]> h2).
Proof.
  intros Hpass Hd.
  apply rolling_class_model_ok in Hpass
    as (m & run & predictions & acc & vr & baseline & Hm & Hrun & Hf & Hacc
        & Htab & Hbase & -> & ->).
  split.
  { rewrite list_fmap_insert, (get_rolling_predictions_name _ _ _ _ _ _ _ _ _ Hrun).
    apply list_insert_id. by rewrite list_lookup_fmap, Hm. }
  exists (<["baseline" := Table baseline]>
            (<[model_name m +:+ "_accuracy" := Number acc]>
               (<[model_name m := Table vr]> (∅ : Dict)))).
  split; [|split].
  - unfold class_keys. simpl. rewrite list_lookup_fmap, Hm. simpl.
    rewrite !dom_insert_L, dom_empty_L, !(right_id_L ∅ (∪)).
    apply three_keys.
  - by rewrite (setitem_3 _ _ _ _ _ _ _ _ _ Hd), insert3_union.
  - intros h2 d2 Hd2. unfold rolling_class_model.
    rewrite Hm. cbn [of_option mbind result_bind].
    rewrite Hrun. cbn [mbind result_bind].
    rewrite Hf. cbn [mbind result_bind].
    rewrite Hacc. cbn [mbind result_bind].
    rewrite Htab. cbn [mbind result_bind].
    rewrite Hbase. cbn [mbind result_bind mret result_ret].
    by rewrite (setitem_3 _ _ _ _ _ _ _ _ _ Hd2), insert3_union.
Qed.

Lemma class_keys_cons (names : list string) (j : nat) (rows : list nat) :
  class_keys names (j :: rows) = class_keys names [j] ∪ class_keys names rows.
Proof. unfold class_keys. simpl. by rewrite (right_id_L ∅ (∪)). Qed.

(** The model loop of one asset, likewise. *)
Lemma rolling_class_models_loop_writes (train validate test : DataFrame)
    (target : string) (features_to_use features_to_scale : list string) (l : nat)
    (rows : list nat) (ms ms' : list M) (h h' : Store) (d : Dict) :
  for_each (rolling_class_model train validate test target features_to_use
              features_to_scale l) rows (ms, h) = Ok (ms', h') →
  h !! l = Some d →
  model_name <$> ms' = model_name <$> ms
  ∧ ∃ W : Dict,
      dom W = class_keys (model_name <$> ms) rows
      ∧ h' = <[l := W ∪ d]> h
      ∧ ∀ (h2 : Store) (d2 : Dict), h2 !! l = Some d2 →
          for_each (rolling_class_model train validate test target
                      features_to_use features_to_scale l) rows (ms, h2)
          = Ok (ms', <[l := W ∪ d2]> h2).
Proof.
  revert ms ms' h h' d.
  induction rows as [|j rows IH]; intros ms ms' h h' d Hrun Hd.
  - cbn [for_each] in Hrun. injection Hrun as <- <-. split; [done|].
    exists ∅. split; [done|]. rewrite (left_id_L ∅ (∪)).
    split; [by rewrite insert_id|].
    intros h2 d2 Hd2. cbn [for_each]. by rewrite (left_id_L ∅ (∪)), insert_id.
  - cbn [for_each] in Hrun.
    apply bind_ok_inv in Hrun as ([ms1 h1] & Hpass & Hrest).
    destruct (rolling_class_model_writes _ _ _ _ _ _ _ _ _ _ _ _ _ Hpass Hd)
      as (Hn1 & W1 & HW1 & -> & Hdet1).
    destruct (IH ms1 ms' _ h' (W1 ∪ d) Hrest (lookup_insert_eq _ _ _))
      as (Hn2 & W2 & HW2 & -> & Hdet2).
    split; [congruence|].
    exists (W2 ∪ W1). split; [|split].
    + rewrite dom_union_L, HW1, HW2, Hn1, (class_keys_cons _ j rows).
      by rewrite (comm_L (∪) (class_keys _ [j])).
    + by rewrite insert_insert_eq, (assoc_L (∪)).
    + intros h2 d2 Hd2. cbn [for_each]. rewrite (Hdet1 h2 d2 Hd2).
      cbn [mbind result_bind].
      rewrite (Hdet2 _ (W1 ∪ d2) (lookup_insert_eq _ _ _)).
      by rewrite insert_insert_eq, (assoc_L (∪)).
Qed.

Lemma rolling_class_asset_ok (target : string)
    (features_to_use features_to_scale : list string) (l : nat)
    (ms ms' : list M) (mapping mapping' : gmap string nat) (h h' : Store)
    (k : string) (train validate test : DataFrame) :
  rolling_class_asset target features_to_use features_to_scale l
    (ms, mapping, h) (k, (train, validate, test)) = Ok (ms', mapping', h') →
  for_each (rolling_class_model train validate test target features_to_use
              features_to_scale l) (seq 0 (length ms)) (ms, h) = Ok (ms', h')
  ∧ mapping' = <[k := l]> mapping.
Proof.
  unfold rolling_class_asset. intros Hrun. ok_inv. done.
Qed.

Lemma class_keys_names (ms ms' : list M) :
  model_name <$> ms' = model_name <$> ms →
  class_keys (model_name <$> ms') (seq 0 (length ms'))
  = class_keys (model_name <$> ms) (seq 0 (length ms)).
Proof.
  intros Hn. rewrite Hn. do 2 f_equal.
  by rewrite <-(length_fmap model_name ms'), Hn, length_fmap.
Qed.

(** Through the asset loop the store holds one dictionary, every asset
    visited so far is bound to it, and it has no key besides those of one
    pass. *)
Lemma rolling_class_assets_invariant (target : string)
    (features_to_use features_to_scale : list string) (l : nat)
    (split_data : list (string * Split)) (ms ms' : list M)
    (mapping mapping' : gmap string nat) (d : Dict) (h' : Store) :
  for_each (rolling_class_asset target features_to_use features_to_scale l)
    split_data (ms, mapping, {[l := d]}) = Ok (ms', mapping', h') →
  dom d ⊆ class_keys (model_name <$> ms) (seq 0 (length ms)) →
  model_name <$> ms' = model_name <$> ms
  ∧ (∀ k, k ∈ split_data.*1 → mapping' !! k = Some l)
  ∧ (∀ k, k ∉ split_data.*1 → mapping' !! k = mapping !! k)
  ∧ ∃ d', h' = {[l := d']}
          ∧ dom d' ⊆ class_keys (model_name <$> ms) (seq 0 (length ms)).
Proof.
  revert ms mapping d.
  induction split_data as [|[k [[train validate] test]] split_data IH];
    intros ms mapping d Hrun Hdom.
  - cbn [for_each] in Hrun. injection Hrun as <- <- <-.
    split; [done|]. split; [intros k Hk; by apply elem_of_nil in Hk|].
    split; [done|]. by exists d.
  - cbn [for_each] in Hrun.
    apply bind_ok_inv in Hrun as ([[ms1 mapping1] h1] & Hasset & Hrest).
    apply rolling_class_asset_ok in Hasset as (Hloop & ->).
    destruct (rolling_class_models_loop_writes _ _ _ _ _ _ _ _ _ _ _ _ d Hloop
                (lookup_singleton_eq _ _)) as (Hn1 & W & HW & -> & _).
    rewrite insert_singleton_eq in Hrest.
    destruct (IH ms1 _ (W ∪ d) Hrest) as (Hn2 & Hin & Hout & d' & -> & Hd').
    { rewrite (class_keys_names _ _ Hn1), dom_union, HW.
      by apply union_least. }
    split; [congruence|]. split; [|split].
    + intros k' Hk'. cbn [fmap list_fmap fst] in Hk'.
      destruct (decide (k' ∈ split_data.*1)) as [|Hnin]; [by apply Hin|].
      apply elem_of_cons in Hk' as [->|]; [|done].
      rewrite (Hout _ Hnin). apply lookup_insert_eq.
    + intros k' Hk'. cbn [fmap list_fmap fst] in Hk'.
      apply not_elem_of_cons in Hk' as (Hne & Hnin).
      rewrite (Hout _ Hnin). by apply lookup_insert_ne.
    + exists d'. split; [done|]. by rewrite <-(class_keys_names _ _ Hn1).
Qed.

(** C10 (amended).  [rolling_class_models] creates its results dictionary
    once, before the asset loop: every asset key of the returned mapping
    is bound to that one object.  Each asset's pass rewrites the same keys,
    so what the object holds at the end is what the pass over the last
    asset writes into an empty dictionary, and nothing of the assets
    handled before it. *)
Theorem rolling_class_models_shared_dictionary
    (split_data : list (string * Split)) (models : list M) (target : string)
    (features_to_use features_to_scale : list string)
    (mapping : gmap string nat) (store : Store) :
  rolling_class_models split_data models target features_to_use
    features_to_scale = Ok (mapping, store) →
  (∀ k, k ∈ split_data.*1 → mapping !! k = Some 0)
  ∧ (∀ k1 k2, k1 ∈ split_data.*1 → k2 ∈ split_data.*1 →
       mapping !! k1 = mapping !! k2)
  ∧ ∀ earlier k train validate test,
      split_data = earlier ++ [(k, (train, validate, test))] →
      ∃ ms ms',
        model_name <$> ms = model_name <$> models
        ∧ for_each (rolling_class_model train validate test target
                      features_to_use features_to_scale 0)
            (seq 0 (length ms)) (ms, {[0 := ∅]}) = Ok (ms', store).
Proof.
  unfold rolling_class_models, alloc. rewrite map_size_empty, insert_empty.
  intros Hrun. ok_inv.
  match goal with Hd : for_each _ _ _ = Ok _ |- _ => rename Hd into Hloop end.
  pose proof (rolling_class_assets_invariant _ _ _ _ _ _ _ _ _ _ _ Hloop
                ltac:(by rewrite dom_empty))
    as (_ & Hin & _ & _).
  split; [done|]. split; [intros k1 k2 H1 H2; by rewrite !Hin|].
  intros earlier k train validate test ->.
  rewrite for_each_app in Hloop.
  apply bind_ok_inv in Hloop as ([[ms1 mapping1] h1] & Hearlier & Hlast).
  apply rolling_class_assets_invariant in Hearlier
    as (Hn1 & _ & _ & d1 & -> & Hd1); [|by rewrite dom_empty].
  cbn [for_each] in Hlast. ok_inv.
  match goal with Hd : rolling_class_asset _ _ _ _ _ _ = Ok _ |- _ =>
    apply rolling_class_asset_ok in Hd as (Hpass & _) end.
  destruct (rolling_class_models_loop_writes _ _ _ _ _ _ _ _ _ _ _ _ d1 Hpass
              (lookup_singleton_eq _ _)) as (_ & W & HW & -> & Hdet).
  exists ms1. eexists. split; [done|].
  rewrite (Hdet {[0 := ∅]} ∅ (lookup_singleton_eq _ _)).
  rewrite !insert_singleton_eq, (right_id_L ∅ (∪)), union_absorb; [done|].
  by rewrite HW, (class_keys_names _ _ Hn1).
Qed.

End SharedDict.

(** ** The ARIMA grid search *)

Lemma for_each_bind {S A B} (body : S → B → result S) (f : A → list B)
    (xs : list A) (st : S) :
  for_each (λ st x, for_each body (f x) st) xs st = for_each body (xs ≫= f) st.
Proof.
  revert st. induction xs as [|x xs IH]; intros st; [done|].
  cbn [for_each]. rewrite bind_cons, for_each_app.
  destruct (for_each body (f x) st) as [st'|e]; [apply IH | done].
Qed.

Lemma for_each_ext {S A} (body1 body2 : S → A → result S) (xs : list A) (st : S) :
  (∀ st x, body1 st x = body2 st x) →
  for_each body1 xs st = for_each body2 xs st.
Proof.
  intros Hext. revert st. induction xs as [|x xs IH]; intros st; [done|].
  cbn [for_each]. rewrite Hext.
  destruct (body2 st x) as [st'|e]; [apply IH | done].
Qed.

Lemma for_each_singletons {S A B} (body : S → B → result S) (g : A → B)
    (xs : list A) (st : S) :
  for_each (λ st x, body st (g x)) xs st
  = for_each body (xs ≫= λ x, [g x]) st.
Proof.
  revert st. induction xs as [|x xs IH]; intros st; [done|].
  cbn [for_each]. rewrite bind_cons. cbn [app for_each].
  destruct (body st (g x)) as [st'|e]; [apply IH | done].
Qed.

Section ArimaFacts.
Context `{!Arima}.

(** The sweep visits the grid in row-major order of (p, d, q). *)
Lemma sweep_grid (train test : DataFrame) (target : string)
    (p_values d_values q_values : list nat) :
  sweep train test target p_values d_values q_values
  = for_each (evaluate_order train test target)
      (grid p_values d_values q_values) (mkSweep [] [] [] [] []).
Proof.
  unfold sweep, grid.
  rewrite <-(for_each_bind (evaluate_order train test target)).
  apply for_each_ext. intros st p.
  rewrite <-(for_each_bind (evaluate_order train test target)).
  apply for_each_ext. intros st' d.
  apply (for_each_singletons (evaluate_order train test target)
           (λ q, (p, d, q))).
Qed.

(** One order: it is recorded in [orders] whatever happens; its results
    are recorded only when the evaluation returns. *)
Lemma evaluate_order_ok (train test : DataFrame) (target : string) (st : Sweep)
    (order : nat * nat * nat) :
  evaluate_arima_model train test target order ≠ Raise KeyboardInterrupt →
  ∃ st', evaluate_order train test target st order = Ok st'
    ∧ orders st' = orders st ++ [order]
    ∧ (if is_ok (evaluate_arima_model train test target order)
       then length (mses st') = S (length (mses st))
            ∧ length (prediction_list st') = S (length (prediction_list st))
            ∧ length (actual_test st') = S (length (actual_test st))
            ∧ reported st' = reported st
       else mses st' = mses st
            ∧ prediction_list st' = prediction_list st
            ∧ actual_test st' = actual_test st
            ∧ reported st' = reported st ++ [order]).
Proof.
  intros Hki. unfold evaluate_order.
  destruct (evaluate_arima_model train test target order) as [[[e t] p]|e]; simpl.
  - eexists. split; [done|]. simpl. rewrite !length_app. simpl.
    repeat split; lia.
  - destruct e; try done; eexists; (split; [done|]); simpl; done.
Qed.

(** Without an interrupt the sweep goes through all the orders; it has
    then as many orders as it visited and as many results as evaluations
    that returned. *)
Lemma evaluate_orders_ok (train test : DataFrame) (target : string)
    (os : list (nat * nat * nat)) (st : Sweep) :
  (∀ o, o ∈ os → evaluate_arima_model train test target o ≠ Raise KeyboardInterrupt) →
  let returned :=
    filter (λ o, is_ok (evaluate_arima_model train test target o) = true) os in
  let failed :=
    filter (λ o, is_ok (evaluate_arima_model train test target o) = false) os in
  ∃ st', for_each (evaluate_order train test target) os st = Ok st'
    ∧ orders st' = orders st ++ os
    ∧ length (mses st') = length (mses st) + length returned
    ∧ length (prediction_list st') = length (prediction_list st) + length returned
    ∧ length (actual_test st') = length (actual_test st) + length returned
    ∧ reported st' = reported st ++ failed.
Proof.
  revert st. induction os as [|o os IH]; intros st Hki; simpl.
  - exists st. rewrite !app_nil_r. repeat split; lia.
  - destruct (evaluate_order_ok train test target st o) as (st1 & -> & Ho & Hst1).
    { apply Hki. left. }
    destruct (IH st1) as (st' & Hrun & Hos & L1 & L2 & L3 & Hrep).
    { intros o' Ho'. apply Hki. by right. }
    exists st'. cbn [mbind result_bind]. split; [done|].
    rewrite Hos, Ho, <-app_assoc. split; [done|].
    rewrite !filter_cons.
    destruct (is_ok (evaluate_arima_model train test target o)) eqn:Hok.
    + destruct Hst1 as (E1 & E2 & E3 & E4).
      rewrite decide_True by done. rewrite decide_False by done.
      rewrite L1, L2, L3, Hrep, E1, E2, E3, E4. simpl. repeat split; lia.
    + destruct Hst1 as (E1 & E2 & E3 & E4).
      rewrite decide_False by done. rewrite decide_True by done.
      rewrite L1, L2, L3, Hrep, E1, E2, E3, E4, <-app_assoc. done.
Qed.

(** An interrupt leaves the sweep at once. *)
Lemma evaluate_orders_interrupt (train test : DataFrame) (target : string)
    (os : list (nat * nat * nat)) (st : Sweep) (o : nat * nat * nat) :
  o ∈ os →
  evaluate_arima_model train test target o = Raise KeyboardInterrupt →
  for_each (evaluate_order train test target) os st = Raise KeyboardInterrupt.
Proof.
  revert st. induction os as [|o' os IH]; intros st Hin Hki.
  - by apply elem_of_nil in Hin.
  - cbn [for_each].
    assert (evaluate_arima_model train test target o' = Raise KeyboardInterrupt
            ∨ evaluate_arima_model train test target o' ≠ Raise KeyboardInterrupt)
      as [Ho'|Ho'].
    { destruct (evaluate_arima_model train test target o') as [r|[]];
        first [by left | by right]. }
    + unfold evaluate_order. by rewrite Ho'.
    + destruct (evaluate_order_ok train test target st o' Ho') as (st1 & -> & _).
      cbn [mbind result_bind]. apply IH; [|done].
      apply elem_of_cons in Hin as [->|]; [by rewrite Hki in Ho' | done].
Qed.

(** An order whose evaluation raises anything but an interrupt makes the
    sweep longer than its results: the table cannot be built and
    [evaluate_models] raises ValueError. *)
Lemma evaluate_models_failed_order (train test : DataFrame) (target : string)
    (p_values d_values q_values : list nat) (o : nat * nat * nat) :
  (∀ o', o' ∈ grid p_values d_values q_values →
     evaluate_arima_model train test target o' ≠ Raise KeyboardInterrupt) →
  o ∈ grid p_values d_values q_values →
  is_ok (evaluate_arima_model train test target o) = false →
  evaluate_models train test target p_values d_values q_values = Raise ValueError.
Proof.
  intros Hki Hin Hfail. unfold evaluate_models. rewrite sweep_grid.
  destruct (evaluate_orders_ok train test target _ (mkSweep [] [] [] [] []) Hki)
    as (st & -> & Hos & L1 & _).
  cbn [mbind result_bind]. unfold results_frame. simpl in Hos, L1.
  rewrite decide_False; [done|]. rewrite Hos, L1.
  pose proof (length_filter_lt
    (λ o, is_ok (evaluate_arima_model train test target o) = true)
    (grid p_values d_values q_values) o Hin) as Hlt.
  simpl in Hlt. specialize (Hlt ltac:(by rewrite Hfail)). lia.
Qed.

(** An interrupt in any order of the grid is raised by [evaluate_models]. *)
Lemma evaluate_models_interrupt (train test : DataFrame) (target : string)
    (p_values d_values q_values : list nat) (o : nat * nat * nat) :
  o ∈ grid p_values d_values q_values →
  evaluate_arima_model train test target o = Raise KeyboardInterrupt →
  evaluate_models train test target p_values d_values q_values
  = Raise KeyboardInterrupt.
Proof.
  intros Hin Hki. unfold evaluate_models. rewrite sweep_grid.
  by rewrite (evaluate_orders_interrupt _ _ _ _ _ _ Hin Hki).
Qed.

End ArimaFacts.

(** ** The leaderboard of the conventional split *)

Lemma elem_of_insert_by {A} (before : A → A → bool) (x y : A) (l : list A) :
  y ∈ insert_by before x l ↔ y = x ∨ y ∈ l.
Proof.
  induction l as [|z l IH]; simpl.
  - rewrite list_elem_of_singleton. set_solver.
  - destruct (before z x); rewrite !elem_of_cons; [rewrite IH|]; tauto.
Qed.

Lemma elem_of_sort_by {A} (before : A → A → bool) (y : A) (l : list A) :
  y ∈ sort_by before l ↔ y ∈ l.
Proof.
  unfold sort_by. induction l as [|x l IH]; simpl; [done|].
  rewrite elem_of_insert_by, IH, elem_of_cons. tauto.
Qed.

Lemma frame_of_metrics_ok (mk : string → float * float * float * float → LeaderRow)
    (metrics : list (float * float * float * float)) (names : list string)
    (rows : list LeaderRow) (r : LeaderRow) :
  frame_of_metrics mk metrics names = Ok rows → r ∈ rows →
  ∃ name m, r = mk name m.
Proof.
  unfold frame_of_metrics. intros Hrun Hin. ok_inv.
  apply list_elem_of_lookup in Hin as [i Hi].
  apply lookup_zip_with_Some in Hi as (name & m & -> & _). eauto.
Qed.

Section LeaderboardFacts.
Context {M : Type} `{!Estimator M} `{!StdDev} `{!Sqrt}.

Lemma calculate_regression_results_rows (models : list M)
    (rmses_train rmses_validate : gmap string float)
    (validate y_validate : DataFrame) (tbl : list LeaderRow) (vr : DataFrame) :
  calculate_regression_results models rmses_train rmses_validate validate
    y_validate = Ok (tbl, vr) →
  Forall reg_origin tbl ∧ Exists is_baseline_reg tbl.
Proof.
  unfold calculate_regression_results. intros Hrun. ok_inv.
  split.
  - apply Forall_forall. intros r Hr%elem_of_sort_by.
    apply elem_of_app in Hr as [Hr|Hr%list_elem_of_singleton].
    + match goal with Hd : frame_of_metrics _ _ _ = Ok _ |- _ =>
        destruct (frame_of_metrics_ok _ _ _ _ _ Hd Hr)
          as (name & [[[avg pct] v] t] & ->) end.
      by split.
    + subst r. by split.
  - apply Exists_exists. eexists. split.
    + apply elem_of_sort_by, elem_of_app. right. apply list_elem_of_singleton.
      reflexivity.
    + by repeat split.
Qed.

Lemma calculate_classification_results_rows (models : list M)
    (accuracies_train accuracies_validate : gmap string float)
    (validate y_validate : DataFrame) (tbl : list LeaderRow) (vr : DataFrame) :
  calculate_classification_results models accuracies_train accuracies_validate
    validate y_validate = Ok (tbl, vr) →
  Forall class_origin tbl.
Proof.
  unfold calculate_classification_results. intros Hrun. ok_inv.
  apply Forall_forall. intros r Hr%elem_of_sort_by.
  apply elem_of_app in Hr as [Hr|Hr%list_elem_of_singleton].
  - match goal with Hd : frame_of_metrics _ _ _ = Ok _ |- _ =>
      destruct (frame_of_metrics_ok _ _ _ _ _ Hd Hr)
        as (name & [[[avg pct] v] t] & ->) end.
    by split.
  - subst r. by split.
Qed.

Lemma conventional_asset_ok (features_to_use features_to_scale : list string)
    (st st' : Conventional) (k : string) (sp : Split) :
  conventional_asset features_to_use features_to_scale st (k, sp) = Ok st' →
  ∃ rows, avg_trade_model_results st' = avg_trade_model_results st ++ [(k, rows)]
          ∧ asset_table_ok (k, rows).
Proof.
  unfold conventional_asset. destruct sp as [[train validate] test].
  intros Hrun. ok_inv. simpl.
  match goal with Hd : calculate_regression_results _ _ _ _ _ = Ok _ |- _ =>
    apply calculate_regression_results_rows in Hd as (Hreg & Hbase) end.
  match goal with Hd : calculate_classification_results _ _ _ _ _ = Ok _ |- _ =>
    apply calculate_classification_results_rows in Hd as Hcls end.
  eexists. split; [done|]. split; simpl.
  - apply Forall_forall. intros r Hr%elem_of_sort_by.
    apply elem_of_app in Hr as [Hr|Hr].
    + left. by eapply Forall_forall in Hreg.
    + right. by eapply Forall_forall in Hcls.
  - apply Exists_exists in Hbase as (r & Hr & Hb).
    apply Exists_exists. exists r. split; [|done].
    apply elem_of_sort_by, elem_of_app. by left.
Qed.

Lemma conventional_assets_ok (features_to_use features_to_scale : list string)
    (split_data : list (string * Split)) (st st' : Conventional) :
  for_each (conventional_asset features_to_use features_to_scale) split_data st
    = Ok st' →
  ∃ tables, avg_trade_model_results st' = avg_trade_model_results st ++ tables
            ∧ tables.*1 = split_data.*1
            ∧ Forall asset_table_ok tables.
Proof.
  revert st. induction split_data as [|[k sp] split_data IH]; intros st Hrun.
  - cbn [for_each] in Hrun. injection Hrun as <-. exists [].
    by rewrite app_nil_r.
  - cbn [for_each] in Hrun. apply bind_ok_inv in Hrun as (st1 & Hasset & Hrest).
    apply conventional_asset_ok in Hasset as (rows & Hst1 & Hrows).
    apply IH in Hrest as (tables & Hst' & Hkeys & Htables).
    exists ((k, rows) :: tables). rewrite Hst', Hst1, <-app_assoc.
    split; [done|]. split; [by rewrite !fmap_cons, Hkeys|].
    by constructor.
Qed.

(** C6 (amended).  In every row of the leaderboard that
    [conventional_split] returns at most one of [train_rmse] and
    [train_accuracy] is non-null: never both, and for each asset the row
    [baseline_reg_<asset>] has neither (and a null dropoff).  The dropoff
    is [(validate_accuracy - train_accuracy) / train_accuracy] when
    [train_rmse] is null and [(validate_rmse - train_rmse) / train_rmse]
    when it is not. *)
Theorem leaderboard_dropoff (split_data : list (string * Split))
    (reg_models class_models : list M)
    (features_to_use features_to_scale : list string)
    (reg_v class_v : list (string * DataFrame)) (leaderboard : list LeaderRow) :
  conventional_split split_data reg_models class_models features_to_use
    features_to_scale = Ok (reg_v, class_v, leaderboard) →
  (∀ r, r ∈ leaderboard →
     (isna (train_rmse r) = true ∨ isna (train_accuracy r) = true)
     ∧ dropoff r
       = if isna (train_rmse r)
         then fdiv (fsub (validate_accuracy r) (train_accuracy r))
                (train_accuracy r)
         else fdiv (fsub (validate_rmse r) (train_rmse r)) (train_rmse r))
  ∧ (∀ k, k ∈ split_data.*1 →
       ∃ r, r ∈ leaderboard
            ∧ label r = "baseline_reg" +:+ "_" +:+ k
            ∧ isna (train_rmse r) = true ∧ isna (train_accuracy r) = true
            ∧ isna (dropoff r) = true).
Proof.
  unfold conventional_split. intros Hrun.
  apply bind_ok_inv in Hrun as (st & Hloop & Hrun).
  apply conventional_assets_ok in Hloop as (tables & Hst & Hkeys & Htables).
  simpl in Hst. rewrite Hst in Hrun.
  assert (leaderboard
          = with_dropoff <$> ('(k, results) ← tables; with_asset k <$> results))
    as ->.
  { destruct ('(k, results) ← tables; with_asset k <$> results)
      as [|r0 rows0]; [done|].
    by injection Hrun as _ _ <-. }
  clear Hrun.
  split.
  - intros r Hr.
    apply list_elem_of_fmap in Hr as (r1 & -> & Hr1).
    apply list_elem_of_bind in Hr1 as ([k rows] & Hr1 & Hk).
    apply list_elem_of_fmap in Hr1 as (r2 & -> & Hr2).
    eapply Forall_forall in Htables; [|exact Hk].
    destruct Htables as (Horigin & _). simpl in Horigin.
    eapply Forall_forall in Horigin; [|exact Hr2].
    unfold with_dropoff, with_asset, dropoff_of. simpl.
    destruct Horigin as [(_ & ->)|(_ & ->)]; simpl.
    + split; [by right|]. by destruct (isna (train_rmse r2)).
    + split; [by left|]. done.
  - intros k Hk. rewrite <-Hkeys in Hk.
    apply list_elem_of_fmap in Hk as ([k' rows] & -> & Hk).
    eapply Forall_forall in Htables; [|exact Hk].
    destruct Htables as (_ & Hbase). simpl in Hbase.
    apply Exists_exists in Hbase as (r & Hr & Hlabel & Hvr & Htr & Hva & Hta).
    exists (with_dropoff (with_asset k' r)). split; [|split].
    + apply list_elem_of_fmap. eexists. split; [done|].
      apply list_elem_of_bind. exists (k', rows). split; [|done].
      apply list_elem_of_fmap. eauto.
    + simpl. by rewrite Hlabel.
    + unfold with_dropoff, with_asset, dropoff_of. simpl.
      rewrite Htr, Hta, Hva. done.
Qed.

End LeaderboardFacts.

(** ** The failure policy of the grid search *)

Section ArimaPolicy.
Context `{!Arima}.

(** C4 (code bug).  In the ARIMA grid search an interrupt raised by any
    order of the grid is raised by [evaluate_models].  Without an interrupt
    the sweep goes on past the orders that raise: it visits the whole grid,
    reports the orders that raised and keeps a result for each of the
    others.  But the failed orders are not left out of the table: as soon as
    one order of the grid has raised, [evaluate_models] returns no table at
    all and raises ValueError. *)
Theorem evaluate_models_failure_policy (train test : DataFrame) (target : string)
    (p_values d_values q_values : list nat) :
  let os := grid p_values d_values q_values in
  let evaluate := evaluate_arima_model train test target in
  (∀ o, o ∈ os → evaluate o = Raise KeyboardInterrupt →
        evaluate_models train test target p_values d_values q_values
        = Raise KeyboardInterrupt)
  ∧ ((∀ o, o ∈ os → evaluate o ≠ Raise KeyboardInterrupt) →
     (∃ st, sweep train test target p_values d_values q_values = Ok st
            ∧ orders st = os
            ∧ reported st = filter (λ o, is_ok (evaluate o) = false) os
            ∧ length (mses st)
              = length (filter (λ o, is_ok (evaluate o) = true) os))
     ∧ (∀ o, o ∈ os → is_ok (evaluate o) = false →
          evaluate_models train test target p_values d_values q_values
          = Raise ValueError)).
Proof.
  intros os evaluate. split.
  - intros o Hin Hki. by eapply evaluate_models_interrupt.
  - intros Hki. split.
    + destruct (evaluate_orders_ok train test target os (mkSweep [] [] [] [] [])
                  Hki) as (st & Hrun & Hos & Hm & _ & _ & Hrep).
      exists st. rewrite sweep_grid. done.
    + intros o Hin Hfail. by eapply evaluate_models_failed_order.
Qed.

End ArimaPolicy.

(** * Further properties *)

(** ** Splitting *)

Lemma py_int_nonneg (n : nat) (a : Q) :
  (0 <= a)%Q →
  ∃ k : nat, py_int (fmul (of_nat n) (Fin a)) = Ok (Z.of_nat k).
Proof.
  intros Ha. unfold of_nat, fmul, py_int.
  exists (Z.to_nat (Qnum (inject_Z (Z.of_nat n) * a) ÷ Z.pos (Qden (inject_Z (Z.of_nat n) * a)))).
  rewrite Z2Nat.id; [done|].
  apply Z.quot_pos; [|done].
  destruct a as [p q]. unfold Qle in Ha. simpl in *. nia.
Qed.

Lemma slice_bound_of_nat (n k : nat) : slice_bound n (Z.of_nat k) = k `min` n.
Proof.
  unfold slice_bound. destruct (Z.ltb_spec (Z.of_nat k) 0); [lia|].
  by rewrite Nat2Z.id.
Qed.

(** The three slices of [split_frame] for sizes that are not negative. *)
Lemma py_slice_three {A} (ts vs : nat) (l : list A) :
  py_slice None (Some (Z.of_nat ts)) l = take ts l
  ∧ py_slice (Some (Z.of_nat ts)) (Some (Z.of_nat ts + Z.of_nat vs)%Z) l
    = take vs (drop ts l)
  ∧ py_slice (Some (Z.of_nat ts + Z.of_nat vs)%Z) None l = drop (ts + vs) l.
Proof.
  unfold py_slice. simpl.
  rewrite <-Nat2Z.inj_add, !slice_bound_of_nat.
  split; [|split].
  - rewrite drop_0, Nat.sub_0_r.
    destruct (Nat.min_spec ts (length l)) as [[_ ->]|[Hle ->]]; [done|].
    by rewrite !take_ge by lia.
  - destruct (decide (length l ≤ ts)) as [Hge|Hlt].
    + rewrite (drop_ge l ts) by done.
      rewrite drop_ge by lia. by rewrite !take_nil.
    + rewrite (Nat.min_l ts) by lia.
      destruct (Nat.min_spec (ts + vs) (length l)) as [[_ ->]|[Hle ->]].
      * f_equal. lia.
      * rewrite !take_ge; [done|rewrite length_drop; lia..].
  - destruct (Nat.min_spec (ts + vs) (length l)) as [[_ ->]|[Hle ->]].
    + apply take_ge. rewrite length_drop. lia.
    + rewrite Nat.sub_diag, take_0. by rewrite drop_ge by lia.
Qed.

Lemma take_take_drop_drop {A} (ts vs : nat) (l : list A) :
  take ts l ++ take vs (drop ts l) ++ drop (ts + vs) l = l.
Proof. by rewrite <-drop_drop, take_drop, take_drop. Qed.

Lemma assoc_fmap_value {A B} (f : A → B) (c : string) (l : list (string * A)) :
  assoc c (prod_map id f <$> l) = f <$> assoc c l.
Proof.
  induction l as [|[c' v] l IH]; [done|].
  rewrite fmap_cons. cbn [prod_map assoc fst snd id].
  by destruct (decide (c = c')).
Qed.



(** What [split_frame] returns for fractions that are not negative: the
    first rows, the rows after them, and the rest. *)
Lemma split_frame_ok (a b : Q) (cry : DataFrame) :
  (0 <= a)%Q → (0 <= b)%Q →
  ∃ ts vs : nat,
    py_int (fmul (of_nat (len cry)) (Fin a)) = Ok (Z.of_nat ts)
    ∧ py_int (fmul (of_nat (len cry)) (Fin b)) = Ok (Z.of_nat vs)
    ∧ split_frame (Fin a) (Fin b) cry
      = Ok (slice_rows None (Some (Z.of_nat ts)) cry,
            slice_rows (Some (Z.of_nat ts)) (Some (Z.of_nat ts + Z.of_nat vs)%Z) cry,
            slice_rows (Some (Z.of_nat ts + Z.of_nat vs)%Z) None cry).
Proof.
  intros Ha Hb.
  destruct (py_int_nonneg (len cry) a Ha) as [ts Hts].
  destruct (py_int_nonneg (len cry) b Hb) as [vs Hvs].
  exists ts, vs. unfold split_frame. by rewrite Hts, Hvs.
Qed.


Lemma window_before (T V : list Z) (i : nat) (t : Z) :
  StronglySorted Z.lt (T ++ V) → V !! i = Some t →
  Forall (λ t', (t' < t)%Z) (drop i (T ++ take i V)).
Proof.
  intros Hsorted Ht. apply Forall_drop, Forall_forall. intros t' Hin.
  rewrite <-(take_drop_middle _ _ _ Ht), app_assoc in Hsorted.
  eapply StronglySorted_app_1_elem_of; [exact Hsorted | exact Hin | left].
Qed.

Section SplitEngine.
Context {M : Type} `{!Estimator M} `{!StdDev}.

(** X2.  The parts that [split_datasets] cuts out of a frame whose
    timestamps increase are in chronological order: every Train row is
    before every Validate row, and every Validate row before every Test
    row.  A rolling run over these parts therefore never looks ahead: the
    window that pass [i] fits the model on holds only rows that are before
    Validate row [i]. *)
Theorem split_then_rolling_no_look_ahead (cry train validate test : DataFrame)
    (a b : Q) (model : M) (target : string)
    (features_to_use features_to_scale : list string)
    (perform_feature_selection : bool) (i : nat) (t : Z) (st : Rolling) :
  StronglySorted Z.lt (index cry) →
  (0 <= a)%Q → (0 <= b)%Q →
  split_frame (Fin a) (Fin b) cry = Ok (train, validate, test) →
  index validate !! i = Some t →
  rolling_state train validate test model target features_to_use
    features_to_scale perform_feature_selection i = Ok st →
  (∀ t1 t2, t1 ∈ index train → t2 ∈ index validate → (t1 < t2)%Z)
  ∧ (∀ t2 t3, t2 ∈ index validate → t3 ∈ index test → (t2 < t3)%Z)
  ∧ Forall (λ t', (t' < t)%Z) (index (X_train_scaled_featured_rolled st))
  ∧ Forall (λ t', (t' < t)%Z) (index (y_train_rolled st)).
Proof.
  intros Hsorted Ha Hb Hsplit Ht Hrun.
  destruct (split_frame_ok a b cry Ha Hb) as (ts & vs & _ & _ & Hparts).
  rewrite Hparts in Hsplit. injection Hsplit as <- <- <-.
  cbn [slice_rows index] in *.
  destruct (py_slice_three ts vs (index cry)) as (E1 & E2 & E3).
  rewrite E1, E2, E3 in *.
  rewrite <-(take_take_drop_drop ts vs (index cry)) in Hsorted.
  split; [|split].
  - intros t1 t2 H1 H2. rewrite app_assoc in Hsorted.
    apply StronglySorted_app_1_l in Hsorted.
    by eapply StronglySorted_app_1_elem_of.
  - intros t2 t3 H2 H3. apply StronglySorted_app_1_r in Hsorted.
    by eapply StronglySorted_app_1_elem_of.
  - apply rolling_state_window in Hrun as (_ & _ & -> & ->).
    cbn [slice_rows index]. rewrite E1, E2.
    rewrite app_assoc in Hsorted. apply StronglySorted_app_1_l in Hsorted.
    split; by apply window_before.
Qed.

End SplitEngine.

(** ** When scale_datasets returns *)

Lemma assoc_Some_labels {A} (c : string) (l : list (string * A)) :
  is_Some (assoc c l) ↔ c ∈ l.*1.
Proof.
  induction l as [|[c' v] l IH]; simpl.
  - split; [by intros [? ?] | by intros ?%elem_of_nil].
  - destruct (decide (c = c')) as [->|Hne].
    + split; [intros _; left | by eexists].
    + rewrite IH. split; [by right | by intros [?|?]%elem_of_cons].
Qed.

Lemma col_is_ok (c : string) (df : DataFrame) :
  c ∈ labels df ↔ col c df = Ok (cells c df).
Proof.
  unfold labels, col, cells. rewrite <-assoc_Some_labels.
  destruct (assoc c (columns df)); simpl; split; try done; by intros [? ?].
Qed.

Lemma col_ok_labels (c : string) (df : DataFrame) (v : list float) :
  col c df = Ok v → c ∈ labels df.
Proof.
  intros Hc. apply col_is_ok. by rewrite (col_cells _ _ _ Hc) in *.
Qed.

Lemma select_complete (cs : list string) (df : DataFrame) :
  cs ⊆ labels df →
  select cs df = Ok (mkDF (index df) ((λ c, (c, cells c df)) <$> cs)).
Proof.
  intros Hsub. unfold select.
  rewrite (mapM_fmap_ok _ (λ c, (c, cells c df))); [done|].
  intros c Hc. apply Hsub, col_is_ok in Hc. by rewrite Hc.
Qed.

Lemma select_labels (cs : list string) (df X : DataFrame) :
  select cs df = Ok X → cs ⊆ labels df ∧ labels X = cs.
Proof.
  intros (_ & HX & Hok)%select_ok. split.
  - intros c Hc. eapply col_ok_labels. by apply Hok.
  - unfold labels. rewrite HX, <-list_fmap_compose. apply list_fmap_id.
Qed.

Lemma drop_columns_complete (cs : list string) (df : DataFrame) :
  cs ⊆ labels df →
  drop_columns cs df
  = Ok (mkDF (index df)
          (filter (λ cv : string * list float, cv.1 ∉ cs) (columns df))).
Proof.
  intros Hsub. unfold drop_columns.
  rewrite (mapM_fmap_ok _ (λ c, cells c df)); [done|].
  intros c Hc. by apply col_is_ok, Hsub.
Qed.

Lemma drop_columns_labels (cs : list string) (df K : DataFrame) :
  drop_columns cs df = Ok K → cs ⊆ labels df.
Proof.
  unfold drop_columns. intros Hrun. ok_inv.
  match goal with Hd : mapM _ _ = Ok _ |- _ =>
    apply mapM_ok_Forall2 in Hd; rename Hd into HF end.
  intros c [i Hi]%list_elem_of_lookup.
  destruct (Forall2_lookup_l _ _ _ _ _ HF Hi) as (v & _ & Hv).
  by eapply col_ok_labels.
Qed.

Lemma check_array_iff (X : DataFrame) :
  check_array X = Ok ()
  ↔ len X ≠ 0 ∧ columns X ≠ []
    ∧ ∀ cv x, cv ∈ columns X → x ∈ cv.2 → isinf x = false.
Proof.
  unfold check_array.
  destruct (decide (len X = 0)); [by split; [|intros (? & _)]|].
  destruct (decide (columns X = [])); [by split; [|intros (_ & ? & _)]|].
  destruct (existsb _ _) eqn:Hex.
  - split; [done|]. intros (_ & _ & Hfin).
    apply existsb_exists in Hex as (cv & Hcv & Hex).
    apply existsb_exists in Hex as (x & Hx & Hinf).
    rewrite (Hfin cv x) in Hinf; [done|by apply list_elem_of_In..].
  - split; [|done]. intros _. split; [done|]. split; [done|].
    intros cv x Hcv Hx. destruct (isinf x) eqn:Hinf; [|done].
    assert (existsb (λ cv : string * list float, existsb isinf cv.2) (columns X)
            = true) as Hex'; [|congruence].
    apply existsb_exists. exists cv. split; [by apply list_elem_of_In|].
    apply existsb_exists. exists x. split; [by apply list_elem_of_In | done].
Qed.

Lemma check_array_unit (X : DataFrame) (u : ()) :
  check_array X = Ok u ↔ check_array X = Ok ().
Proof. by destruct u. Qed.

Section ScaleReturns.
Context `{!StdDev}.

Lemma length_scaled (means scales : list float) (cols : list (list float)) :
  length means = length cols → length scales = length cols →
  length (zip_with (λ (ms : float * float) v, scale_column ms.1 ms.2 v)
            (zip means scales) cols) = length cols.
Proof. intros H1 H2. rewrite length_zip_with, length_zip. lia. Qed.

Lemma labels_filter_notin (cs : list string) (cols : list (string * list float)) :
  (filter (λ cv : string * list float, cv.1 ∉ cs) cols).*1
  = filter (λ c, c ∉ cs) cols.*1.
Proof.
  induction cols as [|[c v] cols IH]; [done|].
  rewrite fmap_cons, !filter_cons. simpl.
  destruct (decide (c ∉ cs)); csimpl; [f_equal|]; exact IH.
Qed.

(** The frame that [scaled_concat] builds, and when it builds one. *)
Lemma scaled_concat_spec op (cs : list string) (X : DataFrame)
    (s : option StandardScaler) (sc : StandardScaler) :
  (∀ Xs, columns Xs = (λ c, (c, cells c X)) <$> cs →
     op Xs s = (_ ← check_array Xs; scaler_transform Xs (Some sc))) →
  length (mean_ sc) = length cs → length (scale_ sc) = length cs →
  (∀ r, scaled_concat op cs X s = Ok r →
     (cs ⊆ labels X ∧ cs ≠ [] ∧ len X ≠ 0 ∧ no_inf cs X)
     ∧ r.2 = Some sc ∧ index r.1 = index X
     ∧ labels r.1 = filter (λ c, c ∉ cs) (labels X) ++ cs)
  ∧ ((cs ⊆ labels X ∧ cs ≠ [] ∧ len X ≠ 0 ∧ no_inf cs X) →
     ∃ Xsc, scaled_concat op cs X s = Ok (Xsc, Some sc)).
Proof.
  intros Hop Hm Hs. unfold scaled_concat. split.
  - intros r Hrun. ok_inv.
    match goal with Hd : drop_columns _ _ = Ok _ |- _ =>
      pose proof (drop_columns_labels _ _ _ Hd) as Hsub;
      apply drop_columns_ok in Hd as (Hik & Hck) end.
    match goal with Hd : select cs X = Ok ?k |- _ =>
      apply select_ok in Hd as (Hi & Hc & _); rename k into Xs end.
    match goal with Hd : op _ _ = Ok _ |- _ =>
      rewrite (Hop _ Hc) in Hd; apply bind_ok_inv in Hd as (u & Hd & Ht);
      apply check_array_unit, check_array_iff in Hd as (Hlen & Hne & Hfin);
      apply scaler_transform_ok in Ht as (-> & sc' & [= <-] & ->) end.
    match goal with Hd : frame_of_array _ _ _ = Ok _ |- _ =>
      unfold frame_of_array in Hd; rename Hd into Hfr end.
    ok_inv. simpl.
    split; [|split; [done|split; [done|]]].
    + split; [done|]. split; [|split].
      * intros ->. by rewrite Hc in Hne.
      * unfold len in *. congruence.
      * intros c x Hin Hx. apply (Hfin (c, cells c X)); [|done].
        rewrite Hc. apply list_elem_of_fmap. by exists c.
    + unfold labels, concat_columns. simpl.
      rewrite fmap_app, Hck, labels_filter_notin. f_equal.
      apply fst_zip. lia.
  - intros (Hsub & Hne & Hlen & Hfin).
    rewrite (drop_columns_complete _ _ Hsub). cbn [mbind result_bind].
    rewrite (select_complete _ _ Hsub). cbn [mbind result_bind].
    rewrite (Hop (mkDF (index X) ((λ c, (c, cells c X)) <$> cs)) eq_refl).
    assert (check_array (mkDF (index X) ((λ c, (c, cells c X)) <$> cs)) = Ok ())
      as Hcheck.
    { apply check_array_iff. split; [done|]. split.
      - simpl. by destruct cs.
      - simpl. intros cv x (c & -> & Hc)%list_elem_of_fmap Hx. by eapply Hfin. }
    rewrite Hcheck. cbn [mbind result_bind].
    unfold scaler_transform. rewrite Hcheck. cbn [mbind result_bind].
    simpl. rewrite length_fmap, decide_True by done.
    cbn [mbind result_bind]. unfold frame_of_array.
    rewrite decide_True; [by eexists|].
    rewrite length_scaled; rewrite !length_fmap; done.
Qed.

Lemma transform_twice (Xs : DataFrame) (sc : StandardScaler) :
  scaler_transform Xs (Some sc)
  = (_ ← check_array Xs; scaler_transform Xs (Some sc)).
Proof. unfold scaler_transform. by destruct (check_array Xs) as [[]|e]. Qed.

Lemma fit_transform_unfold (X Xs : DataFrame) (cs : list string) :
  columns Xs = (λ c, (c, cells c X)) <$> cs →
  scaler_fit_transform Xs None
  = (_ ← check_array Xs;
     scaler_transform Xs
       (Some (mkScaler ((λ c, nanmean (cells c X)) <$> cs)
                ((λ c, std (cells c X)) <$> cs)))).
Proof.
  intros Hc. unfold scaler_fit_transform, scaler_fit.
  destruct (check_array Xs) as [[]|e]; [|done]. cbn [mbind result_bind mret result_ret].
  by rewrite Hc, <-!list_fmap_compose.
Qed.

Lemma select_use_spec (cs : list string) (F : DataFrame) :
  (∀ X, select cs F = Ok X →
     cs ⊆ labels F ∧ index X = index F ∧ labels X = cs
     ∧ ∀ c, c ∈ cs → cells c X = cells c F)
  ∧ (cs ⊆ labels F → ∃ X, select cs F = Ok X).
Proof.
  split.
  - intros X HX. destruct (select_labels _ _ _ HX) as (Hsub & Hl).
    pose proof (select_ok _ _ _ HX) as (Hi & _ & _).
    repeat split; try done. intros c Hc. by eapply cells_select.
  - intros Hsub. rewrite (select_complete _ _ Hsub). by eexists.
Qed.

Lemma no_inf_select (cs cs' : list string) (F X : DataFrame) :
  select cs F = Ok X → cs' ⊆ cs → no_inf cs' X ↔ no_inf cs' F.
Proof.
  intros HX Hsub. unfold no_inf.
  split; intros Hfin c x Hc Hx; apply (Hfin c x Hc).
  - by rewrite (cells_select _ _ _ _ HX (Hsub _ Hc)).
  - by rewrite <-(cells_select _ _ _ _ HX (Hsub _ Hc)).
Qed.

Lemma select_target_spec (target : string) (F y : DataFrame) :
  select [target] F = Ok y →
  target ∈ labels F ∧ index y = index F ∧ columns y = [(target, cells target F)].
Proof.
  intros Hy. destruct (select_labels _ _ _ Hy) as (Hsub & _).
  destruct (select_ok _ _ _ Hy) as (Hi & Hc & _).
  split; [apply Hsub; left | done].
Qed.

(** The run of [scale_datasets] step by step. *)
Lemma scale_datasets_run_spec (train validate test : DataFrame) (target : string)
    (features_to_use features_to_scale : list string)
    (out : Scaled) (s : option StandardScaler) :
  scale_datasets_run train validate test target features_to_use features_to_scale
    = Ok (out, s) →
  (scalable target features_to_use features_to_scale train
   ∧ scalable target features_to_use features_to_scale validate
   ∧ scalable target features_to_use features_to_scale test
   ∧ features_to_scale ⊆ features_to_use
   ∧ features_to_scale ≠ [])
  ∧ (index (X_train_scaled out) = index train
     ∧ index (X_validate_scaled out) = index validate
     ∧ index (X_test_scaled out) = index test)
  ∧ (let order :=
       filter (λ c, c ∉ features_to_scale) features_to_use ++ features_to_scale in
     labels (X_train_scaled out) = order
     ∧ labels (X_validate_scaled out) = order
     ∧ labels (X_test_scaled out) = order)
  ∧ (y_train out = mkDF (index train) [(target, cells target train)]
     ∧ y_validate out = mkDF (index validate) [(target, cells target validate)]
     ∧ y_test out = mkDF (index test) [(target, cells target test)]).
Proof.
  unfold scale_datasets_run. intros Hrun. ok_inv. simpl.
  match goal with Hd : select features_to_use train = Ok ?X |- _ =>
    rename Hd into Htr; rename X into Xtr end.
  match goal with Hd : select features_to_use validate = Ok ?X |- _ =>
    rename Hd into Hva; rename X into Xva end.
  match goal with Hd : select features_to_use test = Ok ?X |- _ =>
    rename Hd into Hte; rename X into Xte end.
  match goal with Hd : select [target] train = Ok ?X |- _ =>
    apply select_target_spec in Hd as (T1 & J1 & K1); rename X into ytr end.
  match goal with Hd : select [target] validate = Ok ?X |- _ =>
    apply select_target_spec in Hd as (T2 & J2 & K2); rename X into yva end.
  match goal with Hd : select [target] test = Ok ?X |- _ =>
    apply select_target_spec in Hd as (T3 & J3 & K3); rename X into yte end.
  match goal with Hd : scaled_concat scaler_fit_transform _ _ _ = Ok _ |- _ =>
    rename Hd into Hf end.
  match goal with Hd : scaled_concat scaler_transform _ Xva _ = Ok _ |- _ =>
    rename Hd into Hv end.
  match goal with Hd : scaled_concat scaler_transform _ Xte _ = Ok _ |- _ =>
    rename Hd into Ht end.
  destruct (proj1 (select_use_spec _ _) _ Htr) as (U1 & I1 & L1 & _).
  destruct (proj1 (select_use_spec _ _) _ Hva) as (U2 & I2 & L2 & _).
  destruct (proj1 (select_use_spec _ _) _ Hte) as (U3 & I3 & L3 & _).
  set (fitted := mkScaler ((λ c, nanmean (cells c Xtr)) <$> features_to_scale)
                   ((λ c, std (cells c Xtr)) <$> features_to_scale)).
  assert (length (mean_ fitted) = length features_to_scale) as Lm
    by apply length_fmap.
  assert (length (scale_ fitted) = length features_to_scale) as Ls
    by apply length_fmap.
  destruct (proj1 (scaled_concat_spec scaler_fit_transform features_to_scale
                     Xtr None fitted
                     (λ Xs, fit_transform_unfold Xtr Xs features_to_scale)
                     Lm Ls) _ Hf)
    as ((S1 & Hne & N1 & F1) & Hs1 & E1 & O1).
  simpl in Hs1. rewrite Hs1 in Hv.
  destruct (proj1 (scaled_concat_spec scaler_transform features_to_scale
                     Xva (Some fitted) fitted
                     (λ Xs _, transform_twice Xs fitted) Lm Ls) _ Hv)
    as ((S2 & _ & N2 & F2) & Hs2 & E2 & O2).
  simpl in Hs2. rewrite Hs2 in Ht.
  destruct (proj1 (scaled_concat_spec scaler_transform features_to_scale
                     Xte (Some fitted) fitted
                     (λ Xs _, transform_twice Xs fitted) Lm Ls) _ Ht)
    as ((S3 & _ & N3 & F3) & Hs3 & E3 & O3).
  rewrite L1 in S1.
  apply (no_inf_select _ _ _ _ Htr S1) in F1.
  apply (no_inf_select _ _ _ _ Hva S1) in F2.
  apply (no_inf_select _ _ _ _ Hte S1) in F3.
  simpl in *. unfold scalable, len in *.
  rewrite I1 in N1. rewrite I2 in N2. rewrite I3 in N3.
  rewrite L1 in O1. rewrite L2 in O2. rewrite L3 in O3.
  split; [done|]. split; [split; [|split]; congruence|]. split; [done|].
  split; [|split].
  - destruct ytr as [i1 c1]. simpl in *. by subst.
  - destruct yva as [i2 c2]. simpl in *. by subst.
  - destruct yte as [i3 c3]. simpl in *. by subst.
Qed.


(** X4.  The frames that [scale_datasets] returns keep the row labels of
    their inputs.  The columns of the three feature frames are reordered:
    first the used features that are not scaled, in the order of
    [features_to_use], then the scaled features, in the order of
    [features_to_scale].  The three target frames hold the target column
    alone, as it is in the input. *)
Theorem scale_datasets_layout (train validate test : DataFrame) (target : string)
    (features_to_use features_to_scale : list string) (sc : Scaled) :
  scale_datasets train validate test target features_to_use features_to_scale
    = Ok sc →
  let order :=
    filter (λ c, c ∉ features_to_scale) features_to_use ++ features_to_scale in
  (index (X_train_scaled sc) = index train
   ∧ index (X_validate_scaled sc) = index validate
   ∧ index (X_test_scaled sc) = index test)
  ∧ (labels (X_train_scaled sc) = order
     ∧ labels (X_validate_scaled sc) = order
     ∧ labels (X_test_scaled sc) = order)
  ∧ (y_train sc = mkDF (index train) [(target, cells target train)]
     ∧ y_validate sc = mkDF (index validate) [(target, cells target validate)]
     ∧ y_test sc = mkDF (index test) [(target, cells target test)]).
Proof.
  unfold scale_datasets. intros Hrun.
  apply fmap_ok_inv in Hrun as ([out s] & Hrun & ->).
  by apply scale_datasets_run_spec in Hrun as (_ & ? & ? & ?).
Qed.

End ScaleReturns.

(** ** The walk-forward evaluation of one ARIMA order *)

Section ArimaWalk.
Context `{!Arima}.

(** The state of the forecasting loop after [n] steps. *)
Lemma evaluate_arima_loop (test_target history : list float)
    (arima_order : nat * nat * nat) (n : nat) (predictions hist : list float) :
  for_each (λ (st : list float * list float) t,
              let '(predictions, history) := st in
              yhat ← arima_forecast history arima_order;
              x ← of_option IndexError (test_target !! t);
              mret (predictions ++ [yhat], history ++ [x]))
    (seq 0 n) ([], history) = Ok (predictions, hist) →
  hist = history ++ take n test_target
  ∧ length predictions = n
  ∧ ∀ t, t < n →
      ∃ yhat, arima_forecast (history ++ take t test_target) arima_order = Ok yhat
              ∧ predictions !! t = Some yhat.
Proof.
  revert predictions hist. induction n as [|n IH]; intros predictions hist Hrun.
  - injection Hrun as <- <-. rewrite take_0, app_nil_r.
    split; [done|]. split; [done|]. intros t Ht. lia.
  - rewrite seq_S, for_each_app in Hrun.
    apply bind_ok_inv in Hrun as ([preds h] & Hn & Hstep).
    destruct (IH _ _ Hn) as (-> & Hlen & Hpreds).
    cbn [for_each] in Hstep.
    apply bind_ok_inv in Hstep as (st' & Hs & [= ->]).
    apply bind_ok_inv in Hs as (yhat & Hy & Hs).
    apply bind_ok_inv in Hs as (x & Hx%of_option_ok_inv & [= <- <-]).
    simpl in Hx. split; [|split].
    + by rewrite (take_S_r _ _ _ Hx), app_assoc.
    + rewrite length_app. simpl. lia.
    + intros t Ht. destruct (decide (t = n)) as [->|Hne].
      * exists yhat. split; [done|].
        rewrite lookup_app_r by lia. by rewrite Hlen, Nat.sub_diag.
      * destruct (Hpreds t) as (y & Hf & Hp); [lia|].
        exists y. split; [done|]. by apply lookup_app_l_Some.
Qed.

Lemma mean_squared_error_ok (y_true y_pred : list float) (e : float) :
  mean_squared_error y_true y_pred = Ok e →
  length y_true = length y_pred ∧ y_true ≠ [].
Proof.
  unfold mean_squared_error. intros Hrun.
  repeat case_decide; done.
Qed.

(** X5.  [evaluate_arima_model] walks forward over the test set with an
    expanding history: the forecast for test step [t] is made by a model
    fitted on the train targets followed by the first [t] true test values,
    so that nothing of step [t] or later is seen and nothing older is
    dropped.  It returns one forecast per test row with the test targets
    and their mean squared error, and it returns only for a test set that
    has rows. *)
Theorem evaluate_arima_model_walk_forward (train test : DataFrame) (target : string)
    (arima_order : nat * nat * nat) (error : float)
    (actual predictions : list float) :
  evaluate_arima_model train test target arima_order
    = Ok (error, actual, predictions) →
  col target test = Ok actual
  ∧ actual ≠ []
  ∧ length predictions = length actual
  ∧ (∃ history,
       col target train = Ok history
       ∧ ∀ t, t < length actual →
           ∃ yhat,
             arima_forecast (history ++ take t actual) arima_order = Ok yhat
             ∧ predictions !! t = Some yhat)
  ∧ mean_squared_error actual predictions = Ok error.
Proof.
  unfold evaluate_arima_model. intros Hrun.
  apply bind_ok_inv in Hrun as (history & Htrain & Hrun).
  apply bind_ok_inv in Hrun as (test_target & Htest & Hrun).
  apply bind_ok_inv in Hrun as ([preds hist] & Hloop & Hrun).
  apply bind_ok_inv in Hrun as (e & Hmse & [= -> -> ->]).
  destruct (evaluate_arima_loop _ _ _ _ _ _ Hloop) as (_ & Hlen & Hpreds).
  destruct (mean_squared_error_ok _ _ _ Hmse) as (_ & Hne).
  split; [done|]. split; [done|]. split; [done|]. split; [|done].
  by exists history.
Qed.

(** ** The table of a grid search in which every order works *)

Lemma evaluate_orders_all_ok (train test : DataFrame) (target : string)
    (os : list (nat * nat * nat)) (st : Sweep) :
  (∀ o, o ∈ os → is_ok (evaluate_arima_model train test target o) = true) →
  ∃ rs : list (float * list float * list float),
    Forall2 (λ o r, evaluate_arima_model train test target o = Ok r) os rs
    ∧ for_each (evaluate_order train test target) os st
      = Ok (mkSweep (mses st ++ rs.*1.*1) (prediction_list st ++ rs.*2)
              (actual_test st ++ rs.*1.*2) (orders st ++ os) (reported st)).
Proof.
  revert st. induction os as [|o os IH]; intros st Hok.
  - exists []. split; [constructor|]. simpl. rewrite !app_nil_r. by destruct st.
  - assert (is_ok (evaluate_arima_model train test target o) = true) as Ho
      by (apply Hok; left).
    destruct (evaluate_arima_model train test target o) as [[[e a] p]|err] eqn:Heq;
      [|done].
    destruct (IH (mkSweep (mses st ++ [e]) (prediction_list st ++ [p])
                    (actual_test st ++ [a]) (orders st ++ [o]) (reported st)))
      as (rs & HF & Hrun); [intros o' Ho'; apply Hok; by right|].
    exists ((e, a, p) :: rs). split; [by constructor|].
    cbn [for_each].
    assert (evaluate_order train test target st o
            = Ok (mkSweep (mses st ++ [e]) (prediction_list st ++ [p])
                    (actual_test st ++ [a]) (orders st ++ [o]) (reported st)))
      as -> by (unfold evaluate_order; by rewrite Heq).
    cbn [mbind result_bind]. rewrite Hrun. simpl. by rewrite <-!app_assoc.
Qed.

Lemma results_rows (os : list (nat * nat * nat))
    (rs : list (float * list float * list float)) :
  zip_with (λ (om : nat * nat * nat * float) (pa : list float * list float),
              mkArimaResult om.1 om.2 pa.1 pa.2)
    (zip os rs.*1.*1) (zip rs.*2 rs.*1.*2)
  = zip_with (λ o r, mkArimaResult o r.1.1 r.2 r.1.2) os rs.
Proof.
  revert os. induction rs as [|r rs IH]; intros [|o os]; simpl; try done.
  by rewrite IH.
Qed.

(** X6.  When every order of the grid can be evaluated, [evaluate_models]
    returns a table with one row per order, in the order the three nested
    loops visit the grid (p outermost, q innermost); each row holds the
    error, the forecasts and the test targets of its own order.  In
    particular an empty list of values gives an empty table. *)
Theorem evaluate_models_table (train test : DataFrame) (target : string)
    (p_values d_values q_values : list nat) :
  (∀ o, o ∈ grid p_values d_values q_values →
        is_ok (evaluate_arima_model train test target o) = true) →
  ∃ rows,
    evaluate_models train test target p_values d_values q_values = Ok rows
    ∧ order_pdq <$> rows = grid p_values d_values q_values
    ∧ ∀ i r, rows !! i = Some r →
        evaluate_arima_model train test target (order_pdq r)
        = Ok (mse r, test_actual r, test_predictions r).
Proof.
  intros Hok. unfold evaluate_models. rewrite sweep_grid.
  destruct (evaluate_orders_all_ok train test target _ (mkSweep [] [] [] [] []) Hok)
    as (rs & HF & ->).
  cbn [mbind result_bind]. unfold results_frame. simpl.
  pose proof (Forall2_length _ _ _ HF) as Hlen.
  rewrite !length_fmap, !decide_True by done.
  eexists. split; [done|]. rewrite results_rows. split.
  - clear Hok HF. revert rs Hlen.
    induction (grid p_values d_values q_values) as [|o os IH];
      intros [|r rs] Hlen; simpl in *; try done.
    f_equal. apply IH. lia.
  - intros i r Hi. apply lookup_zip_with_Some in Hi as (o & r' & -> & Ho & Hr).
    pose proof (Forall2_lookup_lr _ _ _ _ _ _ HF Ho Hr) as Hor.
    simpl. rewrite Hor. by destruct r' as [[e a] p].
Qed.

End ArimaWalk.

(** ** One pass of a rolling run *)

Section PassRecords.
Context {M : Type} `{!Estimator M} `{!StdDev}.

Lemma rolling_validate_records_grow (target : string) (Xv yv : DataFrame)
    (rows : list nat) (st st' : Rolling) :
  for_each (rolling_step target Xv yv) rows st = Ok st' →
  validate_rolling_predictions st `prefix_of` validate_rolling_predictions st'
  ∧ validate_rolling_actuals st `prefix_of` validate_rolling_actuals st'.
Proof.
  revert st. induction rows as [|r rows IH]; intros st Hrun; simpl in Hrun.
  - by injection Hrun as <-.
  - apply bind_ok_inv in Hrun as (st1 & Hstep & Hrun).
    apply IH in Hrun as (P1 & P2).
    apply rolling_step_records in Hstep
      as (? & tp & ta & ? & ? & ? & ? & _ & _ & _ & _ & _ & _ & _ & _
          & _ & _ & E1 & E2).
    rewrite E1 in P1. rewrite E2 in P2. split.
    + etrans; [|exact P1]. by apply prefix_app_r.
    + etrans; [|exact P2]. by apply prefix_app_r.
Qed.

(** A complete run cut at pass [i]: the passes before, pass [i], and the
    passes after. *)
Lemma get_rolling_predictions_cut (train validate test : DataFrame) (model : M)
    (target : string) (features_to_use features_to_scale : list string)
    (perform_feature_selection : bool) (run : Rolling) (i : nat) :
  get_rolling_predictions train validate test model target features_to_use
    features_to_scale perform_feature_selection = Ok run →
  i < len validate →
  ∃ st0 Xv yv st st1,
    rolling_init train validate test model target features_to_use
      features_to_scale perform_feature_selection = Ok (st0, Xv, yv)
    ∧ for_each (rolling_step target Xv yv) (seq 0 i) st0 = Ok st
    ∧ rolling_step target Xv yv st i = Ok st1
    ∧ for_each (rolling_step target Xv yv) (seq (S i) (len validate - S i)) st1
      = Ok run.
Proof.
  unfold get_rolling_predictions. intros Hrun Hi.
  apply bind_ok_inv in Hrun as ([[st0 Xv] yv] & Hinit & Hrun).
  pose proof (rolling_init_index _ _ _ _ _ _ _ _ _ _ _ Hinit)
    as (_ & _ & _ & HXv & _).
  replace (len Xv) with (i + (1 + (len validate - S i))) in Hrun
    by (unfold len in *; rewrite HXv; lia).
  rewrite seq_app, for_each_app in Hrun.
  apply bind_ok_inv in Hrun as (st & Hst & Hrun).
  rewrite seq_app, for_each_app in Hrun.
  apply bind_ok_inv in Hrun as (st1 & Hstep & Hrun).
  simpl in Hstep. apply bind_ok_inv in Hstep as (st1' & Hstep & [= ->]).
  replace (0 + i + 1) with (S i) in Hrun by lia.
  exists st0, Xv, yv, st, st1. done.
Qed.

(** X7.  Record [i] of a complete rolling run comes from pass [i] alone.
    The estimator is fitted on the window of that pass; the in-sample
    record is the targets of the window with the predictions of this fit on
    the window; the out-of-sample record is what the same fit predicts for
    the (scaled) features of Validate row [i], given as a frame of that one
    row, with the target of that Validate row as the actual. *)
Theorem rolling_pass_record (train validate test : DataFrame) (model : M)
    (target : string) (features_to_use features_to_scale : list string)
    (perform_feature_selection : bool) (run : Rolling) (i : nat) :
  get_rolling_predictions train validate test model target features_to_use
    features_to_scale perform_feature_selection = Ok run →
  i < len validate →
  ∃ st0 Xv yv st m a p x_row v y,
    rolling_init train validate test model target features_to_use
      features_to_scale perform_feature_selection = Ok (st0, Xv, yv)
    ∧ rolling_state train validate test model target features_to_use
        features_to_scale perform_feature_selection i = Ok st
    ∧ col target (y_train_rolled st) = Ok a
    ∧ fit (fitted_model st) (X_train_scaled_featured_rolled st) a = Ok m
    ∧ predict m (X_train_scaled_featured_rolled st) = Ok p
    ∧ train_rolling_actuals run !! i = Some a
    ∧ train_rolling_predictions run !! i = Some p
    ∧ iloc i Xv = Ok x_row
    ∧ index validate !! i = Some x_row.1
    ∧ predict m (frame_of_row x_row) = Ok v
    ∧ validate_rolling_predictions run !! i = Some v
    ∧ cells target validate !! i = Some y
    ∧ validate_rolling_actuals run !! i = Some y.
Proof.
  intros Hrun Hi.
  destruct (get_rolling_predictions_cut _ _ _ _ _ _ _ _ _ i Hrun Hi)
    as (st0 & Xv & yv & st & st1 & Hinit & Hst & Hstep & Hrest).
  pose proof (rolling_init_index _ _ _ _ _ _ _ _ _ _ _ Hinit)
    as (_ & _ & _ & HXv & Hyv & _ & Hcv & _ & _ & E1 & E2 & E3 & E4).
  pose proof (rolling_accumulators _ _ _ _ _ _ _ E1 E2 E3 E4 Hcv Hst)
    as (L1 & L2 & L3 & L4 & _).
  destruct (rolling_records_grow _ _ _ _ _ _ Hrest) as (P1 & P2).
  destruct (rolling_validate_records_grow _ _ _ _ _ _ Hrest) as (P3 & P4).
  apply rolling_step_records in Hstep
    as (m & tp & ta & x_row & vp & y_row & va & Hta & Hfit & Hpred & Hx & Hvp
        & Hy & Hva & _ & F1 & F2 & F3 & F4).
  exists st0, Xv, yv, st, m, ta, tp, x_row, vp, va.
  split; [done|].
  split; [unfold rolling_state; rewrite Hinit; exact Hst|].
  split; [done|]. split; [done|]. split; [done|].
  split.
  { eapply prefix_lookup_Some; [|exact P2]. rewrite F2.
    rewrite lookup_app_r by lia. by replace (i - _) with 0 by lia. }
  split.
  { eapply prefix_lookup_Some; [|exact P1]. rewrite F1.
    rewrite lookup_app_r by lia. by replace (i - _) with 0 by lia. }
  split; [done|].
  split; [rewrite <-HXv; by apply iloc_ok|].
  split; [done|].
  split.
  { eapply prefix_lookup_Some; [|exact P3]. rewrite F3.
    rewrite lookup_app_r by lia. by replace (i - _) with 0 by lia. }
  assert (cells target validate !! i = Some va) as Hcell.
  { destruct yv as [idx cols]. simpl in Hcv. subst cols.
    by eapply iloc_single_column. }
  split; [done|].
  eapply prefix_lookup_Some; [|exact P4]. rewrite F4.
  rewrite lookup_app_r by (rewrite L4, length_take; apply lookup_lt_Some in Hcell; lia).
  rewrite L4, length_take.
  apply lookup_lt_Some in Hcell.
  by replace (i - _) with 0 by lia.
Qed.

(** A pass that raises ends the loop with its exception. *)
Lemma for_each_raise {S A} (body : S → A → result S) (xs ys : list A) (x : A)
    (st st' : S) (e : exn) :
  for_each body xs st = Ok st' → body st' x = Raise e →
  for_each body (xs ++ x :: ys) st = Raise e.
Proof.
  intros Hxs Hx. rewrite for_each_app, Hxs. cbn [mbind result_bind for_each].
  by rewrite Hx.
Qed.

(** X8.  A rolling run has no recovery: when the fit of pass [i] raises,
    or one of the two predictions that follow it, the run raises that very
    exception, and none of the records of the passes already made is
    returned. *)
Theorem rolling_failure_aborts (train validate test : DataFrame) (model : M)
    (target : string) (features_to_use features_to_scale : list string)
    (perform_feature_selection : bool) (i : nat) (st : Rolling)
    (y : list float) (e : exn) :
  rolling_state train validate test model target features_to_use
    features_to_scale perform_feature_selection i = Ok st →
  i < len validate →
  col target (y_train_rolled st) = Ok y →
  (fit (fitted_model st) (X_train_scaled_featured_rolled st) y = Raise e
   ∨ ∃ m, fit (fitted_model st) (X_train_scaled_featured_rolled st) y = Ok m
          ∧ predict m (X_train_scaled_featured_rolled st) = Raise e) →
  get_rolling_predictions train validate test model target features_to_use
    features_to_scale perform_feature_selection = Raise e.
Proof.
  unfold rolling_state, get_rolling_predictions. intros Hst Hi Hy Hfail.
  apply bind_ok_inv in Hst as ([[st0 Xv] yv] & Hinit & Hst).
  rewrite Hinit. cbn [mbind result_bind].
  pose proof (rolling_init_index _ _ _ _ _ _ _ _ _ _ _ Hinit)
    as (_ & _ & _ & HXv & _).
  replace (len Xv) with (i + S (len validate - S i))
    by (unfold len in *; rewrite HXv; lia).
  rewrite seq_app. cbn [seq].
  eapply for_each_raise; [exact Hst|].
  unfold rolling_step. rewrite Hy. cbn [mbind result_bind].
  destruct Hfail as [->|(m & -> & Hp)]; [done|].
  cbn [mbind result_bind]. by rewrite Hp.
Qed.

End PassRecords.

(** ** The last row of a result table *)

Lemma shift_up_last (v : list float) :
  v ≠ [] → shift_up v !! (length v - 1) = Some NaN.
Proof.
  intros Hv. rewrite shift_up_lookup by (destruct v; simpl; [done|lia]).
  rewrite lookup_ge_None_2 by lia. done.
Qed.

Section LastRow.
Context {M : Type} `{!Estimator M} `{!StdDev}.

(** X9.  In the result table of a rolling run the last Validate row never
    has a trade: its next close, its return and its percent return are
    null whatever the prediction, as the next close is looked up inside
    Validate.  The table has one row per Validate row, so a run yields one
    trade less than it makes predictions. *)
Theorem rolling_last_trade_null (train validate test : DataFrame) (model : M)
    (target : string) (features_to_use features_to_scale : list string)
    (perform_feature_selection : bool) (run : Rolling) (validate_res : DataFrame) :
  get_rolling_predictions train validate test model target features_to_use
    features_to_scale perform_feature_selection = Ok run →
  validate_res_of validate (validate_rolling_actuals run)
    (validate_rolling_predictions run) = Ok validate_res →
  length (cells "close" validate) = len validate →
  let last := len validate - 1 in
  index validate_res = index validate
  ∧ length (cells "predictions" validate_res) = len validate
  ∧ length (cells "ret" validate_res) = len validate
  ∧ cells "next_day_close" validate_res !! last = Some NaN
  ∧ cells "ret" validate_res !! last = Some NaN
  ∧ cells "pct_ret" validate_res !! last = Some NaN.
Proof.
  intros Hrun Htab Hwf last.
  pose proof (get_rolling_predictions_nonempty _ _ _ _ _ _ _ _ _ Hrun) as Hne.
  pose proof (get_rolling_predictions_records _ _ _ _ _ _ _ _ _ Hrun)
    as (_ & _ & _ & _ & Hla & _).
  apply validate_res_of_ok in Htab
    as (predictions & closes & _ & Hclose & _ & Hlp & ->);
    [|apply length_nonempty; congruence].
  apply col_cells in Hclose. rewrite Hclose in Hwf.
  destruct (validate_res_cells (index validate) (validate_rolling_actuals run)
              predictions closes) as (_ & E2 & E3 & E4 & E5 & E6 & E7).
  rewrite E2, E4, E6, E7. clear E2 E3 E4 E5 E6 E7.
  assert (∃ g, gt0 predictions !! last = Some g) as [g Hg].
  { apply lookup_lt_is_Some. unfold gt0. rewrite length_fmap. subst last. lia. }
  assert (∃ c, closes !! last = Some c) as [c Hc].
  { apply lookup_lt_is_Some. subst last. lia. }
  destruct (trade_row _ _ _ _ _ Hg Hc) as (Hn & Hr & Hpct).
  rewrite (lookup_ge_None_2 closes (S last)) in Hn, Hr, Hpct by (subst last; lia).
  cbn [default] in Hn, Hr, Hpct.
  split; [done|]. split; [done|].
  split.
  { unfold np_where, col_sub.
    rewrite !length_zip_with, length_shift_up.
    unfold gt0. rewrite length_fmap. lia. }
  split; [done|].
  split; [rewrite Hr; by destruct (truthy g), c|].
  rewrite Hpct. by destruct (truthy g), c.
Qed.

End LastRow.

(** ** Sorting *)

Lemma fltb_asym (x y : float) : fltb x y = true → fltb y x = false.
Proof.
  destruct x as [a| | |], y as [b| | |]; simpl; try done.
  rewrite !negb_true_iff, negb_false_iff.
  intros Hba. apply Qle_bool_iff.
  destruct (Qlt_le_dec a b) as [Hlt|Hle]; [by apply Qlt_le_weak|].
  apply Qle_bool_iff in Hle. congruence.
Qed.

Lemma fltb_cotrans (x y z : float) :
  isna y = false → fltb x z = true → fltb x y = true ∨ fltb y z = true.
Proof.
  destruct x as [a| | |], y as [b| | |], z as [c| | |]; simpl; try done;
    try tauto.
  intros _. rewrite !negb_true_iff. intros Hca.
  destruct (Qlt_le_dec a b) as [Hlt|Hle].
  - left. destruct (Qle_bool b a) eqn:Hba; [|done].
    apply Qle_bool_iff in Hba. exfalso. by eapply Qlt_not_le.
  - right. destruct (Qle_bool c b) eqn:Hcb; [|done].
    apply Qle_bool_iff in Hcb.
    assert (Qle_bool c a = true) as Hc by (apply Qle_bool_iff; by eapply Qle_trans).
    congruence.
Qed.

Lemma sorts_before_asym (x y : float) :
  sorts_before x y = true → sorts_before y x = false.
Proof.
  destruct x as [a| | |], y as [b| | |]; try done;
    unfold sorts_before; apply fltb_asym.
Qed.

Lemma sorts_before_cotrans (x y z : float) :
  sorts_before x z = true →
  sorts_before x y = true ∨ sorts_before y z = true.
Proof.
  intros Hxz.
  destruct (isna y) eqn:Hy.
  { destruct y; try done. left. by destruct x. }
  destruct (isna z) eqn:Hz.
  { destruct z; try done. right. by destruct y. }
  assert (isna x = false) as Hx by (by destruct x).
  assert (∀ u v, isna u = false → isna v = false → sorts_before u v = fltb v u)
    as Heq by (by intros [] []).
  rewrite Heq in * by done. rewrite !Heq by done.
  destruct (fltb_cotrans z y x Hy Hxz); tauto.
Qed.

Section Sorting.
Context {A : Type} (before : A → A → bool).
Hypothesis before_asym : ∀ x y, before x y = true → before y x = false.
Hypothesis before_cotrans :
  ∀ x y z, before x z = true → before x y = true ∨ before y z = true.

Lemma insert_by_sorted (x : A) (l : list A) :
  StronglySorted (λ a b, before b a = false) l →
  StronglySorted (λ a b, before b a = false) (insert_by before x l).
Proof.
  induction 1 as [|y l Hl IH Hy]; simpl; [repeat constructor|].
  destruct (before y x) eqn:Hyx.
  - constructor; [done|]. apply Forall_forall. intros z Hz.
    apply elem_of_insert_by in Hz as [->|Hz]; [by apply before_asym|].
    by eapply Forall_forall in Hy.
  - constructor; [by constructor|]. constructor; [done|].
    apply Forall_forall. intros z Hz.
    eapply Forall_forall in Hy; [|exact Hz].
    destruct (before z x) eqn:Hzx; [|done].
    destruct (before_cotrans z y x Hzx); congruence.
Qed.

Lemma sort_by_sorted (l : list A) :
  StronglySorted (λ a b, before b a = false) (sort_by before l).
Proof.
  unfold sort_by. induction l as [|x l IH]; simpl; [constructor|].
  by apply insert_by_sorted.
Qed.

End Sorting.

Lemma insert_by_perm {A} (before : A → A → bool) (x : A) (l : list A) :
  insert_by before x l ≡ₚ x :: l.
Proof.
  induction l as [|y l IH]; simpl; [done|].
  destruct (before y x); [|done]. rewrite IH. apply Permutation_swap.
Qed.

Lemma sort_by_perm {A} (before : A → A → bool) (l : list A) :
  sort_by before l ≡ₚ l.
Proof.
  unfold sort_by. induction l as [|x l IH]; simpl; [done|].
  by rewrite insert_by_perm, IH.
Qed.

Lemma sort_values_pct_descending (t : list LeaderRow) :
  pct_descending (sort_values_pct t).
Proof.
  apply (sort_by_sorted
           (λ r1 r2, sorts_before (pct_avg_trade r1) (pct_avg_trade r2))).
  - intros x y. apply sorts_before_asym.
  - intros x y z. apply sorts_before_cotrans.
Qed.

(** ** The tables of the conventional split *)

Lemma trade_columns_metrics (metrics_train metrics_validate : gmap string float)
    (y_validate : DataFrame) (names : list string)
    (vr vr' : DataFrame) (ms ms' : list (float * float * float * float)) :
  for_each (trade_columns metrics_train metrics_validate y_validate) names (vr, ms)
    = Ok (vr', ms') →
  ∃ new, ms' = ms ++ new
         ∧ Forall2 (λ name (m : float * float * float * float),
                      metrics_validate !! name = Some m.1.2
                      ∧ metrics_train !! name = Some m.2) names new.
Proof.
  revert vr ms. induction names as [|name names IH]; intros vr ms Hrun.
  - injection Hrun as <- <-. exists []. by rewrite app_nil_r.
  - cbn [for_each] in Hrun.
    apply bind_ok_inv in Hrun as ([vr1 ms1] & Hstep & Hrun).
    apply IH in Hrun as (new & -> & HF).
    unfold trade_columns in Hstep. ok_inv.
    eexists (_ :: new). rewrite <-app_assoc. split; [done|].
    constructor; [|done]. by split.
Qed.

Section Tables.
Context {M : Type} `{!Estimator M} `{!StdDev} `{!Sqrt}.

(** X11.  The table that [calculate_regression_results] returns has one
    row per model of the list, carrying the model's name with its
    validate and train RMSE out of the two dictionaries and no accuracy,
    and one more row [baseline_reg] for buying every day: the mean daily
    return and mean percent daily return of Validate, and no metric.  The
    rows come in descending order of [pct_avg_trade], a missing value
    last. *)
Theorem calculate_regression_results_table (models : list M)
    (rmses_train rmses_validate : gmap string float)
    (validate y_validate : DataFrame) (tbl : list LeaderRow) (vr : DataFrame) :
  calculate_regression_results models rmses_train rmses_validate validate
    y_validate = Ok (tbl, vr) →
  ∃ rows baseline,
    tbl ≡ₚ rows ++ [baseline]
    ∧ pct_descending tbl
    ∧ length tbl = S (length models)
    ∧ label <$> rows = model_name <$> models
    ∧ (∀ r, r ∈ rows →
         rmses_validate !! label r = Some (validate_rmse r)
         ∧ rmses_train !! label r = Some (train_rmse r)
         ∧ validate_accuracy r = NaN ∧ train_accuracy r = NaN ∧ dropoff r = NaN)
    ∧ baseline
      = mkRow "baseline_reg" (nanmean (cells "daily_return" vr))
          (nanmean (cells "pct_daily_return" vr)) NaN NaN NaN NaN NaN.
Proof.
  unfold calculate_regression_results. intros Hrun.
  apply bind_ok_inv in Hrun as (vr0 & _ & Hrun).
  apply bind_ok_inv in Hrun as ([vr1 metrics] & Hloop & Hrun).
  apply bind_ok_inv in Hrun as (vr2 & _ & Hrun).
  apply bind_ok_inv in Hrun as (rows & Hrows & Hrun).
  apply bind_ok_inv in Hrun as (dr & Hdr%col_cells & Hrun).
  apply bind_ok_inv in Hrun as (pdr & Hpdr%col_cells & [= <- <-]).
  apply trade_columns_metrics in Hloop as (new & -> & HF).
  unfold frame_of_metrics in Hrows. case_decide as Hlen; [|done].
  injection Hrows as <-. simpl in *.
  eexists _, _. split; [apply sort_by_perm|].
  split; [apply sort_values_pct_descending|].
  split.
  { unfold sort_values_pct. rewrite sort_by_perm, length_app, length_zip_with.
    rewrite length_fmap in *. simpl. lia. }
  split.
  { clear Hlen. revert HF. generalize (model_name <$> models).
    intros names HF.
    induction HF as [|name [[[a p] v] t] names new _ _ IH]; [done|].
    cbn [zip_with]. rewrite fmap_cons. by f_equal. }
  split; [|by rewrite Hdr, Hpdr].
  intros r Hr. apply list_elem_of_lookup in Hr as [i Hi].
  apply lookup_zip_with_Some in Hi as (name & [[[a p] v] t] & -> & Hname & Hm).
  destruct (Forall2_lookup_lr _ _ _ _ _ _ HF Hname Hm) as (Hv & Ht).
  by repeat split.
Qed.

Lemma calculate_classification_results_baseline (models : list M)
    (accuracies_train accuracies_validate : gmap string float)
    (validate y_validate : DataFrame) :
  accuracies_validate !! "baseline" = None →
  is_ok (calculate_classification_results models accuracies_train
           accuracies_validate validate y_validate) = false.
Proof.
  intros Hb. unfold calculate_classification_results. rewrite Hb.
  repeat match goal with
         | |- is_ok (of_option _ None ≫= _) = false => reflexivity
         | |- is_ok (?m ≫= _) = false =>
             destruct m as [?|?]; cbn [mbind result_bind]; [|done]
         | |- is_ok (let '(_, _) := ?p in _) = false => destruct p
         end.
Qed.

(** X10.  [conventional_split] cannot do without a classification model:
    with an empty [class_models] it never returns, whatever the data and
    the regression models.  The key ['baseline'] of the two accuracy
    dictionaries is written inside the loop over the models, and
    [calculate_classification_results] reads it. *)
Theorem conventional_split_needs_classifier (split_data : list (string * Split))
    (reg_models : list M) (features_to_use features_to_scale : list string) :
  is_ok (conventional_split split_data reg_models [] features_to_use
           features_to_scale) = false.
Proof.
  unfold conventional_split.
  destruct split_data as [|[k [[train validate] test]] split_data]; [done|].
  cbn [for_each].
  assert (is_ok (conventional_asset features_to_use features_to_scale
                   (mkConventional reg_models [] [] [] [])
                   (k, (train, validate, test))) = false) as Hasset.
  { unfold conventional_asset. cbn [class_models].
    destruct (predict_regression _ _ _ _ _ _ _ _) as [reg|]; [|done].
    cbn [mbind result_bind].
    destruct (calculate_regression_results _ _ _ _ _) as [[tbl vr]|]; [|done].
    cbn [mbind result_bind].
    unfold predict_classification.
    destruct (scale_datasets _ _ _ _ _ _) as [sc|]; [|done].
    cbn [mbind result_bind length seq for_each metrics_train metrics_validate
         y_validate_predicted].
    pose proof (calculate_classification_results_baseline [] ∅ ∅ validate
                  (y_validate sc) (lookup_empty _)) as Hc.
    destruct (calculate_classification_results _ _ _ _ _) as [[? ?]|]; done. }
  destruct (conventional_asset _ _ _ _) as [st|]; done.
Qed.

End Tables.

Section Blocks.
Context {M : Type} `{!Estimator M} `{!StdDev} `{!Sqrt}.

Lemma predict_regression_models (sc : Scaled) (fs : bool) (n : nat)
    (js : list nat) (st st' : Predictions M) :
  for_each (predict_regression_model sc fs n) js st = Ok st' →
  length (fitted_models st') = length (fitted_models st).
Proof.
  revert st. induction js as [|j js IH]; intros st Hrun; cbn [for_each] in Hrun.
  - by injection Hrun as <-.
  - apply bind_ok_inv in Hrun as (st1 & Hstep & Hrun).
    rewrite (IH _ Hrun). unfold predict_regression_model in Hstep.
    ok_inv. simpl. by rewrite length_insert.
Qed.

Lemma predict_classification_models (sc : Scaled) (fs : bool)
    (js : list nat) (st st' : Predictions M) :
  for_each (predict_classification_model sc fs) js st = Ok st' →
  length (fitted_models st') = length (fitted_models st).
Proof.
  revert st. induction js as [|j js IH]; intros st Hrun; cbn [for_each] in Hrun.
  - by injection Hrun as <-.
  - apply bind_ok_inv in Hrun as (st1 & Hstep & Hrun).
    rewrite (IH _ Hrun). unfold predict_classification_model in Hstep.
    ok_inv. simpl. by rewrite length_insert.
Qed.

Lemma calculate_classification_results_length (models : list M)
    (accuracies_train accuracies_validate : gmap string float)
    (validate y_validate : DataFrame) (tbl : list LeaderRow) (vr : DataFrame) :
  calculate_classification_results models accuracies_train accuracies_validate
    validate y_validate = Ok (tbl, vr) →
  length tbl = S (length models).
Proof.
  unfold calculate_classification_results. intros Hrun.
  apply bind_ok_inv in Hrun as (vr0 & _ & Hrun).
  apply bind_ok_inv in Hrun as ([vr1 metrics] & _ & Hrun).
  apply bind_ok_inv in Hrun as (vr2 & _ & Hrun).
  apply bind_ok_inv in Hrun as (rows & Hrows & Hrun).
  apply bind_ok_inv in Hrun as (dr & _ & Hrun).
  apply bind_ok_inv in Hrun as (pdr & _ & Hrun).
  apply bind_ok_inv in Hrun as (bv & _ & Hrun).
  apply bind_ok_inv in Hrun as (bt & _ & [= <- <-]).
  unfold frame_of_metrics in Hrows. case_decide as Hlen; [|done].
  injection Hrows as <-.
  unfold sort_values_pct. rewrite sort_by_perm, length_app, length_zip_with.
  rewrite length_fmap in *. simpl. lia.
Qed.

Lemma calculate_regression_results_length (models : list M)
    (rmses_train rmses_validate : gmap string float)
    (validate y_validate : DataFrame) (tbl : list LeaderRow) (vr : DataFrame) :
  calculate_regression_results models rmses_train rmses_validate validate
    y_validate = Ok (tbl, vr) →
  length tbl = S (length models).
Proof.
  unfold calculate_regression_results. intros Hrun.
  apply bind_ok_inv in Hrun as (vr0 & _ & Hrun).
  apply bind_ok_inv in Hrun as ([vr1 metrics] & _ & Hrun).
  apply bind_ok_inv in Hrun as (vr2 & _ & Hrun).
  apply bind_ok_inv in Hrun as (rows & Hrows & Hrun).
  apply bind_ok_inv in Hrun as (dr & _ & Hrun).
  apply bind_ok_inv in Hrun as (pdr & _ & [= <- <-]).
  unfold frame_of_metrics in Hrows. case_decide as Hlen; [|done].
  injection Hrows as <-.
  unfold sort_values_pct. rewrite sort_by_perm, length_app, length_zip_with.
  rewrite length_fmap in *. simpl. lia.
Qed.

(** The table that one pass of the asset loop adds. *)
Lemma conventional_asset_table (features_to_use features_to_scale : list string)
    (st st' : Conventional) (k : string) (sp : Split) :
  conventional_asset features_to_use features_to_scale st (k, sp) = Ok st' →
  ∃ rows reg_v class_v,
    avg_trade_model_results st' = avg_trade_model_results st ++ [(k, rows)]
    ∧ reg_validate_results st' = reg_validate_results st ++ [(k, reg_v)]
    ∧ class_validate_results st' = class_validate_results st ++ [(k, class_v)]
    ∧ length (reg_models st') = length (reg_models st)
    ∧ length (class_models st') = length (class_models st)
    ∧ length rows = length (reg_models st) + length (class_models st) + 2
    ∧ pct_descending rows.
Proof.
  unfold conventional_asset. destruct sp as [[train validate] test].
  intros Hrun.
  apply bind_ok_inv in Hrun as (reg & Hreg & Hrun).
  apply bind_ok_inv in Hrun as ([rt rv] & Hrt & Hrun).
  apply bind_ok_inv in Hrun as (cls & Hcls & Hrun).
  apply bind_ok_inv in Hrun as ([ct cv] & Hct & [= <-]).
  apply calculate_regression_results_length in Hrt.
  apply calculate_classification_results_length in Hct.
  unfold predict_regression in Hreg.
  apply bind_ok_inv in Hreg as (sc & _ & Hreg%predict_regression_models).
  unfold predict_classification in Hcls.
  apply bind_ok_inv in Hcls as (sc' & _ & Hcls%predict_classification_models).
  simpl in Hreg, Hcls. simpl.
  eexists _, _, _. split; [done|]. split; [done|]. split; [done|].
  split; [done|]. split; [done|].
  split; [|apply sort_values_pct_descending].
  unfold sort_values_pct. rewrite sort_by_perm, length_app. lia.
Qed.

Lemma conventional_assets_tables (features_to_use features_to_scale : list string)
    (split_data : list (string * Split)) (st st' : Conventional) :
  for_each (conventional_asset features_to_use features_to_scale) split_data st
    = Ok st' →
  ∃ tables reg_v class_v,
    avg_trade_model_results st' = avg_trade_model_results st ++ tables
    ∧ reg_validate_results st' = reg_validate_results st ++ reg_v
    ∧ class_validate_results st' = class_validate_results st ++ class_v
    ∧ tables.*1 = split_data.*1
    ∧ reg_v.*1 = split_data.*1 ∧ class_v.*1 = split_data.*1
    ∧ Forall (λ kt : string * list LeaderRow,
                length kt.2 = length (reg_models st) + length (class_models st) + 2
                ∧ pct_descending kt.2) tables.
Proof.
  revert st. induction split_data as [|[k sp] split_data IH]; intros st Hrun.
  - cbn [for_each] in Hrun. injection Hrun as <-. exists [], [], [].
    by rewrite !app_nil_r.
  - cbn [for_each] in Hrun. apply bind_ok_inv in Hrun as (st1 & Hasset & Hrest).
    apply conventional_asset_table in Hasset
      as (rows & rv & cv & H1 & H2 & H3 & L1 & L2 & Hlen & Hsorted).
    apply IH in Hrest
      as (tables & rvs & cvs & E1 & E2 & E3 & K1 & K2 & K3 & HF).
    exists ((k, rows) :: tables), ((k, rv) :: rvs), ((k, cv) :: cvs).
    rewrite E1, E2, E3, H1, H2, H3, <-!app_assoc.
    split; [done|]. split; [done|]. split; [done|].
    rewrite !fmap_cons, K1, K2, K3.
    split; [done|]. split; [done|]. split; [done|].
    constructor; [done|]. by rewrite L1, L2 in HF.
Qed.

Lemma blocks_concat (tables : list (string * list LeaderRow)) :
  with_dropoff <$> ('(k, results) ← tables; with_asset k <$> results)
  = ((λ kt : string * list LeaderRow,
        (kt.1, with_dropoff <$> (with_asset kt.1 <$> kt.2))) <$> tables).*2
    ≫= id.
Proof.
  induction tables as [|[k rows] tables IH]; [done|].
  rewrite !fmap_cons. cbn [mbind list_bind fst snd id].
  rewrite fmap_app. f_equal. exact IH.
Qed.

Lemma length_bind_blocks {A} (ls : list (list A)) (n : nat) :
  Forall (λ l, length l = n) ls → length (ls ≫= id) = length ls * n.
Proof.
  induction 1 as [|l ls Hl _ IH]; [done|].
  cbn [mbind list_bind id length]. rewrite length_app, Hl.
  cbn [mbind] in IH. rewrite IH. lia.
Qed.

(** X12.  The leaderboard of [conventional_split] is made of one block
    per asset, in the order of the assets.  The block of an asset has a row
    for every regression model, a row for every classification model and
    the two baseline rows; every label of the block ends in [_<asset>]; the
    dropoff of every row is computed from the row itself; and inside the
    block the rows are in descending order of [pct_avg_trade].  The two
    dictionaries of result tables have the assets as keys, in their
    order. *)
Theorem conventional_split_blocks (split_data : list (string * Split))
    (reg_models class_models : list M)
    (features_to_use features_to_scale : list string)
    (reg_v class_v : list (string * DataFrame)) (leaderboard : list LeaderRow) :
  conventional_split split_data reg_models class_models features_to_use
    features_to_scale = Ok (reg_v, class_v, leaderboard) →
  reg_v.*1 = split_data.*1 ∧ class_v.*1 = split_data.*1
  ∧ ∃ blocks : list (string * list LeaderRow),
      blocks.*1 = split_data.*1
      ∧ leaderboard = blocks.*2 ≫= id
      ∧ length leaderboard
        = length split_data * (length reg_models + length class_models + 2)
      ∧ Forall (λ kb : string * list LeaderRow,
                  length kb.2 = length reg_models + length class_models + 2
                  ∧ pct_descending kb.2
                  ∧ Forall (λ r, ∃ name, label r = name +:+ "_" +:+ kb.1
                                         ∧ dropoff r = dropoff_of r) kb.2)
          blocks.
Proof.
  unfold conventional_split. intros Hrun.
  apply bind_ok_inv in Hrun as (st & Hloop & Hrun).
  apply conventional_assets_tables in Hloop
    as (tables & rvs & cvs & E1 & E2 & E3 & K1 & K2 & K3 & HF).
  simpl in E1, E2, E3, HF. rewrite E1, E2, E3 in Hrun.
  assert (reg_v = rvs ∧ class_v = cvs ∧ leaderboard
          = with_dropoff <$> ('(k, results) ← tables; with_asset k <$> results))
    as (-> & -> & ->).
  { destruct ('(k, results) ← tables; with_asset k <$> results)
      as [|r0 rows0]; [done|].
    by injection Hrun as <- <- <-. }
  clear Hrun E1 E2 E3 st.
  split; [done|]. split; [done|].
  set (block := λ kt : string * list LeaderRow,
                  (kt.1, with_dropoff <$> (with_asset kt.1 <$> kt.2))).
  assert (Forall (λ kb : string * list LeaderRow,
                    length kb.2 = length reg_models + length class_models + 2
                    ∧ pct_descending kb.2
                    ∧ Forall (λ r, ∃ name, label r = name +:+ "_" +:+ kb.1
                                           ∧ dropoff r = dropoff_of r) kb.2)
            (block <$> tables)) as Hblocks.
  { apply Forall_fmap. eapply Forall_impl; [exact HF|].
    intros [k rows] (Hlen & Hsorted). simpl in *.
    rewrite !length_fmap. split; [done|]. split.
    - unfold pct_descending in *. rewrite <-list_fmap_compose.
      eapply StronglySorted_fmap; [|exact Hsorted]. by intros r1 r2.
    - apply Forall_forall. intros r Hr.
      apply list_elem_of_fmap in Hr as (r1 & -> & Hr).
      apply list_elem_of_fmap in Hr as (r2 & -> & Hr).
      by exists (label r2). }
  exists (block <$> tables).
  split; [rewrite <-K1, <-list_fmap_compose; by apply list_fmap_ext|].
  split; [apply blocks_concat|].
  split; [|done].
  rewrite blocks_concat.
  rewrite (length_bind_blocks _ (length reg_models + length class_models + 2)).
  - rewrite !length_fmap.
    by rewrite <-(length_fmap fst split_data), <-K1, length_fmap.
  - apply Forall_fmap. eapply Forall_impl; [exact Hblocks|]. by intros ? (? & _).
Qed.

End Blocks.

(** ** The dictionaries of rolling_reg_models *)

Lemma dom_setitem (l : nat) (key : string) (v : entry) (h : Store) :
  dom (setitem l key v h) = dom h.
Proof. unfold setitem. apply dom_alter_L. Qed.

Lemma setitem_lookup_ne (l l' : nat) (key : string) (v : entry) (h : Store) :
  l ≠ l' → setitem l key v h !! l' = h !! l'.
Proof. intros Hne. unfold setitem. by apply lookup_alter_ne. Qed.

Lemma dom_seq_size (h : Store) (n : nat) :
  dom h = set_seq 0 n → size h = n.
Proof.
  intros Hdom. rewrite <-size_dom, Hdom.
  rewrite <-list_to_set_seq, size_list_to_set by apply NoDup_seq.
  apply length_seq.
Qed.

Section OwnDictionaries.
Context {M : Type} `{!Estimator M} `{!StdDev} `{!Sqrt}.

(** The model loop of an asset touches the asset's dictionary only. *)
Lemma rolling_reg_loop_store (train validate test : DataFrame) (target : string)
    (features_to_use features_to_scale : list string) (l : nat)
    (rows : list nat) (ms ms' : list M) (h h' : Store) :
  for_each (rolling_reg_model train validate test target features_to_use
              features_to_scale l) rows (ms, h) = Ok (ms', h') →
  length ms' = length ms ∧ dom h' = dom h
  ∧ ∀ l', l ≠ l' → h' !! l' = h !! l'.
Proof.
  revert ms h. induction rows as [|j rows IH]; intros ms h Hrun.
  - cbn [for_each] in Hrun. by injection Hrun as <- <-.
  - cbn [for_each] in Hrun.
    apply bind_ok_inv in Hrun as ([ms1 h1] & Hpass & Hrest).
    apply IH in Hrest as (-> & -> & Hout).
    apply rolling_reg_model_ok in Hpass
      as (m & run & rmses & predictions & validate_rmse & vr & _ & _ & _ & _ & _
          & _ & -> & ->).
    rewrite length_insert, !dom_setitem. split; [done|]. split; [done|].
    intros l' Hne. rewrite (Hout l' Hne). by rewrite !setitem_lookup_ne.
Qed.

Lemma rolling_reg_asset_ok (target : string)
    (features_to_use features_to_scale : list string)
    (ms ms' : list M) (mapping mapping' : gmap string nat) (h h' : Store)
    (k : string) (train validate test : DataFrame) :
  rolling_reg_asset target features_to_use features_to_scale
    (ms, mapping, h) (k, (train, validate, test)) = Ok (ms', mapping', h') →
  for_each (rolling_reg_model train validate test target features_to_use
              features_to_scale (size h)) (seq 0 (length ms))
    (ms, <[size h := ∅]> h) = Ok (ms', h')
  ∧ mapping' = <[k := size h]> mapping.
Proof.
  unfold rolling_reg_asset, alloc. intros Hrun.
  apply bind_ok_inv in Hrun as ([ms1 h1] & Hloop & [= <- <- <-]). done.
Qed.

(** Through the asset loop: the store grows by one dictionary per asset,
    the dictionaries that were there are left alone, and an asset's
    dictionary is what its own model loop made of an empty one. *)
Lemma rolling_reg_assets_invariant (target : string)
    (features_to_use features_to_scale : list string)
    (split_data : list (string * Split)) (ms ms' : list M)
    (mapping mapping' : gmap string nat) (h h' : Store) (n : nat) :
  for_each (rolling_reg_asset target features_to_use features_to_scale)
    split_data (ms, mapping, h) = Ok (ms', mapping', h') →
  dom h = set_seq 0 n →
  length ms' = length ms
  ∧ dom h' = set_seq 0 (n + length split_data)
  ∧ (∀ l, l < n → h' !! l = h !! l)
  ∧ (∀ k, k ∉ split_data.*1 → mapping' !! k = mapping !! k)
  ∧ (∀ k, k ∈ split_data.*1 → k ∈ dom mapping')
  ∧ (NoDup split_data.*1 →
     ∀ i k train validate test,
       split_data !! i = Some (k, (train, validate, test)) →
       mapping' !! k = Some (n + i)
       ∧ ∃ (ms1 ms2 : list M) (h1 h2 : Store),
           length ms1 = length ms ∧ dom h1 = set_seq 0 (n + i)
           ∧ for_each (rolling_reg_model train validate test target
                         features_to_use features_to_scale (n + i))
               (seq 0 (length ms1)) (ms1, <[n + i := ∅]> h1) = Ok (ms2, h2)
           ∧ h' !! (n + i) = h2 !! (n + i)).
Proof.
  revert ms mapping h n.
  induction split_data as [|[k [[train validate] test]] split_data IH];
    intros ms mapping h n Hrun Hdom.
  - cbn [for_each] in Hrun. injection Hrun as <- <- <-.
    rewrite Nat.add_0_r. split; [done|]. split; [done|]. split; [done|].
    split; [done|]. split; [intros k Hk; by apply elem_of_nil in Hk|].
    intros _ i k tr va te Hi. done.
  - cbn [for_each] in Hrun.
    apply bind_ok_inv in Hrun as ([[ms1 mapping1] h1] & Hasset & Hrest).
    apply rolling_reg_asset_ok in Hasset as (Hloop & ->).
    rewrite (dom_seq_size h n Hdom) in Hloop, Hrest.
    destruct (rolling_reg_loop_store _ _ _ _ _ _ _ _ _ _ _ _ Hloop)
      as (Hlen1 & Hdom1 & Hout1).
    assert (dom h1 = set_seq 0 (S n)) as Hdom1'.
    { rewrite Hdom1, dom_insert_L, Hdom, set_seq_S_end_union_L. done. }
    destruct (IH ms1 _ h1 (S n) Hrest Hdom1')
      as (Hlen & Hdom' & Hkeep & Hout & Hin & Hown).
    split; [congruence|].
    split; [rewrite Hdom'; f_equal; simpl; lia|].
    split.
    { intros l Hl. rewrite Hkeep by lia. rewrite Hout1 by lia.
      apply lookup_insert_ne. lia. }
    split.
    { intros k' Hk'. cbn [fmap list_fmap fst] in Hk'.
      apply not_elem_of_cons in Hk' as (Hne & Hnin).
      rewrite (Hout _ Hnin). by apply lookup_insert_ne. }
    split.
    { intros k' Hk'. cbn [fmap list_fmap fst] in Hk'.
      destruct (decide (k' ∈ split_data.*1)) as [|Hnin]; [by apply Hin|].
      apply elem_of_cons in Hk' as [->|]; [|done].
      apply elem_of_dom. rewrite (Hout _ Hnin), lookup_insert_eq. done. }
    intros Hnd i k' tr va te Hi. cbn [fmap list_fmap fst] in Hnd.
    apply NoDup_cons in Hnd as (Hk & Hnd).
    destruct i as [|i].
    + injection Hi as <- <- <- <-. rewrite Nat.add_0_r.
      split; [rewrite (Hout _ Hk); apply lookup_insert_eq|].
      exists ms, ms1, h, h1. split; [done|]. split; [done|]. split; [done|].
      apply Hkeep. lia.
    + destruct (Hown Hnd i k' tr va te Hi)
        as (Hk' & ms2 & ms3 & h2 & h3 & L & D & Hrun2 & Hsame).
      replace (n + S i) with (S n + i) by lia.
      split; [done|].
      exists ms2, ms3, h2, h3. split; [congruence|]. done.
Qed.

(** X13.  [rolling_reg_models] makes a new dictionary for every asset:
    distinct assets are bound to distinct dictionary objects, and the store
    holds as many dictionaries as there are assets.  What the dictionary of
    an asset holds at the end is what the model loop over this asset's
    Train, Validate and Test wrote into an empty dictionary; the passes
    over the assets after it do not change it. *)
Theorem rolling_reg_models_own_dictionaries
    (split_data : list (string * Split)) (models : list M) (target : string)
    (features_to_use features_to_scale : list string)
    (mapping : gmap string nat) (store : Store) :
  NoDup split_data.*1 →
  rolling_reg_models split_data models target features_to_use
    features_to_scale = Ok (mapping, store) →
  dom mapping = list_to_set split_data.*1
  ∧ size store = length split_data
  ∧ (∀ k1 k2, k1 ∈ split_data.*1 → k2 ∈ split_data.*1 →
       mapping !! k1 = mapping !! k2 → k1 = k2)
  ∧ ∀ i k train validate test,
      split_data !! i = Some (k, (train, validate, test)) →
      mapping !! k = Some i
      ∧ ∃ (ms ms' : list M) (h h' : Store),
          length ms = length models ∧ dom h = set_seq 0 i
          ∧ for_each (rolling_reg_model train validate test target
                        features_to_use features_to_scale i)
              (seq 0 (length ms)) (ms, <[i := ∅]> h) = Ok (ms', h')
          ∧ store !! i = h' !! i.
Proof.
  unfold rolling_reg_models. intros Hnd Hrun.
  apply bind_ok_inv in Hrun as ([[ms' mapping'] h'] & Hloop & [= <- <-]).
  apply (rolling_reg_assets_invariant _ _ _ _ _ _ _ _ _ _ 0) in Hloop
    as (_ & Hdom & _ & Hout & Hin & Hown); [|by rewrite dom_empty_L].
  specialize (Hown Hnd). simpl in Hdom.
  split.
  { apply set_eq. intros k. rewrite elem_of_list_to_set. split; [|apply Hin].
    intros Hk. destruct (decide (k ∈ split_data.*1)) as [|Hnin]; [done|].
    apply elem_of_dom in Hk as [l Hl]. by rewrite (Hout _ Hnin) in Hl. }
  split; [by apply dom_seq_size|].
  split; [|exact Hown].
  intros k1 k2 H1 H2 Heq.
  apply list_elem_of_lookup in H1 as [i1 H1].
  apply list_elem_of_lookup in H2 as [i2 H2].
  pose proof H1 as H1'. pose proof H2 as H2'.
  apply list_lookup_fmap_Some in H1' as ([k1' [[tr1 va1] te1]] & -> & Hs1).
  apply list_lookup_fmap_Some in H2' as ([k2' [[tr2 va2] te2]] & -> & Hs2).
  destruct (Hown _ _ _ _ _ Hs1) as (E1 & _).
  destruct (Hown _ _ _ _ _ Hs2) as (E2 & _).
  simpl in *. assert (i1 = i2) as -> by (rewrite E1, E2 in Heq; congruence).
  congruence.
Qed.

End OwnDictionaries.

(** ** Columns that are shifted, filled and written *)

Lemma length_shift_down (i : nat) (v : list float) :
  length (shift_down i v) = length v.
Proof.
  unfold shift_down. rewrite length_take, length_app. lia.
Qed.

Lemma shift_down_lookup_lt (i j : nat) (v : list float) :
  j < i → j < length v → shift_down i v !! j = Some NaN.
Proof.
  intros Hj Hv. unfold shift_down. rewrite lookup_take_lt by done.
  rewrite lookup_app_l by (by rewrite length_replicate).
  by apply lookup_replicate_2.
Qed.

Lemma shift_down_lookup_ge (i j : nat) (v : list float) :
  i ≤ j → j < length v → shift_down i v !! j = v !! (j - i).
Proof.
  intros Hj Hv. unfold shift_down. rewrite lookup_take_lt by done.
  rewrite lookup_app_r by (by rewrite length_replicate).
  by rewrite length_replicate.
Qed.

Lemma length_ffill_from (last : float) (v : list float) :
  length (ffill_from last v) = length v.
Proof.
  revert last. induction v as [|x v IH]; intros last; simpl; [done|].
  by rewrite IH.
Qed.

(** Filling leaves a cell that is not missing as it is. *)
Lemma ffill_from_lookup (last : float) (v : list float) (i : nat) (x : float) :
  v !! i = Some x → isna x = false → ffill_from last v !! i = Some x.
Proof.
  revert last i. induction v as [|y v IH]; intros last [|i] Hx Hna;
    simpl in *; try done.
  - injection Hx as ->. by rewrite Hna.
  - by apply IH.
Qed.

Lemma length_pct_change (v : list float) : length (pct_change v) = length v.
Proof.
  unfold pct_change, col_div.
  rewrite length_fmap, length_zip_with, length_shift_down, length_ffill_from.
  lia.
Qed.

(** The percent change between two consecutive cells, neither missing. *)
Lemma pct_change_lookup (v : list float) (i : nat) (c0 c1 : float) :
  v !! i = Some c0 → v !! S i = Some c1 →
  isna c0 = false → isna c1 = false →
  pct_change v !! S i = Some (fsub (fdiv c1 c0) (Fin 1)).
Proof.
  intros H0 H1 N0 N1. unfold pct_change, col_div.
  rewrite list_lookup_fmap, lookup_zip_with.
  rewrite (ffill_from_lookup _ _ _ _ H1 N1). cbn [mbind option_bind].
  rewrite shift_down_lookup_ge
    by (rewrite ?length_ffill_from; first [lia | by eapply lookup_lt_Some]).
  replace (S i - 1) with i by lia.
  by rewrite (ffill_from_lookup _ _ _ _ H0 N0).
Qed.

Lemma assoc_put_column (c c' : string) (v : list float)
    (cols : list (string * list float)) :
  assoc c (put_column c' v cols)
  = if decide (c = c') then Some v else assoc c cols.
Proof.
  induction cols as [|[c1 v1] cols IH]; simpl.
  - destruct (decide (c = c')); [done|]. done.
  - destruct (decide (c' = c1)) as [->|Hne]; simpl.
    + by destruct (decide (c = c1)).
    + destruct (decide (c = c1)) as [->|]; [|done].
      by rewrite decide_False by done.
Qed.

Lemma labels_put_column (c : string) (v : list float)
    (cols : list (string * list float)) :
  (put_column c v cols).*1
  = if decide (c ∈ cols.*1) then cols.*1 else cols.*1 ++ [c].
Proof.
  induction cols as [|[c1 v1] cols IH]; [done|].
  cbn [put_column]. rewrite (fmap_cons fst (c1, v1) cols). cbn [fst].
  destruct (decide (c = c1)) as [->|Hne].
  - rewrite fmap_cons. cbn [fst]. by rewrite decide_True by left.
  - rewrite fmap_cons, IH. cbn [fst].
    destruct (decide (c ∈ cols.*1)) as [Hin|Hnin].
    + by rewrite decide_True by (by right).
    + rewrite decide_False; [done|]. by intros [?|?]%elem_of_cons.
Qed.

Lemma put_column_lengths (n : nat) (c : string) (v : list float)
    (cols : list (string * list float)) :
  length v = n →
  Forall (λ cv : string * list float, length cv.2 = n) cols →
  Forall (λ cv : string * list float, length cv.2 = n) (put_column c v cols).
Proof.
  intros Hv. induction 1 as [|[c1 v1] cols H1 HF IH]; simpl.
  - by repeat constructor.
  - destruct (decide (c = c1)); by constructor.
Qed.

Lemma assoc_Some_elem_of {A} (c : string) (l : list (string * A)) (v : A) :
  assoc c l = Some v → (c, v) ∈ l.
Proof.
  induction l as [|[c1 v1] l IH]; simpl; [done|].
  destruct (decide (c = c1)) as [->|]; [intros [= ->]; left|right; auto].
Qed.

Lemma assoc_None_labels {A} (c : string) (l : list (string * A)) :
  assoc c l = None ↔ c ∉ l.*1.
Proof.
  induction l as [|[c1 v1] l IH]; simpl; [by split; [intros _ ?%elem_of_nil|]|].
  rewrite not_elem_of_cons. destruct (decide (c = c1)) as [->|]; [|tauto].
  split; [done|]. by intros [? _].
Qed.

(** [df[c] = s] for a series with the rows of the frame. *)
Lemma assign_series_own (c : string) (v : list float) (idx : list Z)
    (cols : list (string * list float)) :
  length v = length idx →
  assign_series c idx v (mkDF idx cols) = mkDF idx (put_column c v cols).
Proof.
  intros Hv. unfold assign_series. simpl.
  destruct (decide (idx = [] ∧ v ≠ [])) as [[-> Hne]|_].
  - by destruct v.
  - simpl. by rewrite align_same.
Qed.

Lemma attr_put (c c' : string) (v : list float) (idx : list Z)
    (cols : list (string * list float)) :
  attr c (mkDF idx (put_column c' v cols))
  = if decide (c = c') then Ok v else attr c (mkDF idx cols).
Proof.
  unfold attr. simpl. rewrite assoc_put_column. by destruct (decide (c = c')).
Qed.

Lemma attr_cells (c : string) (df : DataFrame) (v : list float) :
  attr c df = Ok v → cells c df = v ∧ assoc c (columns df) = Some v.
Proof.
  unfold attr, cells. destruct (assoc c (columns df)); [|done].
  by intros [= ->].
Qed.

Lemma rectangular_attr (c : string) (df : DataFrame) (v : list float) :
  rectangular df → attr c df = Ok v → length v = len df.
Proof.
  intros Hrect (_ & Hv%assoc_Some_elem_of)%attr_cells.
  by eapply Forall_forall in Hrect; [|exact Hv].
Qed.

(** ** Several columns written one after the other *)

Lemma put_columns_app (a b cols : list (string * list float)) :
  put_columns (a ++ b) cols = put_columns b (put_columns a cols).
Proof. unfold put_columns. apply foldl_app. Qed.

Lemma assoc_put_columns_notin (c : string) (new cols : list (string * list float)) :
  c ∉ new.*1 → assoc c (put_columns new cols) = assoc c cols.
Proof.
  revert cols. induction new as [|[c1 v1] new IH]; intros cols Hc; [done|].
  cbn [fmap list_fmap fst] in Hc. apply not_elem_of_cons in Hc as (Hne & Hc).
  unfold put_columns. cbn [foldl fst snd].
  change (assoc c (put_columns new (put_column c1 v1 cols)) = assoc c cols).
  rewrite (IH _ Hc), assoc_put_column. by rewrite decide_False.
Qed.

Lemma assoc_put_columns_in (c : string) (v : list float)
    (new cols : list (string * list float)) :
  NoDup new.*1 → (c, v) ∈ new → assoc c (put_columns new cols) = Some v.
Proof.
  revert cols. induction new as [|[c1 v1] new IH]; intros cols Hnd Hin.
  { by apply elem_of_nil in Hin. }
  cbn [fmap list_fmap fst] in Hnd. apply NoDup_cons in Hnd as (Hc1 & Hnd).
  unfold put_columns. cbn [foldl fst snd].
  change (assoc c (put_columns new (put_column c1 v1 cols)) = Some v).
  apply elem_of_cons in Hin as [[= -> ->]|Hin].
  - rewrite (assoc_put_columns_notin _ _ _ Hc1), assoc_put_column.
    by rewrite decide_True.
  - by apply IH.
Qed.

Lemma put_columns_lengths (n : nat) (new cols : list (string * list float)) :
  Forall (λ cv : string * list float, length cv.2 = n) new →
  Forall (λ cv : string * list float, length cv.2 = n) cols →
  Forall (λ cv : string * list float, length cv.2 = n) (put_columns new cols).
Proof.
  intros Hnew. revert cols.
  induction Hnew as [|[c1 v1] new H1 _ IH]; intros cols Hcols; [done|].
  unfold put_columns. cbn [foldl fst snd]. apply IH.
  by apply put_column_lengths.
Qed.

Lemma labels_put_columns_subseteq (new cols : list (string * list float)) :
  cols.*1 ⊆ (put_columns new cols).*1.
Proof.
  revert cols. induction new as [|[c1 v1] new IH]; intros cols; [done|].
  unfold put_columns. cbn [foldl fst snd]. etrans; [|apply IH].
  rewrite labels_put_column. destruct (decide (c1 ∈ cols.*1)); [done|].
  set_solver.
Qed.

(** ** The frame that add_features builds *)

Ltac column_length :=
  unfold RR_column, col_sub, col_div, col_add, gt0;
  repeat first
    [ rewrite length_fmap | rewrite length_zip_with | rewrite length_shift_up
    | rewrite length_shift_down | rewrite length_pct_change ];
  lia.

Section AddFeaturesFacts.
Context `{!Log} `{!HalfPower} `{!Calendar}.

Lemma lag_loop (idx : list Z) (close : list float) (rows : list nat)
    (cols : list (string * list float)) (df' : DataFrame) :
  for_each (λ df i,
              close ← attr "close" df;
              lagged ← attr "close" df;
              mret (assign_series ("log_ret_lag_" +:+ pretty i) (index df)
                      (col_sub (np_log <$> close)
                         (np_log <$> shift_down i lagged)) df))
    rows (mkDF idx cols) = Ok df' →
  attr "close" (mkDF idx cols) = Ok close →
  length close = length idx →
  df' = mkDF idx
          (put_columns
             ((λ i, ("log_ret_lag_" +:+ pretty i,
                     col_sub (np_log <$> close) (np_log <$> shift_down i close)))
                <$> rows) cols).
Proof.
  revert cols. induction rows as [|i rows IH]; intros cols Hrun Hclose Hlen.
  - cbn [for_each] in Hrun. by injection Hrun as <-.
  - cbn [for_each] in Hrun. rewrite Hclose in Hrun.
    cbn [mbind result_bind mret result_ret index] in Hrun.
    rewrite assign_series_own in Hrun by column_length.
    apply IH in Hrun; [done| |done].
    rewrite attr_put, decide_False; [done|discriminate].
Qed.

Lemma sigma_loop (idx : list Z) (high low : list float) (rows : list nat)
    (cols : list (string * list float)) (df' : DataFrame) :
  for_each (λ df i,
              high ← attr "high" df;
              low ← attr "low" df;
              mret (assign_series ("sigma_lag_" +:+ pretty i) (index df)
                      (pow_half
                         <$> ((λ x, fdiv (fmul x x)
                                      (fmul (Fin 4) (np_log (Fin 2))))
                                <$> (np_log
                                       <$> col_div (shift_down i high)
                                             (shift_down i low)))) df))
    rows (mkDF idx cols) = Ok df' →
  attr "high" (mkDF idx cols) = Ok high →
  attr "low" (mkDF idx cols) = Ok low →
  length high = length idx → length low = length idx →
  df' = mkDF idx
          (put_columns
             ((λ i, ("sigma_lag_" +:+ pretty i,
                     pow_half
                       <$> ((λ x, fdiv (fmul x x)
                                    (fmul (Fin 4) (np_log (Fin 2))))
                              <$> (np_log
                                     <$> col_div (shift_down i high)
                                           (shift_down i low)))))
                <$> rows) cols).
Proof.
  revert cols.
  induction rows as [|i rows IH]; intros cols Hrun Hhigh Hlow Lh Ll.
  - cbn [for_each] in Hrun. by injection Hrun as <-.
  - cbn [for_each] in Hrun. rewrite Hhigh, Hlow in Hrun.
    cbn [mbind result_bind mret result_ret index] in Hrun.
    rewrite assign_series_own in Hrun by column_length.
    apply IH in Hrun; [done| | |done|done].
    + rewrite attr_put, decide_False; [done|discriminate].
    + rewrite attr_put, decide_False; [done|discriminate].
Qed.

Lemma attr_put_columns (c : string) (idx : list Z)
    (new cols : list (string * list float)) :
  c ∉ new.*1 →
  attr c (mkDF idx (put_columns new cols)) = attr c (mkDF idx cols).
Proof.
  intros Hc. unfold attr. simpl. by rewrite assoc_put_columns_notin.
Qed.

Lemma lag_names (close : list float) :
  (lag_columns close).*1
  = ["log_ret_lag_1"; "log_ret_lag_2"; "log_ret_lag_3"; "log_ret_lag_4";
     "log_ret_lag_5"; "log_ret_lag_6"; "log_ret_lag_7"].
Proof. unfold lag_columns. by rewrite <-list_fmap_compose. Qed.

Lemma sigma_names (high low : list float) :
  (sigma_columns high low).*1
  = ["sigma_lag_1"; "sigma_lag_2"; "sigma_lag_3"; "sigma_lag_4";
     "sigma_lag_5"; "sigma_lag_6"; "sigma_lag_7"].
Proof. unfold sigma_columns. by rewrite <-list_fmap_compose. Qed.

Lemma new_names (close high low : list float) :
  (new_columns close high low).*1
  = ["fwd_log_ret"; "fwd_ret"; "fwd_pct_chg"; "fwd_close_positive"; "pct_chg";
     "log_ret_lag_1"; "log_ret_lag_2"; "log_ret_lag_3"; "log_ret_lag_4";
     "log_ret_lag_5"; "log_ret_lag_6"; "log_ret_lag_7"; "RR";
     "sigma_lag_1"; "sigma_lag_2"; "sigma_lag_3"; "sigma_lag_4";
     "sigma_lag_5"; "sigma_lag_6"; "sigma_lag_7"].
Proof.
  unfold new_columns. by rewrite !fmap_app, lag_names, sigma_names.
Qed.

Ltac names_apart :=
  rewrite ?lag_names, ?sigma_names;
  unfold target_columns; cbn [fmap list_fmap fst];
  rewrite ?not_elem_of_cons; repeat split;
  first [discriminate | apply not_elem_of_nil].

Ltac frame_step H :=
  first
    [ rewrite attr_put in H
    | rewrite assign_series_own in H by column_length
    | progress string_decide_in H
    | progress cbn [mbind result_bind mret result_ret index] in H ].

(** What [add_features] has built when it comes to its last statement. *)
Lemma add_features_columns_ok (df full : DataFrame) :
  rectangular df →
  add_features_columns df = Ok full →
  ∃ close high low,
    attr "close" df = Ok close ∧ attr "high" df = Ok high
    ∧ attr "low" df = Ok low
    ∧ length close = len df ∧ length high = len df ∧ length low = len df
    ∧ full = day_name_dummies
               (mkDF (index df)
                  (put_columns (new_columns close high low) (columns df))).
Proof.
  intros Hrect Hrun. destruct df as [idx cols].
  unfold add_features_columns in Hrun.
  apply bind_ok_inv in Hrun as (close & Hclose & Hrun).
  pose proof (rectangular_attr _ _ _ Hrect Hclose) as Lc.
  unfold len in Lc. cbn [index] in Lc.
  repeat first [rewrite Hclose in Hrun | frame_step Hrun].
  apply bind_ok_inv in Hrun as (df1 & Hloop & Hrun).
  apply (lag_loop idx close) in Hloop;
    [|rewrite !attr_put; string_decide; exact Hclose|done].
  change (put_column "pct_chg" _ _)
    with (put_columns (target_columns close) cols) in Hloop.
  change (put_columns _ (put_columns (target_columns close) cols))
    with (put_columns (lag_columns close)
            (put_columns (target_columns close) cols)) in Hloop.
  subst df1.
  apply bind_ok_inv in Hrun as (high & Hhigh & Hrun).
  apply bind_ok_inv in Hrun as (low & Hlow & Hrun).
  rewrite Hhigh, Hlow in Hrun.
  rewrite !attr_put_columns in Hhigh, Hlow by names_apart.
  pose proof (rectangular_attr _ _ _ Hrect Hhigh) as Lh.
  pose proof (rectangular_attr _ _ _ Hrect Hlow) as Ll.
  unfold len in Lh, Ll. cbn [index] in Lh, Ll.
  repeat frame_step Hrun.
  apply bind_ok_inv in Hrun as (df2 & Hloop & [= <-]).
  apply (sigma_loop idx high low) in Hloop;
    [|first [done
            |rewrite attr_put; string_decide;
             by rewrite !attr_put_columns by names_apart]..].
  subst df2. exists close, high, low.
  split; [done|]. split; [done|]. split; [done|].
  split; [done|]. split; [done|]. split; [done|].
  unfold new_columns. by rewrite !put_columns_app.
Qed.

End AddFeaturesFacts.

Ltac name_notin :=
  rewrite ?lag_names, ?sigma_names, ?new_names;
  unfold target_columns; cbn [fmap list_fmap fst];
  rewrite ?not_elem_of_cons; repeat split;
  first [discriminate | apply not_elem_of_nil].

(** ** Rows without a missing cell *)

Lemma seq_sorted (a n : nat) : StronglySorted lt (seq a n).
Proof.
  revert a. induction n as [|n IH]; intros a; simpl; constructor; [done|].
  apply Forall_forall. intros i Hi%elem_of_seq. lia.
Qed.

Lemma filter_sorted {A} (R : relation A) (P : A → Prop) `{!∀ x, Decision (P x)}
    (l : list A) :
  StronglySorted R l → StronglySorted R (filter P l).
Proof.
  induction 1 as [|x l Hl IH Hx]; [constructor|].
  rewrite filter_cons. destruct (decide (P x)); [|done].
  constructor; [done|].
  apply Forall_forall. intros y Hy%list_elem_of_filter.
  eapply Forall_forall in Hx; [done|]. by destruct Hy.
Qed.

Lemma elem_of_complete_rows (df : DataFrame) (i : nat) :
  i ∈ complete_rows df ↔ i < len df ∧ row_complete df i = true.
Proof.
  unfold complete_rows. rewrite list_elem_of_filter, elem_of_seq. split.
  - intros (? & ? & ?). split; [lia | done].
  - intros (? & ?). repeat split; [done | lia | lia].
Qed.

Lemma row_complete_cell (df : DataFrame) (i : nat) (c : string) (v : list float) :
  row_complete df i = true → assoc c (columns df) = Some v →
  ∃ x, v !! i = Some x ∧ isna x = false.
Proof.
  unfold row_complete. intros Hrow Hv%assoc_Some_elem_of.
  rewrite forallb_forall in Hrow.
  apply list_elem_of_In, Hrow in Hv. simpl in Hv.
  destruct (v !! i) as [x|]; simpl in Hv; [|discriminate].
  exists x. split; [done|]. by apply negb_true_iff.
Qed.

Lemma index_take_rows (rows : list nat) (df : DataFrame) :
  Forall (λ i, i < len df) rows →
  Forall2 (λ t i, index df !! i = Some t) (index (take_rows rows df)) rows.
Proof.
  unfold take_rows, len. simpl. induction 1 as [|i rows Hi _ IH]; [constructor|].
  cbn [omap list_omap].
  destruct (lookup_lt_is_Some_2 _ _ Hi) as [t Ht]. rewrite Ht.
  by constructor.
Qed.

Lemma assoc_take_rows (rows : list nat) (df : DataFrame) (c : string) :
  assoc c (columns (take_rows rows df))
  = (λ v : list float, (λ i, default NaN (v !! i)) <$> rows)
      <$> assoc c (columns df).
Proof. unfold take_rows. simpl. apply assoc_fmap_value. Qed.

Lemma take_rows_rectangular (rows : list nat) (df : DataFrame) :
  Forall (λ i, i < len df) rows → rectangular (take_rows rows df).
Proof.
  intros Hrows. pose proof (Forall2_length _ _ _ (index_take_rows _ _ Hrows)) as Hl.
  unfold rectangular, len. rewrite Hl. unfold take_rows. simpl.
  apply Forall_fmap, Forall_forall. intros [c v] _. simpl.
  by rewrite length_fmap.
Qed.

(** [dropna] leaves no missing cell. *)
Lemma dropna_complete (df : DataFrame) (c : string) (x : float) :
  x ∈ cells c (dropna df) → isna x = false.
Proof.
  unfold cells, dropna. rewrite assoc_take_rows.
  destruct (assoc c (columns df)) as [v|] eqn:Hv; simpl;
    [|by intros ?%elem_of_nil].
  intros (i & -> & Hi%elem_of_complete_rows)%list_elem_of_fmap.
  destruct Hi as (_ & Hrow).
  destruct (row_complete_cell _ _ _ _ Hrow Hv) as (y & -> & Hy). done.
Qed.

Lemma lookup_take_rows (rows : list nat) (df : DataFrame) (c : string)
    (v : list float) (j i : nat) (x : float) :
  assoc c (columns df) = Some v → rows !! j = Some i → v !! i = Some x →
  cells c (take_rows rows df) !! j = Some x.
Proof.
  intros Hv Hj Hx. unfold cells. rewrite assoc_take_rows, Hv. simpl.
  rewrite list_lookup_fmap, Hj. simpl. by rewrite Hx.
Qed.

Lemma fsub_notna (a b : float) :
  isna (fsub a b) = false → isna a = false ∧ isna b = false.
Proof. by destruct a, b. Qed.

Section AddFeaturesRows.
Context `{!Log} `{!HalfPower} `{!Calendar}.

Lemma new_names_NoDup (close high low : list float) :
  NoDup (new_columns close high low).*1.
Proof.
  rewrite new_names. apply (bool_decide_unpack _). by vm_compute.
Qed.

(** The columns of the frame before its incomplete rows are dropped. *)
Lemma full_new_column (idx : list Z) (cols : list (string * list float))
    (close high low : list float) (c : string) (v : list float) :
  (c, v) ∈ new_columns close high low →
  assoc c (columns (day_name_dummies
                      (mkDF idx (put_columns (new_columns close high low) cols))))
  = Some v.
Proof.
  intros Hin. unfold day_name_dummies. cbn [columns index].
  rewrite assoc_app, assoc_filter_notin.
  assert (c ∈ (new_columns close high low).*1) as Hc.
  { apply list_elem_of_fmap. by exists (c, v). }
  rewrite decide_False.
  - by rewrite (assoc_put_columns_in c v) by (apply new_names_NoDup || done).
  - intros ->%list_elem_of_singleton. revert Hc.
    change ("day_name" ∉ (new_columns close high low).*1). name_notin.
Qed.

Lemma full_old_column (idx : list Z) (cols : list (string * list float))
    (close high low : list float) (c : string) (v : list float) :
  c ∉ (new_columns close high low).*1 → c ≠ "day_name" →
  assoc c cols = Some v →
  assoc c (columns (day_name_dummies
                      (mkDF idx (put_columns (new_columns close high low) cols))))
  = Some v.
Proof.
  intros Hc Hne Hv. unfold day_name_dummies. cbn [columns index].
  rewrite assoc_app, assoc_filter_notin.
  rewrite decide_False by (by intros ?%list_elem_of_singleton).
  by rewrite assoc_put_columns_notin, Hv.
Qed.

Lemma lag_column_in (close high low : list float) (k : nat) :
  1 ≤ k ≤ 7 →
  ("log_ret_lag_" +:+ pretty k,
   col_sub (np_log <$> close) (np_log <$> shift_down k close))
  ∈ new_columns close high low.
Proof.
  intros Hk. unfold new_columns. apply elem_of_app. right.
  apply elem_of_app. left. unfold lag_columns.
  apply list_elem_of_fmap. exists k. split; [done|]. apply elem_of_seq. lia.
Qed.

Lemma sigma_column_in (close high low : list float) (k : nat) :
  1 ≤ k ≤ 7 →
  ("sigma_lag_" +:+ pretty k,
   pow_half
     <$> ((λ x, fdiv (fmul x x) (fmul (Fin 4) (np_log (Fin 2))))
            <$> (np_log <$> col_div (shift_down k high) (shift_down k low))))
  ∈ new_columns close high low.
Proof.
  intros Hk. unfold new_columns. do 3 (apply elem_of_app; right).
  unfold sigma_columns.
  apply list_elem_of_fmap. exists k. split; [done|]. apply elem_of_seq. lia.
Qed.

Lemma target_column_in (close high low : list float) (cv : string * list float) :
  cv ∈ target_columns close → cv ∈ new_columns close high low.
Proof. intros Hin. unfold new_columns. apply elem_of_app. by left. Qed.

(** A row that survives has a close, a next close and a close seven rows
    above. *)
Lemma complete_row_bounds (idx : list Z) (cols : list (string * list float))
    (close high low : list float) (i : nat) :
  np_log NaN = NaN →
  assoc "close" cols = Some close →
  row_complete (day_name_dummies
                  (mkDF idx (put_columns (new_columns close high low) cols))) i
  = true →
  ∃ c0 c1, close !! i = Some c0 ∧ close !! S i = Some c1
           ∧ isna c0 = false ∧ isna c1 = false ∧ 7 ≤ i.
Proof.
  intros Hlog Hclose Hrow.
  destruct (row_complete_cell _ i "close" close Hrow) as (c0 & Hc0 & N0).
  { apply full_old_column; [name_notin|done|done]. }
  destruct (row_complete_cell _ i "fwd_ret" (col_sub (shift_up close) close) Hrow)
    as (x & Hx & Nx).
  { apply full_new_column, target_column_in. unfold target_columns.
    apply elem_of_cons. right. apply elem_of_cons. by left. }
  unfold col_sub in Hx.
  apply lookup_zip_with_Some in Hx as (a & b & -> & Ha & Hb).
  rewrite shift_up_lookup in Ha by (by eapply lookup_lt_Some).
  injection Ha as <-. apply fsub_notna in Nx as (N1 & _).
  destruct (close !! S i) as [c1|] eqn:Hc1; [|done].
  destruct (row_complete_cell _ i ("log_ret_lag_" +:+ pretty 7)
              (col_sub (np_log <$> close) (np_log <$> shift_down 7 close)) Hrow)
    as (y & Hy & Ny).
  { apply full_new_column, lag_column_in. lia. }
  unfold col_sub in Hy.
  apply lookup_zip_with_Some in Hy as (a' & b' & -> & Ha' & Hb').
  exists c0, c1. split; [done|]. split; [done|]. split; [done|]. split; [done|].
  destruct (decide (7 ≤ i)) as [|Hlt]; [done|]. exfalso.
  rewrite list_lookup_fmap, shift_down_lookup_lt in Hb'
    by (first [lia | by eapply lookup_lt_Some]).
  simpl in Hb'. injection Hb' as <-. rewrite Hlog in Ny. by destruct a'.
Qed.

Lemma complete_rows_count (df : DataFrame) (n : nat) :
  Forall (λ i, 7 ≤ i ∧ S i < n) (complete_rows df) →
  len df = n → length (complete_rows df) ≤ n - 8.
Proof.
  intros Hall Hn. unfold complete_rows in *. rewrite Hn in *.
  destruct (decide (n < 8)) as [Hsmall|Hbig].
  - destruct (filter _ (seq 0 n)) as [|i l]; [simpl; lia|].
    apply Forall_cons in Hall as ((? & ?) & _). lia.
  - assert (seq 0 n = seq 0 7 ++ seq (0 + 7) (n - 8) ++ seq (0 + 7 + (n - 8)) 1)
      as Hseq.
    { replace n with (7 + ((n - 8) + 1)) at 1 by lia. by rewrite !seq_app. }
    rewrite Hseq, !filter_app in Hall |- *.
    assert (∀ l : list nat,
              Forall (λ i, ¬ (7 ≤ i ∧ S i < n)) l →
              Forall (λ i, 7 ≤ i ∧ S i < n)
                (filter (λ i, row_complete df i = true) l) →
              filter (λ i, row_complete df i = true) l = []) as Hnone.
    { intros l Hl Hf. destruct (filter _ l) as [|i l'] eqn:Hfl; [done|].
      assert (i ∈ filter (λ i, row_complete df i = true) l) as Hi
        by (rewrite Hfl; left).
      apply list_elem_of_filter in Hi as (_ & Hi).
      apply Forall_cons in Hf as (Hi' & _).
      eapply Forall_forall in Hl; [|exact Hi]. done. }
    apply Forall_app in Hall as (F1 & F2). apply Forall_app in F2 as (F2 & F3).
    rewrite (Hnone (seq 0 7));
      [|apply Forall_forall; intros i Hi%elem_of_seq; lia|exact F1].
    rewrite (Hnone (seq _ 1));
      [|apply Forall_forall; intros i Hi%elem_of_seq; lia|exact F3].
    rewrite app_nil_r. simpl. etrans; [apply length_filter|].
    rewrite length_seq. lia.
Qed.

(** X14.  [add_features] returns rows of its input, in their order and
    with their timestamps, and no row with a missing cell.  Never among
    them: the first seven rows, whose lagged returns reach above the
    frame, and the last row, which has no next close; so eight rows at
    least are lost, and a frame of eight rows or less comes back empty. *)
Theorem add_features_rows (df out : DataFrame) :
  np_log NaN = NaN →
  rectangular df →
  add_features df = Ok out →
  ∃ kept : list nat,
    StronglySorted lt kept
    ∧ Forall (λ i, 7 ≤ i ∧ S i < len df) kept
    ∧ Forall2 (λ t i, index df !! i = Some t) (index out) kept
    ∧ len out ≤ len df - 8
    ∧ rectangular out
    ∧ ∀ c x, x ∈ cells c out → isna x = false.
Proof.
  intros Hlog Hrect Hrun. unfold add_features in Hrun.
  apply bind_ok_inv in Hrun as (full & Hfull & [= <-]).
  apply add_features_columns_ok in Hfull
    as (close & high & low & Hclose & _ & _ & Lc & _ & _ & ->); [|done].
  apply attr_cells in Hclose as (_ & Hclose).
  set (full := day_name_dummies _).
  assert (Forall (λ i, i < len full) (complete_rows full)) as Hlt.
  { apply Forall_forall. by intros i (? & _)%elem_of_complete_rows. }
  assert (Forall (λ i, 7 ≤ i ∧ S i < len df) (complete_rows full)) as Hbounds.
  { apply Forall_forall. intros i (_ & Hrow)%elem_of_complete_rows.
    destruct (complete_row_bounds _ _ _ _ _ i Hlog Hclose Hrow)
      as (c0 & c1 & _ & Hc1 & _ & _ & Hi).
    apply lookup_lt_Some in Hc1. split; [done|]. lia. }
  exists (complete_rows full).
  split; [apply filter_sorted, seq_sorted|].
  split; [done|].
  split; [exact (index_take_rows _ _ Hlt)|].
  split.
  { unfold len at 1, dropna.
    rewrite (Forall2_length _ _ _ (index_take_rows _ _ Hlt)).
    by apply complete_rows_count. }
  split; [by apply take_rows_rectangular|].
  apply dropna_complete.
Qed.

End AddFeaturesRows.

Lemma zip_with_lookup {A B C} (f : A → B → C) (a : list A) (b : list B)
    (i : nat) (x : A) (y : B) :
  a !! i = Some x → b !! i = Some y → zip_with f a b !! i = Some (f x y).
Proof. intros Ha Hb. rewrite lookup_zip_with, Ha. simpl. by rewrite Hb. Qed.

Lemma fmap_lookup {A B} (f : A → B) (l : list A) (i : nat) (x : A) :
  l !! i = Some x → (f <$> l) !! i = Some (f x).
Proof. intros Hl. by rewrite list_lookup_fmap, Hl. Qed.

Lemma shift_up_next (v : list float) (i : nat) (x : float) :
  v !! S i = Some x → shift_up v !! i = Some x.
Proof.
  intros Hx. rewrite shift_up_lookup by (apply lookup_lt_Some in Hx; lia).
  by rewrite Hx.
Qed.

Lemma shift_down_prev (k i : nat) (v : list float) (x : float) :
  k ≤ i → i < length v → v !! (i - k) = Some x → shift_down k v !! i = Some x.
Proof. intros Hk Hi Hx. by rewrite shift_down_lookup_ge. Qed.

Section AddFeaturesValues.
Context `{!Log} `{!HalfPower} `{!Calendar}.

(** A row that survives has a close and a next close. *)
Lemma complete_row_next (idx : list Z) (cols : list (string * list float))
    (close high low : list float) (i : nat) :
  assoc "close" cols = Some close →
  row_complete (day_name_dummies
                  (mkDF idx (put_columns (new_columns close high low) cols))) i
  = true →
  ∃ c0 c1, close !! i = Some c0 ∧ close !! S i = Some c1
           ∧ isna c0 = false ∧ isna c1 = false.
Proof.
  intros Hclose Hrow.
  destruct (row_complete_cell _ i "close" close Hrow) as (c0 & Hc0 & N0).
  { apply full_old_column; [name_notin|done|done]. }
  destruct (row_complete_cell _ i "fwd_ret" (col_sub (shift_up close) close) Hrow)
    as (x & Hx & Nx).
  { apply full_new_column, target_column_in. unfold target_columns.
    apply elem_of_cons. right. apply elem_of_cons. by left. }
  unfold col_sub in Hx.
  apply lookup_zip_with_Some in Hx as (a & b & -> & Ha & Hb).
  rewrite shift_up_lookup in Ha by (by eapply lookup_lt_Some).
  injection Ha as <-. apply fsub_notna in Nx as (N1 & _).
  destruct (close !! S i) as [c1|] eqn:Hc1; [|done].
  by exists c0, c1.
Qed.

(** X15.  The targets that [add_features] gives a row look one row ahead
    in the input frame, whether that next row is kept or not: with [c0]
    the close of the row and [c1] the close of the row that follows it in
    the input, [fwd_ret] is [c1 - c0], [fwd_close_positive] is the truth
    of [fwd_ret > 0], [fwd_log_ret] is [log c1 - log c0] and [fwd_pct_chg]
    is [c1 / c0 - 1]. *)
Theorem add_features_targets (df out : DataFrame) :
  rectangular df →
  add_features df = Ok out →
  ∃ kept : list nat,
    Forall2 (λ t i, index df !! i = Some t) (index out) kept
    ∧ ∀ j i, kept !! j = Some i →
        ∃ c0 c1,
          cells "close" df !! i = Some c0 ∧ cells "close" df !! S i = Some c1
          ∧ isna c0 = false ∧ isna c1 = false
          ∧ cells "close" out !! j = Some c0
          ∧ cells "fwd_ret" out !! j = Some (fsub c1 c0)
          ∧ cells "fwd_close_positive" out !! j
            = Some (of_bool (fgt0 (fsub c1 c0)))
          ∧ cells "fwd_log_ret" out !! j = Some (fsub (np_log c1) (np_log c0))
          ∧ cells "fwd_pct_chg" out !! j = Some (fsub (fdiv c1 c0) (Fin 1)).
Proof.
  intros Hrect Hrun. unfold add_features in Hrun.
  apply bind_ok_inv in Hrun as (full & Hfull & [= <-]).
  apply add_features_columns_ok in Hfull
    as (close & high & low & Hclose & _ & _ & Lc & _ & _ & ->); [|done].
  apply attr_cells in Hclose as (Hcells & Hclose). rewrite Hcells.
  set (full := day_name_dummies _).
  exists (complete_rows full). split.
  { apply (index_take_rows (complete_rows full) full), Forall_forall.
    by intros i (? & _)%elem_of_complete_rows. }
  intros j i Hj.
  assert (i ∈ complete_rows full) as (_ & Hrow)%elem_of_complete_rows
    by (by eapply list_elem_of_lookup_2).
  destruct (complete_row_next _ _ _ _ _ i Hclose Hrow)
    as (c0 & c1 & Hc0 & Hc1 & N0 & N1).
  exists c0, c1. split; [done|]. split; [done|]. split; [done|]. split; [done|].
  pose proof (shift_up_next _ _ _ Hc1) as Hnext.
  unfold dropna.
  split.
  { eapply lookup_take_rows; [|exact Hj|exact Hc0].
    apply full_old_column; [name_notin|done|done]. }
  split.
  { eapply lookup_take_rows; [|exact Hj|].
    - apply full_new_column, target_column_in. unfold target_columns.
      apply elem_of_cons. right. apply elem_of_cons. by left.
    - by apply zip_with_lookup. }
  split.
  { eapply lookup_take_rows; [|exact Hj|].
    - apply full_new_column, target_column_in. unfold target_columns.
      do 3 (apply elem_of_cons; right). apply elem_of_cons. by left.
    - unfold gt0. apply (fmap_lookup (λ x, of_bool (fgt0 x))).
      by apply zip_with_lookup. }
  split.
  { eapply lookup_take_rows; [|exact Hj|].
    - apply full_new_column, target_column_in. unfold target_columns.
      apply elem_of_cons. by left.
    - apply zip_with_lookup; by apply fmap_lookup. }
  eapply lookup_take_rows; [|exact Hj|].
  - apply full_new_column, target_column_in. unfold target_columns.
    do 2 (apply elem_of_cons; right). apply elem_of_cons. by left.
  - apply shift_up_next. by apply pct_change_lookup.
Qed.

(** X16.  The features that [add_features] gives a row look back only,
    seven rows at most: with [c0] the close of the row, and [ck], [hk],
    [lk] the close, high and low of the row [k] rows above it in the input
    (which exists for [k] up to 7), [log_ret_lag_k] is [log c0 - log ck]
    and [sigma_lag_k] is [(log (hk / lk) ** 2 / (4 log 2)) ** 0.5];
    [pct_chg] is [c0 / c1 - 1] and [RR] is [2 (h1 - l1) / (h1 + l1)]. *)
Theorem add_features_features (df out : DataFrame) :
  np_log NaN = NaN →
  rectangular df →
  add_features df = Ok out →
  ∃ kept : list nat,
    Forall2 (λ t i, index df !! i = Some t) (index out) kept
    ∧ ∀ j i, kept !! j = Some i →
        7 ≤ i
        ∧ ∃ c0,
            cells "close" df !! i = Some c0
            ∧ (∀ k, 1 ≤ k ≤ 7 →
                 ∃ ck hk lk,
                   cells "close" df !! (i - k) = Some ck
                   ∧ cells "high" df !! (i - k) = Some hk
                   ∧ cells "low" df !! (i - k) = Some lk
                   ∧ cells ("log_ret_lag_" +:+ pretty k) out !! j
                     = Some (fsub (np_log c0) (np_log ck))
                   ∧ cells ("sigma_lag_" +:+ pretty k) out !! j
                     = Some (pow_half
                               (fdiv (fmul (np_log (fdiv hk lk))
                                        (np_log (fdiv hk lk)))
                                  (fmul (Fin 4) (np_log (Fin 2))))))
            ∧ ∃ c1 h1 l1,
                cells "close" df !! (i - 1) = Some c1
                ∧ cells "high" df !! (i - 1) = Some h1
                ∧ cells "low" df !! (i - 1) = Some l1
                ∧ cells "pct_chg" out !! j = Some (fsub (fdiv c0 c1) (Fin 1))
                ∧ cells "RR" out !! j
                  = Some (fdiv (fmul (Fin 2) (fsub h1 l1)) (fadd h1 l1)).
Proof.
  intros Hlog Hrect Hrun. unfold add_features in Hrun.
  apply bind_ok_inv in Hrun as (full & Hfull & [= <-]).
  apply add_features_columns_ok in Hfull
    as (close & high & low & Hclose & Hhigh & Hlow & Lc & Lh & Ll & ->); [|done].
  apply attr_cells in Hclose as (Hcc & Hclose). rewrite Hcc.
  apply attr_cells in Hhigh as (Hch & _). rewrite Hch.
  apply attr_cells in Hlow as (Hcl & _). rewrite Hcl.
  set (full := day_name_dummies _).
  exists (complete_rows full). split.
  { apply (index_take_rows (complete_rows full) full), Forall_forall.
    by intros i (? & _)%elem_of_complete_rows. }
  intros j i Hj.
  assert (i ∈ complete_rows full) as (Hi & Hrow)%elem_of_complete_rows
    by (by eapply list_elem_of_lookup_2).
  change (len full) with (len df) in Hi.
  destruct (complete_row_bounds _ _ _ _ _ i Hlog Hclose Hrow)
    as (c0 & _ & Hc0 & _ & N0 & _ & Hi7).
  split; [done|]. exists c0. split; [done|].
  assert (∀ k, 1 ≤ k ≤ 7 →
            ∃ ck hk lk, close !! (i - k) = Some ck ∧ high !! (i - k) = Some hk
                        ∧ low !! (i - k) = Some lk) as Hrows.
  { intros k Hk.
    destruct (lookup_lt_is_Some_2 close (i - k)) as [ck Hck]; [lia|].
    destruct (lookup_lt_is_Some_2 high (i - k)) as [hk Hhk]; [lia|].
    destruct (lookup_lt_is_Some_2 low (i - k)) as [lk Hlk]; [lia|].
    by exists ck, hk, lk. }
  unfold dropna. split.
  - intros k Hk. destruct (Hrows k Hk) as (ck & hk & lk & Hck & Hhk & Hlk).
    exists ck, hk, lk. split; [done|]. split; [done|]. split; [done|].
    split.
    + eapply lookup_take_rows; [|exact Hj|].
      * by apply full_new_column, lag_column_in.
      * apply zip_with_lookup; apply fmap_lookup; [done|].
        apply shift_down_prev; [lia|lia|done].
    + eapply lookup_take_rows; [|exact Hj|].
      * by apply full_new_column, sigma_column_in.
      * apply (fmap_lookup pow_half).
        apply (fmap_lookup (λ x, fdiv (fmul x x) (fmul (Fin 4) (np_log (Fin 2))))).
        apply (fmap_lookup np_log).
        apply zip_with_lookup; (apply shift_down_prev; [lia|lia|done]).
  - destruct (Hrows 1) as (c1 & h1 & l1 & Hc1 & Hh1 & Hl1); [lia|].
    exists c1, h1, l1. split; [done|]. split; [done|]. split; [done|].
    split.
    + eapply lookup_take_rows; [|exact Hj|].
      * apply full_new_column, target_column_in. unfold target_columns.
        do 4 (apply elem_of_cons; right). apply elem_of_cons. by left.
      * assert (isna c1 = false) as N1.
        { destruct (row_complete_cell _ i ("log_ret_lag_" +:+ pretty 1)
                      (col_sub (np_log <$> close) (np_log <$> shift_down 1 close))
                      Hrow) as (y & Hy & Ny).
          { apply full_new_column, lag_column_in. lia. }
          unfold col_sub in Hy.
          apply lookup_zip_with_Some in Hy as (a & b & -> & Ha & Hb).
          rewrite (fmap_lookup np_log _ _ c1) in Hb
            by (apply shift_down_prev; [lia|lia|done]).
          injection Hb as <-. apply fsub_notna in Ny as (_ & Ny).
          destruct c1; try done. by rewrite Hlog in Ny. }
        replace i with (S (i - 1)) at 1 by lia.
        apply pct_change_lookup; [done| |done|done].
        by replace (S (i - 1)) with i by lia.
    + eapply lookup_take_rows; [|exact Hj|].
      * apply full_new_column. unfold new_columns.
        do 2 (apply elem_of_app; right). apply elem_of_app. left.
        apply list_elem_of_singleton. reflexivity.
      * unfold RR_column.
        apply zip_with_lookup.
        -- apply (fmap_lookup (fmul (Fin 2))).
           apply zip_with_lookup; (apply shift_down_prev; [lia|lia|done]).
        -- apply zip_with_lookup; (apply shift_down_prev; [lia|lia|done]).
Qed.

End AddFeaturesValues.

(** * Examples *)

Section Examples.
#[local] Existing Instance sqrt_exact.
#[local] Existing Instance std_exact.
#[local] Existing Instance dummy_estimator.
#[local] Existing Instance last_value_arima.

Lemma sample_chronological :
  StronglySorted Z.lt (index btc_train ++ index btc_validate).
Proof. vm_compute. repeat (constructor; try lia). Qed.

Lemma is_ok_inv {A} (r : result A) : is_ok r = true → ∃ a, r = Ok a.
Proof. destruct r as [a|e]; [by exists a | done]. Qed.

Lemma dummy_fit_keeps_name (m m' : Dummy) (X : DataFrame) (y : list float) :
  fit m X y = Ok m' → model_name m' = model_name m.
Proof.
  cbn [fit model_name dummy_estimator]. unfold dummy_fit.
  destruct (decide (len X = 0)); [done|].
  destruct (dummy_strategy m); [|destruct (mode0 y)]; simpl; try done;
    by intros [= <-].
Qed.

(** ** Scaling *)

(** The RR column of BTC has mean 2 and deviation 1 in Train; Validate is
    scaled with these, and the other column is left alone. *)
Lemma scale_datasets_train_statistics_witness :
  ∃ out sc,
    scale_datasets_run btc_train btc_validate btc_test "fwd_log_ret"
      sample_features_to_use sample_features_to_scale = Ok (out, sc)
    ∧ (∃ trs, mapM (λ c, col c btc_train) sample_features_to_scale = Ok trs
              ∧ sc = Some (mkScaler (nanmean <$> trs) (std <$> trs)))
    ∧ col "pct_chg" (X_validate_scaled out) = col "pct_chg" btc_validate.
Proof.
  assert (∃ out sc,
            scale_datasets_run btc_train btc_validate btc_test "fwd_log_ret"
              sample_features_to_use sample_features_to_scale = Ok (out, sc))
    as (out & sc & Hrun) by (eexists _, _; vm_compute; reflexivity).
  exists out, sc. split; [exact Hrun|].
  destruct (scale_datasets_train_statistics _ _ _ _ _ _ _ _ Hrun)
    as (Hsc & _ & Hkept).
  split; [exact Hsc|].
  apply (Hkept "pct_chg").
  - constructor.
  - apply not_elem_of_cons. split; [discriminate | apply not_elem_of_nil].
Defined.

(** ** The rolling window *)

(** The second pass over BTC fits on days 2 to 5 and predicts day 6. *)
Lemma rolling_no_look_ahead_witness :
  StronglySorted Z.lt (index btc_train ++ index btc_validate)
  ∧ index btc_validate !! 1 = Some 6%Z
  ∧ ∃ st,
      rolling_state btc_train btc_validate btc_test mean_regressor "fwd_log_ret"
        sample_features_to_use sample_features_to_scale true 1 = Ok st
      ∧ index (X_train_scaled_featured_rolled st) = [2; 3; 4; 5]%Z
      ∧ Forall (λ t', (t' < 6)%Z) (index (X_train_scaled_featured_rolled st))
      ∧ Forall (λ t', (t' < 6)%Z) (index (y_train_rolled st)).
Proof.
  split; [exact sample_chronological|]. split; [reflexivity|].
  eexists. split; [vm_compute; reflexivity|]. split; [reflexivity|].
  apply (rolling_no_look_ahead btc_train btc_validate btc_test mean_regressor
           "fwd_log_ret" sample_features_to_use sample_features_to_scale true 1).
  - exact sample_chronological.
  - reflexivity.
  - vm_compute; reflexivity.
Defined.

(** After one pass over BTC the window still has the four rows of Train,
    and so it has after the next one. *)
Lemma rolling_window_fixed_length_witness :
  ∃ st0 Xv yv st st',
    rolling_init btc_train btc_validate btc_test mean_regressor "fwd_log_ret"
      sample_features_to_use sample_features_to_scale true = Ok (st0, Xv, yv)
    ∧ for_each (rolling_step "fwd_log_ret" Xv yv) (seq 0 1) st0 = Ok st
    ∧ rolling_step "fwd_log_ret" Xv yv st 1 = Ok st'
    ∧ len (X_train_scaled_featured_rolled st) = 4
    ∧ len (y_train_rolled st) = 4
    ∧ len (X_train_scaled_featured_rolled st') = 4
    ∧ len (y_train_rolled st') = 4.
Proof.
  assert (∃ st0 Xv yv,
            rolling_init btc_train btc_validate btc_test mean_regressor
              "fwd_log_ret" sample_features_to_use sample_features_to_scale true
            = Ok (st0, Xv, yv))
    as (st0 & Xv & yv & Hinit) by (eexists _, _, _; vm_compute; reflexivity).
  assert (∃ st, for_each (rolling_step "fwd_log_ret" Xv yv) (seq 0 1) st0 = Ok st)
    as (st & Hst).
  { vm_compute in Hinit. injection Hinit as <- <- <-.
    eexists; vm_compute; reflexivity. }
  assert (∃ st', rolling_step "fwd_log_ret" Xv yv st 1 = Ok st') as (st' & Hst').
  { vm_compute in Hinit. injection Hinit as <- <- <-.
    vm_compute in Hst. injection Hst as <-.
    eexists; vm_compute; reflexivity. }
  exists st0, Xv, yv, st, st'.
  destruct (rolling_window_fixed_length _ _ _ _ _ _ _ _ _ _ _ _ _ Hinit Hst)
    as ((HX & Hy) & Hnext).
  destruct (Hnext st' Hst')
    as (x_row & t & v & y & _ & _ & _ & _ & _ & _ & _ & HX' & Hy').
  split; [exact Hinit|]. split; [exact Hst|]. split; [exact Hst'|].
  split; [exact HX|]. split; [exact Hy|]. split; [exact HX' | exact Hy'].
Defined.

(** ** Trade returns *)

(** A Validate day that closes at 100 before a day that closes at 105,
    with a prediction of 0.02: long, 5 and 0.05. *)
Lemma trade_conversion_rows_witness :
  ∃ run validate_res,
    get_rolling_predictions demo_train demo_validate demo_test mean_regressor
      "fwd_log_ret" sample_features_to_use sample_features_to_scale true = Ok run
    ∧ validate_res_of demo_validate (validate_rolling_actuals run)
        (validate_rolling_predictions run) = Ok validate_res
    ∧ cells "predictions" validate_res !! 0 = Some (Fin (400 # 20000))
    ∧ cells "close" validate_res !! 0 = Some (Fin 100)
    ∧ cells "next_day_close" validate_res !! 0 = Some (Fin 105)
    ∧ cells "go_long" validate_res !! 0 = Some (Fin 1)
    ∧ cells "ret" validate_res !! 0 = Some (fsub (Fin 105) (Fin 100))
    ∧ cells "pct_ret" validate_res !! 0
      = Some (fdiv (fsub (Fin 105) (Fin 100)) (Fin 100))
    ∧ feq (fsub (Fin 105) (Fin 100)) (Fin 5)
    ∧ feq (fdiv (fsub (Fin 105) (Fin 100)) (Fin 100)) (Fin 0.05).
Proof.
  eexists _, _.
  split; [vm_compute; reflexivity|]. split; [vm_compute; reflexivity|].
  split; [reflexivity|]. split; [reflexivity|]. split; [reflexivity|].
  opose proof*
    (trade_conversion_rows demo_train demo_validate demo_test mean_regressor
       "fwd_log_ret" sample_features_to_use sample_features_to_scale true
       _ _ 0 (Fin (400 # 20000)) (Fin 100) (Fin 105))
    as Hrow.
  - vm_compute; reflexivity.
  - vm_compute; reflexivity.
  - reflexivity.
  - reflexivity.
  - reflexivity.
  - destruct Hrow as (Hlong & _ & Hret & Hpct & Hexample & _).
    split; [exact Hlong|]. split; [exact Hret|]. split; [exact Hpct|].
    destruct Hexample as (_ & H5 & H005); [reflexivity..|].
    split; [exact H5 | exact H005].
Defined.

(** ** The aggregated numbers *)

(** One regression pass and one classification pass over BTC, each into an
    empty dictionary. *)
Lemma rolling_run_aggregates_witness :
  ({[0 := ∅]} : Store) !! 0 = Some (∅ : Dict)
  ∧ (∃ ms' h' rmses validate_rmse vr,
       rolling_reg_model btc_train btc_validate btc_test "fwd_log_ret"
         sample_features_to_use sample_features_to_scale 0
         ([mean_regressor], {[0 := ∅]}) 0 = Ok (ms', h')
       ∧ length rmses = 2
       ∧ h' !! 0
         = Some (<["DummyRegressor_train_rmse" := Number (np_mean rmses)]>
                   (<["DummyRegressor_validate_rmse" := Number validate_rmse]>
                      (<["DummyRegressor" := Table vr]> ∅))))
  ∧ (∃ ms' h' validate_accuracy vr baseline,
       rolling_class_model btc_train btc_validate btc_test "fwd_close_positive"
         sample_features_to_use sample_features_to_scale 0
         ([majority_classifier], {[0 := ∅]}) 0 = Ok (ms', h')
       ∧ h' !! 0
         = Some (<["baseline" := Table baseline]>
                   (<["DummyClassifier_accuracy" := Number validate_accuracy]>
                      (<["DummyClassifier" := Table vr]> ∅)))).
Proof.
  split; [apply lookup_singleton_eq|]. split.
  - destruct (is_ok_inv
                (rolling_reg_model btc_train btc_validate btc_test "fwd_log_ret"
                   sample_features_to_use sample_features_to_scale 0
                   ([mean_regressor], {[0 := ∅]}) 0))
      as ([ms' h'] & Hpass); [vm_compute; reflexivity|].
    destruct (rolling_run_aggregates btc_train btc_validate btc_test "fwd_log_ret"
                sample_features_to_use sample_features_to_scale 0
                [mean_regressor] {[0 := ∅]} ∅ 0 (lookup_singleton_eq _ _))
      as (Hreg & _).
    destruct (Hreg ms' h' Hpass)
      as (m & run & rmses & predictions & validate_rmse & vr & [= <-] & _
          & Hlen & _ & _ & _ & _ & _ & _ & _ & _ & _ & Hdict).
    exists ms', h', rmses, validate_rmse, vr.
    split; [exact Hpass|]. split; [exact Hlen | exact Hdict].
  - destruct (is_ok_inv
                (rolling_class_model btc_train btc_validate btc_test
                   "fwd_close_positive" sample_features_to_use
                   sample_features_to_scale 0
                   ([majority_classifier], {[0 := ∅]}) 0))
      as ([ms' h'] & Hpass); [vm_compute; reflexivity|].
    destruct (rolling_run_aggregates btc_train btc_validate btc_test
                "fwd_close_positive" sample_features_to_use
                sample_features_to_scale 0
                [majority_classifier] {[0 := ∅]} ∅ 0 (lookup_singleton_eq _ _))
      as (_ & Hclass).
    destruct (Hclass ms' h' Hpass)
      as (m & run & predictions & validate_accuracy & vr & baseline & [= <-] & _
          & _ & _ & _ & _ & _ & _ & _ & Hdict).
    exists ms', h', validate_accuracy, vr, baseline.
    split; [exact Hpass | exact Hdict].
Defined.

(** The regression run over BTC refits twice, once per Validate row, on
    windows of the four rows of Train; the classification pass leaves three
    entries in the dictionary, and no in-sample number among them. *)
Lemma rolling_refits_counterexample :
  (∃ run,
     get_rolling_predictions btc_train btc_validate btc_test mean_regressor
       "fwd_log_ret" sample_features_to_use sample_features_to_scale true = Ok run
     ∧ length (train_rolling_predictions run) = 2
     ∧ length (train_rolling_actuals run) = 2
     ∧ len btc_train = 4
     ∧ length (train_rolling_predictions run) ≠ len btc_train)
  ∧ (∃ ms' h' d,
       rolling_class_model btc_train btc_validate btc_test "fwd_close_positive"
         sample_features_to_use sample_features_to_scale 0
         ([majority_classifier], {[0 := ∅]}) 0 = Ok (ms', h')
       ∧ h' !! 0 = Some d
       ∧ (map_to_list d).*1
         = ["baseline"; "DummyClassifier_accuracy"; "DummyClassifier"]).
Proof.
  split.
  - eexists. split; [vm_compute; reflexivity|].
    split; [reflexivity|]. split; [reflexivity|]. split; [reflexivity|].
    vm_compute. discriminate.
  - assert ((r ← rolling_class_model btc_train btc_validate btc_test
                   "fwd_close_positive" sample_features_to_use
                   sample_features_to_scale 0
                   ([majority_classifier], {[0 := ∅]}) 0;
             d ← of_option KeyError (r.2 !! 0);
             mret (map_to_list d).*1)
            = Ok ["baseline"; "DummyClassifier_accuracy"; "DummyClassifier"])
      as Hrun by (vm_compute; reflexivity).
    apply bind_ok_inv in Hrun as ([ms' h'] & Hpass & Hrun).
    apply bind_ok_inv in Hrun as (d & Hd%of_option_ok_inv & [= Hkeys]).
    exists ms', h', d. split; [exact Hpass|]. split; [exact Hd | exact Hkeys].
Qed.

(** ** The majority-class baseline *)

Lemma baseline_trade_returns_witness :
  ({[0 := ∅]} : Store) !! 0 = Some (∅ : Dict)
  ∧ length (cells "close" btc_validate) = len btc_validate
  ∧ Forall (λ x, isfin x = true) (cells "close" btc_validate)
  ∧ ∃ ms' h' d' baseline,
      rolling_class_model btc_train btc_validate btc_test "fwd_close_positive"
        sample_features_to_use sample_features_to_scale 0
        ([majority_classifier], {[0 := ∅]}) 0 = Ok (ms', h')
      ∧ h' !! 0 = Some d' ∧ d' !! "baseline" = Some (Table baseline)
      ∧ cells "predictions" baseline = [Fin 1; Fin 1]
      ∧ length (cells "ret" baseline) = 2
      ∧ (∃ x, cells "ret" baseline !! 0 = Some x ∧ isna x = false)
      ∧ cells "ret" baseline !! 1 = Some NaN.
Proof.
  assert (Forall (λ x, isfin x = true) (cells "close" btc_validate)) as Hfin
    by (vm_compute; repeat constructor).
  split; [apply lookup_singleton_eq|]. split; [reflexivity|].
  split; [exact Hfin|].
  destruct (is_ok_inv
              (rolling_class_model btc_train btc_validate btc_test
                 "fwd_close_positive" sample_features_to_use
                 sample_features_to_scale 0
                 ([majority_classifier], {[0 := ∅]}) 0))
    as ([ms' h'] & Hpass); [vm_compute; reflexivity|].
  destruct (baseline_trade_returns btc_train btc_validate btc_test
              "fwd_close_positive" sample_features_to_use
              sample_features_to_scale 0 [majority_classifier] ms'
              {[0 := ∅]} h' ∅ 0 (lookup_singleton_eq _ _) Hpass eq_refl Hfin)
    as (d' & baseline & labels & majority & Hd' & Hbase & Hlabels & Hmode
        & _ & _ & Hpred & _ & Hlen & Hnotna & Hlast).
  exists ms', h', d', baseline.
  split; [exact Hpass|]. split; [exact Hd'|]. split; [exact Hbase|].
  split.
  { rewrite Hpred. vm_compute in Hlabels. injection Hlabels as <-.
    vm_compute in Hmode. injection Hmode as <-. reflexivity. }
  split; [exact Hlen|]. split; [apply Hnotna; vm_compute; lia | exact Hlast].
Defined.

(** The last entry of the baseline's trade returns over BTC is null. *)
Lemma baseline_last_return_counterexample :
  ∃ ms' h' d' baseline,
    rolling_class_model btc_train btc_validate btc_test "fwd_close_positive"
      sample_features_to_use sample_features_to_scale 0
      ([majority_classifier], {[0 := ∅]}) 0 = Ok (ms', h')
    ∧ h' !! 0 = Some d' ∧ d' !! "baseline" = Some (Table baseline)
    ∧ len baseline = len btc_validate
    ∧ cells "ret" baseline = [Fin (-5); NaN]
    ∧ NaN ∈ cells "ret" baseline.
Proof.
  assert ((r ← rolling_class_model btc_train btc_validate btc_test
                 "fwd_close_positive" sample_features_to_use
                 sample_features_to_scale 0
                 ([majority_classifier], {[0 := ∅]}) 0;
           d ← of_option KeyError (r.2 !! 0);
           of_option KeyError (d !! "baseline"))
          = Ok (Table (mkDF [5; 6]%Z
                         [("close", [Fin 105; Fin 100]);
                          ("next_day_close", [Fin 100; NaN]);
                          ("predictions", [Fin 1; Fin 1]);
                          ("go_long", [Fin 1; Fin 1]);
                          ("ret", [Fin (-5); NaN])])))
    as Hrun by (vm_compute; reflexivity).
  apply bind_ok_inv in Hrun as ([ms' h'] & Hpass & Hrun).
  apply bind_ok_inv in Hrun as (d & Hd%of_option_ok_inv & Hb%of_option_ok_inv).
  eexists ms', h', d, _.
  split; [exact Hpass|]. split; [exact Hd|]. split; [exact Hb|].
  split; [reflexivity|]. split; [reflexivity|]. repeat constructor.
Qed.

(** ** The shared dictionary *)

Lemma rolling_class_models_shared_dictionary_witness :
  ∃ mapping store,
    rolling_class_models sample_split [majority_classifier] "fwd_close_positive"
      sample_features_to_use sample_features_to_scale = Ok (mapping, store)
    ∧ mapping !! "BTC_USD" = Some 0 ∧ mapping !! "ETH_USD" = Some 0
    ∧ ∃ ms ms',
        model_name <$> ms = ["DummyClassifier"]
        ∧ for_each (rolling_class_model eth_train eth_validate eth_test
                      "fwd_close_positive" sample_features_to_use
                      sample_features_to_scale 0)
            (seq 0 (length ms)) (ms, {[0 := ∅]}) = Ok (ms', store).
Proof.
  destruct (is_ok_inv
              (rolling_class_models sample_split [majority_classifier]
                 "fwd_close_positive" sample_features_to_use
                 sample_features_to_scale))
    as ([mapping store] & Hrun); [vm_compute; reflexivity|].
  exists mapping, store. split; [exact Hrun|].
  destruct (rolling_class_models_shared_dictionary dummy_fit_keeps_name
              _ _ _ _ _ _ _ Hrun) as (Hkeys & _ & Hlast).
  split; [apply Hkeys; repeat constructor|].
  split; [apply Hkeys; repeat constructor|].
  apply (Hlast [("BTC_USD", (btc_train, btc_validate, btc_test))] "ETH_USD").
  reflexivity.
Defined.

(** After BTC and ETH the dictionary is the one that ETH alone leaves; the
    accuracy 0 that the pass over BTC writes is not in it. *)
Lemma shared_dictionary_overwritten_counterexample :
  (∃ mapping store mapping_eth,
     rolling_class_models sample_split [majority_classifier] "fwd_close_positive"
       sample_features_to_use sample_features_to_scale = Ok (mapping, store)
     ∧ rolling_class_models [("ETH_USD", (eth_train, eth_validate, eth_test))]
         [majority_classifier] "fwd_close_positive"
         sample_features_to_use sample_features_to_scale = Ok (mapping_eth, store)
     ∧ store !! 0 ≫= (.!! "DummyClassifier_accuracy") = Some (Number (Fin (2 # 2))))
  ∧ (∃ mapping_btc store_btc,
       rolling_class_models [("BTC_USD", (btc_train, btc_validate, btc_test))]
         [majority_classifier] "fwd_close_positive"
         sample_features_to_use sample_features_to_scale
       = Ok (mapping_btc, store_btc)
       ∧ store_btc !! 0 ≫= (.!! "DummyClassifier_accuracy")
         = Some (Number (Fin (0 # 2)))).
Proof.
  split.
  - destruct (is_ok_inv
                (rolling_class_models sample_split [majority_classifier]
                   "fwd_close_positive" sample_features_to_use
                   sample_features_to_scale))
      as ([mapping store] & Hall); [vm_compute; reflexivity|].
    destruct (is_ok_inv
                (rolling_class_models
                   [("ETH_USD", (eth_train, eth_validate, eth_test))]
                   [majority_classifier] "fwd_close_positive"
                   sample_features_to_use sample_features_to_scale))
      as ([mapping_eth store_eth] & Heth); [vm_compute; reflexivity|].
    assert (snd <$> rolling_class_models sample_split [majority_classifier]
                      "fwd_close_positive" sample_features_to_use
                      sample_features_to_scale
            = snd <$> rolling_class_models
                        [("ETH_USD", (eth_train, eth_validate, eth_test))]
                        [majority_classifier] "fwd_close_positive"
                        sample_features_to_use sample_features_to_scale)
      as Hsame by (vm_compute; reflexivity).
    assert ((r ← rolling_class_models sample_split [majority_classifier]
                   "fwd_close_positive" sample_features_to_use
                   sample_features_to_scale;
             of_option KeyError (r.2 !! 0 ≫= (.!! "DummyClassifier_accuracy")))
            = Ok (Number (Fin (2 # 2))))
      as Hrun by (vm_compute; reflexivity).
    rewrite Hall in Hrun. rewrite Hall, Heth in Hsame.
    injection Hsame as <-.
    apply of_option_ok_inv in Hrun. exists mapping, store, mapping_eth.
    split; [exact Hall|]. split; [exact Heth | exact Hrun].
  - assert ((r ← rolling_class_models
                   [("BTC_USD", (btc_train, btc_validate, btc_test))]
                   [majority_classifier] "fwd_close_positive"
                   sample_features_to_use sample_features_to_scale;
             of_option KeyError (r.2 !! 0 ≫= (.!! "DummyClassifier_accuracy")))
            = Ok (Number (Fin (0 # 2))))
      as Hrun by (vm_compute; reflexivity).
    apply bind_ok_inv in Hrun as ([mapping_btc store_btc] & Hbtc & Hrun).
    apply of_option_ok_inv in Hrun. exists mapping_btc, store_btc.
    split; [exact Hbtc | exact Hrun].
Qed.

(** ** The grid search *)

(** Over BTC the orders with five moving-average terms fail, and the
    search raises; an interrupt in an order is raised as it is. *)
Lemma evaluate_models_failure_policy_witness :
  evaluate_arima_model btc_train btc_validate "fwd_log_ret" (0, 0, 5)
  = Raise ValueError
  ∧ (∃ st, sweep btc_train btc_validate "fwd_log_ret" [0; 1] [0] [0; 5] = Ok st
           ∧ orders st = [(0, 0, 0); (0, 0, 5); (1, 0, 0); (1, 0, 5)]
           ∧ reported st = [(0, 0, 5); (1, 0, 5)]
           ∧ length (mses st) = 2)
  ∧ evaluate_models btc_train btc_validate "fwd_log_ret" [0; 1] [0] [0; 5]
    = Raise ValueError
  ∧ evaluate_arima_model btc_train btc_validate "fwd_log_ret" (0, 9, 0)
    = Raise KeyboardInterrupt
  ∧ evaluate_models btc_train btc_validate "fwd_log_ret" [0; 1] [0; 9] [0; 1]
    = Raise KeyboardInterrupt.
Proof.
  split; [reflexivity|].
  destruct (evaluate_models_failure_policy btc_train btc_validate "fwd_log_ret"
              [0; 1] [0] [0; 5]) as (_ & Hskip).
  destruct Hskip as ((st & Hsweep & Horders & Hreported & Hmses) & Hraise).
  { intros o Hin. vm_compute in Hin.
    repeat (apply elem_of_cons in Hin as [->|Hin]); [discriminate..|].
    by apply elem_of_nil in Hin. }
  split.
  { exists st. split; [exact Hsweep|]. split; [exact Horders|].
    split; [exact Hreported | exact Hmses]. }
  split.
  { apply (Hraise (0, 0, 5)); [|reflexivity].
    vm_compute. repeat constructor. }
  split; [reflexivity|].
  destruct (evaluate_models_failure_policy btc_train btc_validate "fwd_log_ret"
              [0; 1] [0; 9] [0; 1]) as (Hinterrupt & _).
  apply (Hinterrupt (0, 9, 0)); [|reflexivity].
  vm_compute. repeat constructor.
Defined.

(** ** The leaderboard *)

Lemma leaderboard_dropoff_witness :
  ∃ reg_v class_v leaderboard,
    conventional_split sample_split [mean_regressor] [majority_classifier]
      sample_features_to_use sample_features_to_scale
    = Ok (reg_v, class_v, leaderboard)
    ∧ (∀ r, r ∈ leaderboard →
         isna (train_rmse r) = true ∨ isna (train_accuracy r) = true)
    ∧ ∃ r, r ∈ leaderboard ∧ label r = "baseline_reg_BTC_USD"
           ∧ isna (train_rmse r) = true ∧ isna (train_accuracy r) = true
           ∧ isna (dropoff r) = true.
Proof.
  destruct (is_ok_inv
              (conventional_split sample_split [mean_regressor]
                 [majority_classifier] sample_features_to_use
                 sample_features_to_scale))
    as ([[reg_v class_v] leaderboard] & Hrun); [vm_compute; reflexivity|].
  exists reg_v, class_v, leaderboard. split; [exact Hrun|].
  destruct (leaderboard_dropoff _ _ _ _ _ _ _ _ Hrun) as (Hrows & Hbaseline).
  split; [intros r Hr; apply (Hrows r Hr)|].
  apply (Hbaseline "BTC_USD"). repeat constructor.
Defined.

(** The first row of the sample leaderboard is the regression baseline of
    BTC: it has no training RMSE and no training accuracy. *)
Lemma leaderboard_baseline_reg_counterexample :
  ∃ reg_v class_v leaderboard r,
    conventional_split sample_split [mean_regressor] [majority_classifier]
      sample_features_to_use sample_features_to_scale
    = Ok (reg_v, class_v, leaderboard)
    ∧ leaderboard !! 0 = Some r
    ∧ label r = "baseline_reg_BTC_USD"
    ∧ train_rmse r = NaN ∧ train_accuracy r = NaN
    ∧ ¬ (isna (train_rmse r) = false ∨ isna (train_accuracy r) = false).
Proof.
  assert ((t ← conventional_split sample_split [mean_regressor]
                 [majority_classifier] sample_features_to_use
                 sample_features_to_scale;
           of_option IndexError (t.2 !! 0))
          = Ok (mkRow "baseline_reg_BTC_USD" (Fin (5 # 2)) (Fin (550 # 21000))
                  NaN NaN NaN NaN NaN))
    as Hrun by (vm_compute; reflexivity).
  apply bind_ok_inv in Hrun as ([[reg_v class_v] leaderboard] & Hrun & Hrow).
  apply of_option_ok_inv in Hrow.
  eexists reg_v, class_v, leaderboard, _.
  split; [exact Hrun|]. split; [exact Hrow|].
  split; [reflexivity|]. split; [reflexivity|]. split; [reflexivity|].
  by intros [|].
Qed.

(** C8 (code bug).  The leaderboard that [conventional_split] returns for
    the two sample assets is not in descending order of percent average
    trade return: it is the table of BTC followed by the table of ETH, and
    the rows of ETH, which all have the higher return, come last.  Sorting
    it by return and dropoff gives another table. *)
Theorem conventional_split_leaderboard_unsorted :
  ∃ reg_v class_v leaderboard,
    conventional_split sample_split [mean_regressor] [majority_classifier]
      sample_features_to_use sample_features_to_scale
    = Ok (reg_v, class_v, leaderboard)
    ∧ label <$> leaderboard
      = ["baseline_reg_BTC_USD"; "baseline_class_BTC_USD";
         "DummyRegressor_BTC_USD"; "DummyClassifier_BTC_USD";
         "DummyRegressor_ETH_USD"; "baseline_reg_ETH_USD";
         "DummyClassifier_ETH_USD"; "baseline_class_ETH_USD"]
    ∧ pct_avg_trade <$> leaderboard
      = [Fin (550 # 21000); Fin (550 # 21000); Fin (-5 # 105); Fin (-5 # 105);
         Fin (160 # 160); Fin (2 # 2); Fin (160 # 160); Fin (2 # 2)]
    ∧ is_sorted_by pct_dropoff_before leaderboard = false
    ∧ leaderboard ≠ sort_values_pct_dropoff leaderboard.
Proof.
  assert ((t ← conventional_split sample_split [mean_regressor]
                 [majority_classifier] sample_features_to_use
                 sample_features_to_scale;
           mret (label <$> t.2, pct_avg_trade <$> t.2,
                 is_sorted_by pct_dropoff_before t.2,
                 label <$> sort_values_pct_dropoff t.2))
          = Ok (["baseline_reg_BTC_USD"; "baseline_class_BTC_USD";
                 "DummyRegressor_BTC_USD"; "DummyClassifier_BTC_USD";
                 "DummyRegressor_ETH_USD"; "baseline_reg_ETH_USD";
                 "DummyClassifier_ETH_USD"; "baseline_class_ETH_USD"],
                [Fin (550 # 21000); Fin (550 # 21000); Fin (-5 # 105);
                 Fin (-5 # 105); Fin (160 # 160); Fin (2 # 2); Fin (160 # 160);
                 Fin (2 # 2)],
                false,
                ["DummyClassifier_ETH_USD"; "baseline_class_ETH_USD";
                 "DummyRegressor_ETH_USD"; "baseline_reg_ETH_USD";
                 "baseline_class_BTC_USD"; "baseline_reg_BTC_USD";
                 "DummyRegressor_BTC_USD"; "DummyClassifier_BTC_USD"]))
    as Hrun by (vm_compute; reflexivity).
  apply bind_ok_inv in Hrun as ([[reg_v class_v] leaderboard] & Hrun & Hrest).
  injection Hrest as Hlabels Hpct Hsorted Hsort.
  exists reg_v, class_v, leaderboard.
  split; [exact Hrun|]. split; [exact Hlabels|]. split; [exact Hpct|].
  split; [exact Hsorted|].
  intros Heq. rewrite <-Heq, Hlabels in Hsort. discriminate Hsort.
Qed.

#[local] Existing Instance log_first_term.
#[local] Existing Instance pow_half_exact.
#[local] Existing Instance days_calendar.

(** ** Splitting *)

Lemma btc_history_chronological : StronglySorted Z.lt (index btc_history).
Proof. vm_compute. repeat (constructor; try lia). Qed.


(** The second pass over the parts of that split fits on days 2 to 5 and
    predicts day 6. *)
Lemma split_then_rolling_no_look_ahead_witness :
  StronglySorted Z.lt (index btc_history)
  ∧ (0 <= 6 # 10)%Q ∧ (0 <= 3 # 10)%Q
  ∧ split_frame (Fin (6 # 10)) (Fin (3 # 10)) btc_history
    = Ok (btc_train, btc_validate, btc_test)
  ∧ index btc_validate !! 1 = Some 6%Z
  ∧ ∃ st,
      rolling_state btc_train btc_validate btc_test mean_regressor "fwd_log_ret"
        sample_features_to_use sample_features_to_scale true 1 = Ok st
      ∧ (∀ t1 t2, t1 ∈ index btc_train → t2 ∈ index btc_validate → (t1 < t2)%Z)
      ∧ Forall (λ t', (t' < 6)%Z) (index (X_train_scaled_featured_rolled st)).
Proof.
  assert (0 <= 6 # 10)%Q as Ha by (unfold Qle; simpl; lia).
  assert (0 <= 3 # 10)%Q as Hb by (unfold Qle; simpl; lia).
  assert (split_frame (Fin (6 # 10)) (Fin (3 # 10)) btc_history
          = Ok (btc_train, btc_validate, btc_test)) as Hsplit
    by (vm_compute; reflexivity).
  split; [exact btc_history_chronological|]. split; [exact Ha|].
  split; [exact Hb|]. split; [exact Hsplit|]. split; [reflexivity|].
  destruct (is_ok_inv
              (rolling_state btc_train btc_validate btc_test mean_regressor
                 "fwd_log_ret" sample_features_to_use sample_features_to_scale
                 true 1)) as (st & Hst); [vm_compute; reflexivity|].
  exists st. split; [exact Hst|].
  destruct (split_then_rolling_no_look_ahead btc_history btc_train btc_validate
              btc_test (6 # 10) (3 # 10) mean_regressor "fwd_log_ret"
              sample_features_to_use sample_features_to_scale true 1 6 st
              btc_history_chronological Ha Hb Hsplit eq_refl Hst)
    as (Htv & _ & Hwin & _).
  split; [exact Htv | exact Hwin].
Defined.

(** ** Scaling *)

(** With RR named first among the features and scaled, it comes out as the
    last column. *)
Lemma scale_datasets_layout_witness :
  ∃ sc,
    scale_datasets btc_train btc_validate btc_test "fwd_log_ret"
      ["RR"; "pct_chg"] ["RR"] = Ok sc
    ∧ labels (X_train_scaled sc) = ["pct_chg"; "RR"]
    ∧ labels (X_validate_scaled sc) = ["pct_chg"; "RR"]
    ∧ index (X_validate_scaled sc) = [5; 6]%Z
    ∧ y_validate sc
      = mkDF (index btc_validate)
          [("fwd_log_ret", cells "fwd_log_ret" btc_validate)].
Proof.
  destruct (is_ok_inv
              (scale_datasets btc_train btc_validate btc_test "fwd_log_ret"
                 ["RR"; "pct_chg"] ["RR"])) as (sc & Hsc);
    [vm_compute; reflexivity|].
  exists sc. split; [exact Hsc|].
  destruct (scale_datasets_layout _ _ _ _ _ _ _ Hsc)
    as ((_ & Hiv & _) & (Hlt & Hlv & _) & (_ & Hyv & _)).
  split; [exact Hlt|]. split; [exact Hlv|]. split; [exact Hiv | exact Hyv].
Defined.

(** ** The grid search *)

(** The order (1, 0, 1) on BTC: the forecast of the second Validate day is
    made on the four closes of Train and the first close of Validate. *)
Lemma evaluate_arima_model_walk_forward_witness :
  ∃ error actual predictions history yhat,
    evaluate_arima_model btc_train btc_validate "close" (1, 0, 1)
    = Ok (error, actual, predictions)
    ∧ col "close" btc_train = Ok history
    ∧ length predictions = 2
    ∧ arima_forecast (history ++ take 1 actual) (1, 0, 1) = Ok yhat
    ∧ predictions !! 1 = Some yhat.
Proof.
  destruct (is_ok_inv (evaluate_arima_model btc_train btc_validate "close" (1, 0, 1)))
    as ([[error actual] predictions] & Hrun); [vm_compute; reflexivity|].
  destruct (evaluate_arima_model_walk_forward _ _ _ _ _ _ _ Hrun)
    as (Hactual & _ & Hlen & (history & Hhist & Hsteps) & _).
  assert (length actual = 2) as Hla.
  { vm_compute in Hactual. by injection Hactual as <-. }
  destruct (Hsteps 1) as (yhat & Hf & Hp); [lia|].
  exists error, actual, predictions, history, yhat.
  split; [exact Hrun|]. split; [exact Hhist|].
  split; [by rewrite Hlen|]. split; [exact Hf | exact Hp].
Defined.

(** Two orders on BTC, both of which can be fitted. *)
Lemma evaluate_models_table_witness :
  (∀ o, o ∈ grid [0; 1] [0] [1] →
        is_ok (evaluate_arima_model btc_train btc_validate "close" o) = true)
  ∧ ∃ rows,
      evaluate_models btc_train btc_validate "close" [0; 1] [0] [1] = Ok rows
      ∧ order_pdq <$> rows = [(0, 0, 1); (1, 0, 1)].
Proof.
  assert (∀ o, o ∈ grid [0; 1] [0] [1] →
               is_ok (evaluate_arima_model btc_train btc_validate "close" o)
               = true) as Hall.
  { intros o Ho. vm_compute in Ho.
    apply elem_of_cons in Ho as [->|Ho]; [vm_compute; reflexivity|].
    apply elem_of_cons in Ho as [->|Ho]; [vm_compute; reflexivity|].
    by apply elem_of_nil in Ho. }
  split; [exact Hall|].
  destruct (evaluate_models_table btc_train btc_validate "close" [0; 1] [0] [1] Hall)
    as (rows & Hrun & Horders & _).
  exists rows. split; [exact Hrun | exact Horders].
Defined.

(** ** One pass of a rolling run *)

(** The record of the second pass over BTC. *)
Lemma rolling_pass_record_witness :
  1 < len btc_validate
  ∧ ∃ run st a p v y,
      get_rolling_predictions btc_train btc_validate btc_test mean_regressor
        "fwd_log_ret" sample_features_to_use sample_features_to_scale true
      = Ok run
      ∧ rolling_state btc_train btc_validate btc_test mean_regressor
          "fwd_log_ret" sample_features_to_use sample_features_to_scale true 1
        = Ok st
      ∧ col "fwd_log_ret" (y_train_rolled st) = Ok a
      ∧ train_rolling_actuals run !! 1 = Some a
      ∧ train_rolling_predictions run !! 1 = Some p
      ∧ validate_rolling_predictions run !! 1 = Some v
      ∧ cells "fwd_log_ret" btc_validate !! 1 = Some y
      ∧ validate_rolling_actuals run !! 1 = Some y.
Proof.
  assert (1 < len btc_validate) as Hi by (vm_compute; lia).
  split; [exact Hi|].
  destruct (is_ok_inv
              (get_rolling_predictions btc_train btc_validate btc_test
                 mean_regressor "fwd_log_ret" sample_features_to_use
                 sample_features_to_scale true)) as (run & Hrun);
    [vm_compute; reflexivity|].
  destruct (rolling_pass_record _ _ _ _ _ _ _ _ _ 1 Hrun Hi)
    as (st0 & Xv & yv & st & m & a & p & x_row & v & y & _ & Hst & Ha & _ & _
        & Hta & Htp & _ & _ & _ & Hvp & Hy & Hva).
  exists run, st, a, p, v, y.
  split; [exact Hrun|]. split; [exact Hst|]. split; [exact Ha|].
  split; [exact Hta|]. split; [exact Htp|]. split; [exact Hvp|].
  split; [exact Hy | exact Hva].
Defined.

(** A window without any label: the fit of the second pass raises, and so
    does the run. *)
Lemma rolling_failure_aborts_witness :
  1 < len gap_validate
  ∧ ∃ st y,
      rolling_state gap_train gap_validate gap_test majority_classifier
        "fwd_close_positive" sample_features_to_use sample_features_to_scale
        false 1 = Ok st
      ∧ col "fwd_close_positive" (y_train_rolled st) = Ok y
      ∧ fit (fitted_model st) (X_train_scaled_featured_rolled st) y
        = Raise KeyError
      ∧ get_rolling_predictions gap_train gap_validate gap_test
          majority_classifier "fwd_close_positive" sample_features_to_use
          sample_features_to_scale false = Raise KeyError.
Proof.
  assert (1 < len gap_validate) as Hi by (vm_compute; lia).
  split; [exact Hi|].
  assert ((st ← rolling_state gap_train gap_validate gap_test majority_classifier
                  "fwd_close_positive" sample_features_to_use
                  sample_features_to_scale false 1;
           y ← col "fwd_close_positive" (y_train_rolled st);
           match fit (fitted_model st) (X_train_scaled_featured_rolled st) y with
           | Raise e => mret e
           | Ok _ => Raise OtherError
           end) = Ok KeyError) as Hrun by (vm_compute; reflexivity).
  apply bind_ok_inv in Hrun as (st & Hst & Hrun).
  apply bind_ok_inv in Hrun as (y & Hy & Hfit).
  assert (fit (fitted_model st) (X_train_scaled_featured_rolled st) y
          = Raise KeyError) as Hraise.
  { destruct (fit _ _ _) as [m|e]; [discriminate|]. by injection Hfit as ->. }
  exists st, y. split; [exact Hst|]. split; [exact Hy|]. split; [exact Hraise|].
  exact (rolling_failure_aborts _ _ _ _ _ _ _ _ 1 st y KeyError Hst Hi Hy
           (or_introl Hraise)).
Defined.

(** The table of the regression run over BTC has two rows, and the second
    has no trade. *)
Lemma rolling_last_trade_null_witness :
  length (cells "close" btc_validate) = len btc_validate
  ∧ ∃ run validate_res,
      get_rolling_predictions btc_train btc_validate btc_test mean_regressor
        "fwd_log_ret" sample_features_to_use sample_features_to_scale true
      = Ok run
      ∧ validate_res_of btc_validate (validate_rolling_actuals run)
          (validate_rolling_predictions run) = Ok validate_res
      ∧ length (cells "predictions" validate_res) = 2
      ∧ cells "ret" validate_res !! 1 = Some NaN
      ∧ cells "pct_ret" validate_res !! 1 = Some NaN.
Proof.
  split; [reflexivity|].
  assert (is_ok (run ← get_rolling_predictions btc_train btc_validate btc_test
                         mean_regressor "fwd_log_ret" sample_features_to_use
                         sample_features_to_scale true;
                 validate_res_of btc_validate (validate_rolling_actuals run)
                   (validate_rolling_predictions run)) = true) as Hok
    by (vm_compute; reflexivity).
  apply is_ok_inv in Hok as (validate_res & Hok).
  apply bind_ok_inv in Hok as (run & Hrun & Htab).
  exists run, validate_res. split; [exact Hrun|]. split; [exact Htab|].
  destruct (rolling_last_trade_null _ _ _ _ _ _ _ _ _ _ Hrun Htab eq_refl)
    as (_ & Hlp & _ & _ & Hret & Hpct).
  split; [exact Hlp|]. split; [exact Hret | exact Hpct].
Defined.

(** ** The tables of the conventional split *)

(** The regression table of BTC with the mean regressor. *)
Lemma calculate_regression_results_table_witness :
  ∃ reg tbl vr rows baseline,
    predict_regression [mean_regressor] btc_train btc_validate btc_test
      sample_features_to_use sample_features_to_scale true 5 = Ok reg
    ∧ calculate_regression_results [mean_regressor] (metrics_train reg)
        (metrics_validate reg) btc_validate (y_validate_predicted reg)
      = Ok (tbl, vr)
    ∧ tbl ≡ₚ rows ++ [baseline]
    ∧ pct_descending tbl
    ∧ length tbl = 2
    ∧ label <$> rows = ["DummyRegressor"]
    ∧ label baseline = "baseline_reg".
Proof.
  assert (is_ok (reg ← predict_regression [mean_regressor] btc_train
                         btc_validate btc_test sample_features_to_use
                         sample_features_to_scale true 5;
                 calculate_regression_results [mean_regressor]
                   (metrics_train reg) (metrics_validate reg) btc_validate
                   (y_validate_predicted reg)) = true) as Hok
    by (vm_compute; reflexivity).
  apply is_ok_inv in Hok as ([tbl vr] & Hok).
  apply bind_ok_inv in Hok as (reg & Hreg & Htab).
  destruct (calculate_regression_results_table _ _ _ _ _ _ _ Htab)
    as (rows & baseline & Hperm & Hsorted & Hlen & Hlabels & _ & Hbase).
  exists reg, tbl, vr, rows, baseline.
  split; [exact Hreg|]. split; [exact Htab|]. split; [exact Hperm|].
  split; [exact Hsorted|]. split; [exact Hlen|]. split; [exact Hlabels|].
  rewrite Hbase. reflexivity.
Defined.

(** The leaderboard of the two assets with one model of each kind: two
    blocks of four rows. *)
Lemma conventional_split_blocks_witness :
  ∃ reg_v class_v leaderboard blocks,
    conventional_split sample_split [mean_regressor] [majority_classifier]
      sample_features_to_use sample_features_to_scale
    = Ok (reg_v, class_v, leaderboard)
    ∧ reg_v.*1 = ["BTC_USD"; "ETH_USD"]
    ∧ blocks.*1 = ["BTC_USD"; "ETH_USD"]
    ∧ leaderboard = blocks.*2 ≫= id
    ∧ length leaderboard = 8
    ∧ Forall (λ kb : string * list LeaderRow,
                length kb.2 = 4 ∧ pct_descending kb.2) blocks.
Proof.
  destruct (is_ok_inv
              (conventional_split sample_split [mean_regressor]
                 [majority_classifier] sample_features_to_use
                 sample_features_to_scale))
    as ([[reg_v class_v] leaderboard] & Hrun); [vm_compute; reflexivity|].
  destruct (conventional_split_blocks _ _ _ _ _ _ _ _ Hrun)
    as (Hrv & _ & blocks & Hkeys & Hcat & Hlen & Hblocks).
  exists reg_v, class_v, leaderboard, blocks.
  split; [exact Hrun|]. split; [exact Hrv|]. split; [exact Hkeys|].
  split; [exact Hcat|]. split; [exact Hlen|].
  eapply Forall_impl; [exact Hblocks|].
  intros kb (Hl & Hs & _). split; [exact Hl | exact Hs].
Defined.

(** ** The dictionaries of rolling_reg_models *)

(** Two assets, two dictionaries. *)
Lemma rolling_reg_models_own_dictionaries_witness :
  NoDup sample_split.*1
  ∧ ∃ mapping store,
      rolling_reg_models sample_split [mean_regressor] "fwd_log_ret"
        sample_features_to_use sample_features_to_scale = Ok (mapping, store)
      ∧ mapping !! "BTC_USD" = Some 0 ∧ mapping !! "ETH_USD" = Some 1
      ∧ size store = 2.
Proof.
  assert (NoDup sample_split.*1) as Hnd.
  { apply (bool_decide_unpack _). by vm_compute. }
  split; [exact Hnd|].
  destruct (is_ok_inv
              (rolling_reg_models sample_split [mean_regressor] "fwd_log_ret"
                 sample_features_to_use sample_features_to_scale))
    as ([mapping store] & Hrun); [vm_compute; reflexivity|].
  destruct (rolling_reg_models_own_dictionaries _ _ _ _ _ _ _ Hnd Hrun)
    as (_ & Hsize & _ & Hown).
  destruct (Hown 0 "BTC_USD" btc_train btc_validate btc_test eq_refl)
    as (Hbtc & _).
  destruct (Hown 1 "ETH_USD" eth_train eth_validate eth_test eq_refl)
    as (Heth & _).
  exists mapping, store.
  split; [exact Hrun|]. split; [exact Hbtc|]. split; [exact Heth | exact Hsize].
Defined.

(** ** Feature engineering *)

Lemma raw_prices_rectangular : rectangular raw_prices.
Proof. unfold rectangular. vm_compute. by repeat constructor. Qed.

(** Of eleven days, three at most are left: they are the days 8, 9 and
    10. *)
Lemma add_features_rows_witness :
  np_log NaN = NaN ∧ rectangular raw_prices
  ∧ ∃ out kept,
      add_features raw_prices = Ok out
      ∧ Forall (λ i, 7 ≤ i ∧ S i < 11) kept
      ∧ Forall2 (λ t i, index raw_prices !! i = Some t) (index out) kept
      ∧ len out ≤ 3
      ∧ ∀ c x, x ∈ cells c out → isna x = false.
Proof.
  split; [reflexivity|]. split; [exact raw_prices_rectangular|].
  destruct (is_ok_inv (add_features raw_prices)) as (out & Hrun);
    [vm_compute; reflexivity|].
  destruct (add_features_rows raw_prices out eq_refl raw_prices_rectangular Hrun)
    as (kept & _ & Hbounds & Hidx & Hlen & _ & Hna).
  exists out, kept. split; [exact Hrun|]. split; [exact Hbounds|].
  split; [exact Hidx|]. split; [exact Hlen | exact Hna].
Defined.

(** The first row that is left is day 8, which closes at 112 before a
    close at 111. *)
Lemma add_features_targets_witness :
  rectangular raw_prices
  ∧ ∃ out kept,
      add_features raw_prices = Ok out
      ∧ Forall2 (λ t i, index raw_prices !! i = Some t) (index out) kept
      ∧ (∀ i, kept !! 0 = Some i → i = 7 →
           cells "fwd_ret" out !! 0 = Some (Fin (111 - 112))
           ∧ cells "fwd_close_positive" out !! 0 = Some (Fin 0)).
Proof.
  split; [exact raw_prices_rectangular|].
  destruct (is_ok_inv (add_features raw_prices)) as (out & Hrun);
    [vm_compute; reflexivity|].
  destruct (add_features_targets raw_prices out raw_prices_rectangular Hrun)
    as (kept & Hidx & Hrows).
  exists out, kept. split; [exact Hrun|]. split; [exact Hidx|].
  intros i Hi ->.
  destruct (Hrows 0 7 Hi)
    as (c0 & c1 & Hc0 & Hc1 & _ & _ & _ & Hret & Hpos & _).
  vm_compute in Hc0. injection Hc0 as <-.
  vm_compute in Hc1. injection Hc1 as <-.
  split; [exact Hret | exact Hpos].
Defined.

(** Every row that is left has seven rows above it. *)
Lemma add_features_features_witness :
  np_log NaN = NaN ∧ rectangular raw_prices
  ∧ ∃ out kept,
      add_features raw_prices = Ok out
      ∧ Forall2 (λ t i, index raw_prices !! i = Some t) (index out) kept
      ∧ ∀ j i, kept !! j = Some i → 7 ≤ i.
Proof.
  split; [reflexivity|]. split; [exact raw_prices_rectangular|].
  destruct (is_ok_inv (add_features raw_prices)) as (out & Hrun);
    [vm_compute; reflexivity|].
  destruct (add_features_features raw_prices out eq_refl raw_prices_rectangular
              Hrun) as (kept & Hidx & Hrows).
  exists out, kept. split; [exact Hrun|]. split; [exact Hidx|].
  intros j i Hj. destruct (Hrows j i Hj) as (Hi & _). exact Hi.
Defined.

End Examples.
